(** * The converged-package migration generator

    A shallow embedding of [tools/generators/migrate-converged-pkg/index.ts]:
    the generator edits a devkit [Tree] (files plus the workspace's project
    registry) and collects a user log.  Every function of the generator is
    a computation in a state-and-exception monad over that pair, so that a
    thrown error keeps the writes made before it, as in the source. *)

From Stdlib Require Import String Ascii List Bool Arith Lia DecimalString.
From stdpp Require Import base option gmap strings list fin_maps.
Import ListNotations.

(** ** JavaScript string primitives used by the generator *)

Module Js.

(** [s.startsWith(p)] *)
Fixpoint startsWith (p s : string) : bool :=
  match p, s with
  | EmptyString, _ => true
  | String a p', String b s' => if Ascii.eqb a b then startsWith p' s' else false
  | String _ _, EmptyString => false
  end.

(** [s.slice(n)] *)
Fixpoint slice (n : nat) (s : string) : string :=
  match n, s with
  | O, _ => s
  | S n', String _ s' => slice n' s'
  | S _, EmptyString => EmptyString
  end.

(** [s.includes(p)] *)
Fixpoint includes (p s : string) : bool :=
  startsWith p s ||
  match s with
  | EmptyString => false
  | String _ s' => includes p s'
  end.

(** [s.replace(pat, rep)] with a string pattern: only the first
    occurrence of [pat] is replaced.  ([rep] holds no [$] here.) *)
Fixpoint replace (pat rep s : string) : string :=
  if startsWith pat s then rep +:+ slice (String.length pat) s
  else match s with
       | EmptyString => EmptyString
       | String c s' => String c (replace pat rep s')
       end.

(** [s.split(sep)] for a one-character separator *)
Fixpoint split (sep : ascii) (s : string) : list string :=
  match s with
  | EmptyString => [EmptyString]
  | String c s' =>
      if Ascii.eqb c sep then EmptyString :: split sep s'
      else match split sep s' with
           | [] => [String c EmptyString]
           | x :: xs => String c x :: xs
           end
  end.

(** [l.join(sep)] *)
Fixpoint join (sep : string) (l : list string) : string :=
  match l with
  | [] => EmptyString
  | [x] => x
  | x :: xs => x +:+ sep +:+ join sep xs
  end.

(** White space as [trim] sees it, within ASCII. *)
Definition isSpace (c : ascii) : bool :=
  let n := nat_of_ascii c in Nat.eqb n 32 || (Nat.leb 9 n && Nat.leb n 13).

Fixpoint trimStart (s : string) : string :=
  match s with
  | EmptyString => EmptyString
  | String c s' => if isSpace c then trimStart s' else s
  end.

Fixpoint trimEnd (s : string) : string :=
  match s with
  | EmptyString => EmptyString
  | String c s' =>
      match trimEnd s' with
      | EmptyString => if isSpace c then EmptyString else String c EmptyString
      | r => String c r
      end
  end.

Definition trim (s : string) : string := trimEnd (trimStart s).

Definition newline : string := String (ascii_of_nat 10) EmptyString.

(** devkit's [stripIndents] tag applied to the interpolated text:
    every line trimmed, then the whole trimmed. *)
Definition stripIndents (raw : string) : string :=
  trim (join newline (map trim (split (ascii_of_nat 10) raw))).

(** [s.replace(/\.stories\.tsx?$/, '')]: the match is anchored at the
    end, so the leftmost position where the rest of the string is the
    whole pattern is cut off. *)
Fixpoint stripStoriesSuffix (s : string) : string :=
  if String.eqb s ".stories.tsx" || String.eqb s ".stories.ts" then EmptyString
  else match s with
       | EmptyString => EmptyString
       | String c s' => String c (stripStoriesSuffix s')
       end.

(** Truthiness of an optional string and of an optional flag. *)
Definition truthyStr (o : option string) : bool :=
  match o with
  | Some s => negb (String.eqb s EmptyString)
  | None => false
  end.

Definition truthyFlag (o : option bool) : bool :=
  match o with
  | Some b => b
  | None => false
  end.

End Js.

(** ** JSON documents the generator reads and writes *)

(** [PackageJson] of [tools/types]: the fields the generator touches;
    the remaining top-level entries ride along untouched in [pj_rest]. *)
Record PackageJson := mkPackageJson {
  pj_version : option string;
  pj_scripts : option (gmap string string);
  pj_dependencies : option (gmap string string);
  pj_rest : list (string * string)
}.

Record CompilerOptions := mkCompilerOptions {
  co_types : option (list string);
  co_paths : option (gmap string (list string));
  co_rest : list (string * string)
}.

(** [TsConfig] of [tools/types]. *)
Record TsConfig := mkTsConfig {
  ts_extends : option string;
  ts_include : option (list string);
  ts_compilerOptions : option CompilerOptions;
  ts_rest : list (string * string)
}.

(** A file of the tree: text, or a JSON document in parsed form: a
    package manifest, a TypeScript config, or another flat document.
    Reading one kind as another fails like unparsable text. *)
Inductive File :=
| FText (s : string)
| FPackageJson (p : PackageJson)
| FTsConfig (c : TsConfig)
| FJson (entries : list (string * string)).

(** ** The project registry (workspace.json, nx.json) *)

Record ProjectConfiguration := mkProject {
  root : string;
  sourceRoot : option string;
  tags : option (list string);
  pc_rest : list (string * string)
}.

(** devkit's [Tree] together with the registry it stores. *)
Record Tree := mkTree {
  files : gmap string File;
  npmScope : string;
  projects : list (string * ProjectConfiguration)
}.

Inductive LogType := info | warn | error | log.

Record LogEntry := mkLog { type : LogType; message : string }.

Definition UserLog := list LogEntry.

(** ** Exceptions and the generator monad *)

Inductive exn :=
| Error (msg : string)        (* [throw new Error(msg)] in the generator *)
| DevkitError (msg : string)  (* thrown inside a devkit helper *)
| TypeError (msg : string).   (* property access on [undefined] *)

Inductive Outcome (A : Type) :=
| Ok (a : A)
| Throw (e : exn).
Arguments Ok {A} a.
Arguments Throw {A} e.

(** The state a run works on.  [tsconfigTypes] is the [types] array of
    [templates.tsconfig.compilerOptions]: the template object lives for
    the whole process and [updatedLocalTsConfig] assigns to it through a
    shallow copy, so it is part of the state. *)
Record State := mkState {
  tree : Tree;
  userLog : UserLog;
  tsconfigTypes : list string
}.

(** A computation returns its outcome and the state it leaves behind;
    a throw leaves the state as it was when thrown. *)
Definition M (A : Type) : Type := State → Outcome A * State.

Definition ret {A} (a : A) : M A := λ st, (Ok a, st).

Definition bind {A B} (m : M A) (k : A → M B) : M B :=
  λ st, match m st with
        | (Ok a, st') => k a st'
        | (Throw e, st') => (Throw e, st')
        end.

Definition throw {A} (e : exn) : M A := λ st, (Throw e, st).

Declare Scope gen_scope.
Delimit Scope gen_scope with gen.
Notation "'let!' x ':=' m 'in' k" := (bind m (λ x, k))
  (at level 10, x name, m at level 100, k at level 200) : gen_scope.
Notation "m '>>>' k" := (bind m (λ _, k))
  (at level 90, right associativity) : gen_scope.
Local Open Scope gen_scope.

Definition getTree : M Tree := λ st, (Ok (tree st), st).

Definition putFiles (fs : gmap string File) : M unit :=
  λ st, (Ok tt,
         mkState (mkTree fs (npmScope (tree st)) (projects (tree st)))
                 (userLog st) (tsconfigTypes st)).

Definition putProjects (ps : list (string * ProjectConfiguration)) : M unit :=
  λ st, (Ok tt,
         mkState (mkTree (files (tree st)) (npmScope (tree st)) ps)
                 (userLog st) (tsconfigTypes st)).

(** [userLog.push(...es)] *)
Definition pushLog (es : list LogEntry) : M unit :=
  λ st, (Ok tt, mkState (tree st) (userLog st ++ es) (tsconfigTypes st)).

Definition getTemplateTypes : M (list string) :=
  λ st, (Ok (tsconfigTypes st), st).

Definition setTemplateTypes (ts : list string) : M unit :=
  λ st, (Ok tt, mkState (tree st) (userLog st) ts).

(** [arr.forEach(f)] for an effectful callback. *)
Fixpoint forEach {A} (f : A → M unit) (l : list A) : M unit :=
  match l with
  | [] => ret tt
  | x :: xs => f x >>> forEach f xs
  end.

(** ** What the generator takes from its surroundings *)

Record Host := mkHost {
  (** the text of a stored JSON document, as [Buffer.toString] shows it *)
  serializeJson : File → string;
  (** the path, or a directory on the way to it, is matched by .gitignore *)
  ignored : string → bool;
  (** the order in which the tree lists the entries of a directory:
      entry [a] comes before entry [b] ([tree.children]) *)
  listedBefore : string → string → bool;
  (** [arePromptsEnabled()] and the operator's answer to the name prompt,
      both of [tools/utils] *)
  arePromptsEnabled : bool;
  promptedName : string;
  (** the root jest config's text once a project root is registered in
      it: what [updateJestConfig] of [tools/utils] (not among the
      sources) does to that one file *)
  jestConfigWithProject : string → string → string;
  (** devkit's [formatFiles] *)
  formatFiles : gmap string File → gmap string File
}.

(** ** devkit: paths, files, registry *)

Module Devkit.

(** [joinPathFragments(...fragments)] on normalised fragments. *)
Definition joinPathFragments (fragments : list string) : string :=
  Js.join "/" fragments.

(** [p] is [d] itself or lies below it. *)
Definition within (d p : string) : bool :=
  String.eqb p d || Js.startsWith (d +:+ "/") p.

(** [tree.exists(p)]: a file, or a directory holding one. *)
Definition existsIn (fs : gmap string File) (p : string) : bool :=
  existsb (λ kv, within p kv.1) (map_to_list fs).

(** [tree.delete(p)]: the file, or the directory with all below it. *)
Definition deleteIn (fs : gmap string File) (p : string) : gmap string File :=
  filter (λ kv, within p kv.1 = false) fs.

(** [visitNotIgnoredFiles] walks depth first, taking the entries of
    each directory in the order the tree lists them.  Of two paths,
    given by their fragments, the walk reaches first the one whose entry
    is listed first in the directory where the two part. *)
Fixpoint walkedBefore (h : Host) (p q : list string) : bool :=
  match p, q with
  | [], _ => true
  | _ :: _, [] => false
  | a :: p', b :: q' =>
      if String.eqb a b then walkedBefore h p' q' else listedBefore h a b
  end.

Fixpoint insertWalked (h : Host) (x : string) (l : list string) : list string :=
  match l with
  | [] => [x]
  | y :: l' =>
      if walkedBefore h (Js.split (ascii_of_nat 47) x) (Js.split (ascii_of_nat 47) y)
      then x :: y :: l'
      else y :: insertWalked h x l'
  end.

(** The paths [l] in the order of the walk. *)
Definition inWalkOrder (h : Host) (l : list string) : list string :=
  foldr (insertWalked h) [] l.

(** The files [visitNotIgnoredFiles(tree, dir, visitor)] hands to the
    visitor, in the order of the visit: the files below [dir] that are
    not ignored, depth first in listing order. *)
Definition visitedFiles (h : Host) (fs : gmap string File) (dir : string)
  : list string :=
  inWalkOrder h
    (List.filter (λ p, Js.startsWith (dir +:+ "/") p && negb (ignored h p))
                 (map fst (map_to_list fs))).

(** [buffer.toString('utf-8')] *)
Definition fileText (h : Host) (f : File) : string :=
  match f with
  | FText s => s
  | _ => serializeJson h f
  end.

Definition exists_ (p : string) : M bool :=
  λ st, (Ok (existsIn (files (tree st)) p), st).

Definition read (p : string) : M (option File) :=
  λ st, (Ok (files (tree st) !! p), st).

Definition write (p : string) (f : File) : M unit :=
  let! t := getTree in putFiles (<[p := f]> (files t)).

Definition delete_ (p : string) : M unit :=
  let! t := getTree in putFiles (deleteIn (files t) p).

(** [readJson<PackageJson>(tree, p)]; a missing file, text, or a
    document of the other kind is an error. *)
Definition readPackageJson (p : string) : M PackageJson :=
  let! f := read p in
  match f with
  | Some (FPackageJson pj) => ret pj
  | Some _ => throw (DevkitError ("Cannot parse " +:+ p))
  | None => throw (DevkitError ("Cannot find " +:+ p))
  end.

(** [readJson<TsConfig>(tree, p)] *)
Definition readTsConfig (p : string) : M TsConfig :=
  let! f := read p in
  match f with
  | Some (FTsConfig c) => ret c
  | Some _ => throw (DevkitError ("Cannot parse " +:+ p))
  | None => throw (DevkitError ("Cannot find " +:+ p))
  end.

(** [updateJson(tree, p, updater)]: read, update, write back; a throw
    of the updater leaves the file as it was. *)
Definition updatePackageJson (p : string)
    (updater : PackageJson → Outcome PackageJson) : M unit :=
  let! pj := readPackageJson p in
  match updater pj with
  | Ok pj' => write p (FPackageJson pj')
  | Throw e => throw e
  end.

Definition updateTsConfig (p : string)
    (updater : TsConfig → Outcome TsConfig) : M unit :=
  let! c := readTsConfig p in
  match updater c with
  | Ok c' => write p (FTsConfig c')
  | Throw e => throw e
  end.

(** [getProjects(tree)]: the registry in its own order. *)
Definition getProjects : M (list (string * ProjectConfiguration)) :=
  λ st, (Ok (projects (tree st)), st).

(** [map.get(name)] *)
Fixpoint lookupProject (ps : list (string * ProjectConfiguration))
    (name : string) : option ProjectConfiguration :=
  match ps with
  | [] => None
  | (n, c) :: ps' => if String.eqb n name then Some c else lookupProject ps' name
  end.

Definition readProjectConfiguration (name : string) : M ProjectConfiguration :=
  let! ps := getProjects in
  match lookupProject ps name with
  | Some c => ret c
  | None => throw (DevkitError ("Cannot find configuration for '" +:+ name +:+ "'"))
  end.

Definition replaceProject (name : string) (c : ProjectConfiguration)
    (ps : list (string * ProjectConfiguration))
  : list (string * ProjectConfiguration) :=
  map (λ nc, if String.eqb nc.1 name then (nc.1, c) else nc) ps.

Definition updateProjectConfiguration (name : string)
    (c : ProjectConfiguration) : M unit :=
  let! ps := getProjects in
  match lookupProject ps name with
  | Some _ => putProjects (replaceProject name c ps)
  | None => throw (DevkitError ("Cannot update Project '" +:+ name +:+ "'. It does not exist."))
  end.

(** [readWorkspaceConfiguration(tree).npmScope] *)
Definition readNpmScope : M string :=
  λ st, (Ok (npmScope (tree st)), st).

End Devkit.

(** ** The generator's own types *)

(** [MigrateConvergedPkgGeneratorSchema] of [./schema]. *)
Module Schema.
Record t := mk {
  name : option string;
  all : option bool;
  stats : option bool
}.
End Schema.

Record StorybookPaths := mkStorybookPaths {
  sb_tsconfig : string;
  sb_main : string;
  sb_preview : string
}.

Record Paths := mkPaths {
  configRoot : string;
  packageJson : string;
  tsconfig : string;
  jestConfig : string;
  rootTsconfig : string;
  rootJestPreset : string;
  rootJestConfig : string;
  npmConfig : string;
  storybook : StorybookPaths
}.

(** [NormalizedSchema]: what [normalizeOptions] returns. *)
Module Options.
Record t := mk {
  name : string;
  projectConfig : ProjectConfiguration;
  workspaceNpmScope : string;
  normalizedPkgName : string;
  paths : Paths
}.
End Options.

(** ** Templates *)

Module templates.

Definition apiExtractorLocal : File :=
  FJson [("$schema", "https://developer.microsoft.com/json-schemas/api-extractor/v7/api-extractor.schema.json");
         ("extends", "./api-extractor.json");
         ("mainEntryPointFilePath", "<projectFolder>/dist/<unscopedPackageName>/src/index.d.ts")].

Definition apiExtractor : File :=
  FJson [("$schema", "https://developer.microsoft.com/json-schemas/api-extractor/v7/api-extractor.schema.json");
         ("extends", "@fluentui/scripts/api-extractor/api-extractor.common.json")].

(** [templates.tsconfig.compilerOptions.types] as the module is loaded. *)
Definition tsconfigTypes0 : list string :=
  ["jest"; "custom-global"; "inline-style-expand-shorthand"; "storybook__addons"].

(** [templates.tsconfig] with the [types] the template holds now. *)
Definition tsconfig (types : list string) : TsConfig :=
  mkTsConfig (Some "../../tsconfig.base.json") (Some ["src"])
    (Some (mkCompilerOptions (Some types) None
       [("target", "'ES2020'"); ("module", "'CommonJS'");
        ("lib", "['ES2020', 'dom']"); ("outDir", "'dist'"); ("jsx", "'react'");
        ("declaration", "true"); ("experimentalDecorators", "true");
        ("importHelpers", "true"); ("noUnusedLocals", "true");
        ("preserveConstEnums", "true")]))
    [].

Definition jestSetup : string :=
  Js.stripIndents "
   /** Jest test setup file. */
  ".

Definition jest (pkgName : string) (addSnapshotSerializers : bool)
    (testSetupFilePath : string) : string :=
  Js.stripIndents ("
      // @ts-check

      /**
      * @type {jest.InitialOptions}
      */
      module.exports = {
        displayName: '" +:+ pkgName +:+ "',
        preset: '../../jest.preset.js',
        globals: {
          'ts-jest': {
            tsConfig: '<rootDir>/tsconfig.json',
            diagnostics: false,
          },
        },
        transform: {
          '^.+\\.tsx?$': 'ts-jest',
        },
        coverageDirectory: './coverage',
        setupFilesAfterEnv: ['" +:+ testSetupFilePath +:+ "'],
        " +:+ (if addSnapshotSerializers
             then "snapshotSerializers: ['@fluentui/jest-serializer-make-styles'],"
             else "") +:+ "
      };
  ").

Definition storybook_main : string :=
  Js.stripIndents "
      const rootMain = require('../../../.storybook/main');

      module.exports = /** @type {Pick<import('../../../.storybook/main').StorybookConfig,'addons'|'stories'|'webpackFinal'>} */ ({
        stories: [...rootMain.stories, '../src/**/*.stories.mdx', '../src/**/*.stories.@(ts|tsx)'],
        addons: [...rootMain.addons],
        webpackFinal: (config, options) => {
          const localConfig = { ...rootMain.webpackFinal(config, options) };

          return localConfig;
        },
      });
    ".

Definition storybook_preview : string :=
  Js.stripIndents "
      import * as rootPreview from '../../../.storybook/preview';

      /** @type {typeof rootPreview.decorators} */
      export const decorators = [...rootPreview.decorators];

      /** @type {typeof rootPreview.parameters} */
      export const parameters = { ...rootPreview.parameters };
    ".

Definition storybook_tsconfig : TsConfig :=
  mkTsConfig (Some "../tsconfig.json") (Some ["../src/**/*"; "*.js"])
    (Some (mkCompilerOptions None None [("allowJs", "true"); ("checkJs", "true")]))
    [("exclude", "['../**/*.test.ts', '../**/*.test.js', '../**/*.test.tsx', '../**/*.test.jsx']")].

Definition npmIgnoreConfig : string :=
  Js.stripIndents "
    .cache/
    .storybook/
    .vscode/
    bundle-size/
    config/
    coverage/
    e2e/
    etc/
    node_modules/
    src/
    temp/
    __fixtures__
    __mocks__
    __tests__

    *.api.json
    *.log
    *.spec.*
    *.stories.*
    *.test.*
    *.yml

    # config files
    *config.*
    *rc.*
    .editorconfig
    .eslint*
    .git*
    .prettierignore
  ".

(** The default-export block appended to a moved story. *)
Definition storyDefaultExport (componentName : string) : string :=
  Js.stripIndents ("
        export default {
            title: 'Components/" +:+ componentName +:+ "',
            component: " +:+ componentName +:+ ",
        }
      ").

End templates.

(** ** The generator *)

Section Generator.

Variable h : Host.

Import Devkit.

Definition slash : ascii := ascii_of_nat 47.

(** [filePath.split(path.sep)], with the POSIX separator. *)
Definition splitPathFragments (filePath : string) : list string :=
  Js.split slash filePath.

(** [path.basename(p)] *)
Definition basename (p : string) : string := List.last (Js.split slash p) EmptyString.

(** [Array.from(new Set(value))]: first occurrences, in order. *)
Fixpoint uniqueFrom (seen value : list string) : list string :=
  match value with
  | [] => []
  | x :: xs =>
      if existsb (String.eqb x) seen then uniqueFrom seen xs
      else x :: uniqueFrom (x :: seen) xs
  end.

Definition uniqueArray (value : list string) : list string := uniqueFrom [] value.

Definition normalizeOptions (name : string) : M Options.t :=
  let! scope := readNpmScope in
  let! projectConfig := readProjectConfiguration name in
  ret (Options.mk name projectConfig scope
         (Js.replace ("@" +:+ scope +:+ "/") "" name)
         (mkPaths
            (joinPathFragments [root projectConfig; "config"])
            (joinPathFragments [root projectConfig; "package.json"])
            (joinPathFragments [root projectConfig; "tsconfig.json"])
            (joinPathFragments [root projectConfig; "jest.config.js"])
            "/tsconfig.base.json"
            "/jest.preset.js"
            "/jest.config.js"
            (joinPathFragments [root projectConfig; ".npmignore"])
            (mkStorybookPaths
               (joinPathFragments [root projectConfig; ".storybook/tsconfig.json"])
               (joinPathFragments [root projectConfig; ".storybook/main.js"])
               (joinPathFragments [root projectConfig; ".storybook/preview.js"])))).

(** [hasSchemaFlag(schema, flag)] is [Boolean(schema[flag])]. *)
Definition hasName (s : Schema.t) : bool := Js.truthyStr (Schema.name s).
Definition hasAll (s : Schema.t) : bool := Js.truthyFlag (Schema.all s).
Definition hasStats (s : Schema.t) : bool := Js.truthyFlag (Schema.stats s).

Definition isPackageConverged (project : ProjectConfiguration) : M bool :=
  let! packageJson := readPackageJson (joinPathFragments [root project; "package.json"]) in
  match pj_version packageJson with
  | Some version => ret (Js.startsWith "9." version)
  | None => throw (TypeError "Cannot read property 'startsWith' of undefined")
  end.

Definition isProjectMigrated (project : ProjectConfiguration) : bool :=
  match sourceRoot project with
  | Some _ =>
      match tags project with
      | Some ts => existsb (String.eqb "vNext") ts
      | None => false
      end
  | None => false
  end.

Definition shouldValidateNameInput (newSchema : Schema.t) : bool :=
  negb (hasName newSchema) && negb (hasAll newSchema || hasStats newSchema).

Definition validateSchema (schema : Schema.t) : M Schema.t :=
  if hasName schema && hasStats schema then
    throw (Error "--name and --stats are mutually exclusive")
  else if hasName schema && hasAll schema then
    throw (Error "--name and --all are mutually exclusive")
  else if hasStats schema && hasAll schema then
    throw (Error "--stats and --all are mutually exclusive")
  else
    let shouldTriggerPrompt := arePromptsEnabled h && shouldValidateNameInput schema in
    let newSchema :=
      if shouldTriggerPrompt
      then Schema.mk (Some (promptedName h)) (Schema.all schema) (Schema.stats schema)
      else schema in
    if shouldValidateNameInput newSchema then
      throw (Error "--name cannot be empty. Please provide name of the package.")
    else
      match Schema.name newSchema with
      | Some name =>
          if hasName newSchema then
            let! projectConfig := readProjectConfiguration name in
            let! converged := isPackageConverged projectConfig in
            if converged then ret newSchema
            else throw (Error (name +:+ " is not converged package. Make sure to run the migration on packages with version 9.x.x"))
          else ret newSchema
      | None => ret newSchema
      end.

Record Stats := mkStats {
  migrated : list (string * ProjectConfiguration);
  notMigrated : list (string * ProjectConfiguration)
}.

(** The [forEach] of [printStats], with the two arrays it fills. *)
Fixpoint collectStats (allProjects : list (string * ProjectConfiguration))
    (stats : Stats) : M Stats :=
  match allProjects with
  | [] => ret stats
  | (projectName, project) :: rest =>
      let! converged := isPackageConverged project in
      if negb converged then collectStats rest stats
      else if isProjectMigrated project then
        collectStats rest
          (mkStats (migrated stats ++ [(projectName, project)]) (notMigrated stats))
      else
        collectStats rest
          (mkStats (migrated stats) (notMigrated stats ++ [(projectName, project)]))
  end.

Definition repeat80 : string := Js.join "" (List.repeat "=" 80).

Definition showNat (n : nat) : string := NilZero.string_of_uint (Nat.to_uint n).

Definition statLines (l : list (string * ProjectConfiguration)) : string :=
  Js.join Js.newline (map (λ projectStat, "- " +:+ projectStat.1) l).

(** [printStats]: what goes to [logger.info], line by line. *)
Definition printStats : M (list LogEntry) :=
  let! allProjects := getProjects in
  let! stats := collectStats allProjects (mkStats [] []) in
  ret [mkLog info "Convergence DX migration stats:";
       mkLog info repeat80;
       mkLog info ("Migrated (" +:+ showNat (length (migrated stats)) +:+ "):");
       mkLog info (statLines (migrated stats));
       mkLog info repeat80;
       mkLog info ("Not migrated (" +:+ showNat (length (notMigrated stats)) +:+ "):");
       mkLog info (statLines (notMigrated stats))].

Definition updateNxWorkspace (options : Options.t) : M unit :=
  let cfg := Options.projectConfig options in
  updateProjectConfiguration (Options.name options)
    (mkProject (root cfg)
       (Some (joinPathFragments [root cfg; "src"]))
       (Some (uniqueArray (default [] (tags cfg) ++ ["vNext"; "platform:web"])))
       (pc_rest cfg)).

Definition setupNpmConfig (options : Options.t) : M unit :=
  write (npmConfig (Options.paths options)) (FText templates.npmIgnoreConfig).

(** The updater [updateNpmScripts] hands to [updateJson]. *)
Definition npmScriptsUpdater (normalizedPkgName : string) (json : PackageJson)
  : Outcome PackageJson :=
  match pj_scripts json with
  | None => Throw (TypeError "Cannot convert undefined or null to object")
  | Some scripts =>
      let scripts := delete "update-snapshots" scripts in
      let scripts := delete "start-test" scripts in
      let scripts := delete "test:watch" scripts in
      let scripts :=
        <["docs" := "api-extractor run --config=config/api-extractor.local.json --local"]> scripts in
      let scripts :=
        <["build:local" :=
            "tsc -p . --module esnext --emitDeclarationOnly && node ../../scripts/typescript/normalize-import --output dist/"
            +:+ normalizedPkgName +:+ "/src && yarn docs"]> scripts in
      let scripts := <["storybook" := "start-storybook"]> scripts in
      let scripts := <["start" := "yarn storybook"]> scripts in
      let scripts := <["test" := "jest"]> scripts in
      Ok (mkPackageJson (pj_version json) (Some scripts) (pj_dependencies json) (pj_rest json))
  end.

Definition updateNpmScripts (options : Options.t) : M unit :=
  updatePackageJson (packageJson (Options.paths options))
    (npmScriptsUpdater (Options.normalizedPkgName options)).

Definition updateApiExtractorForLocalBuilds (options : Options.t) : M unit :=
  write (joinPathFragments [configRoot (Options.paths options); "api-extractor.local.json"])
        templates.apiExtractorLocal >>>
  write (joinPathFragments [configRoot (Options.paths options); "api-extractor.json"])
        templates.apiExtractor.

Definition setupStorybook (options : Options.t) : M unit :=
  let sb := storybook (Options.paths options) in
  write (sb_tsconfig sb) (FTsConfig templates.storybook_tsconfig) >>>
  write (sb_main sb) (FText templates.storybook_main) >>>
  write (sb_preview sb) (FText templates.storybook_preview).

Definition getReactExamplesProjectConfig (options : Options.t)
  : M ProjectConfiguration :=
  readProjectConfiguration ("@" +:+ Options.workspaceNpmScope options +:+ "/react-examples").

(** The text written for one story: the package name replaced by the
    self reference, then the default export appended. *)
Definition movedStory (name fileName contents : string) : string :=
  let componentName := Js.stripStoriesSuffix fileName in
  Js.replace name "./index" contents
    +:+ Js.newline +:+ Js.newline +:+ templates.storyDefaultExport componentName.

(** The body of the [storyPaths.forEach] callback. *)
Definition moveStory (options : Options.t) (originPath : string) : M unit :=
  let pathSegments := splitPathFragments originPath in
  let fileName := List.last pathSegments EmptyString in
  let! contents := read originPath in
  match fileText h <$> contents with
  | Some contents =>
      if negb (String.eqb contents EmptyString) then
        write (joinPathFragments [root (Options.projectConfig options); "src"; fileName])
              (FText (movedStory (Options.name options) fileName contents))
      else throw (Error ("Error moving " +:+ fileName +:+ " from react-examples"))
  | None => throw (Error ("Error moving " +:+ fileName +:+ " from react-examples"))
  end.

(** The paths collected by the visitor of [moveStorybookFromReactExamples]. *)
Definition storyPathsIn (fs : gmap string File) (dir : string) : list string :=
  List.filter (Js.includes ".stories.") (visitedFiles h fs dir).

Definition moveStorybookFromReactExamples (options : Options.t) : M unit :=
  let! reactExamplesConfig := getReactExamplesProjectConfig options in
  let pathToStoriesWithinReactExamples :=
    root reactExamplesConfig +:+ "/src/" +:+ Options.normalizedPkgName options in
  let! t := getTree in
  let storyPaths := storyPathsIn (files t) pathToStoriesWithinReactExamples in
  if Nat.eqb (length storyPaths) 0 then
    pushLog [mkLog warn "No package stories found within react-examples. Skipping storybook stories migration..."]
  else forEach (moveStory options) storyPaths.

Definition removeMigratedPackageFromReactExamples (options : Options.t) : M unit :=
  let! reactExamplesConfig := getReactExamplesProjectConfig options in
  let packageStoriesWithinReactExamples :=
    root reactExamplesConfig +:+ "/src/" +:+ Options.normalizedPkgName options in
  let packageJson := root reactExamplesConfig +:+ "/package.json" in
  let! present := exists_ packageStoriesWithinReactExamples in
  if negb present then ret tt
  else
    delete_ packageStoriesWithinReactExamples >>>
    pushLog [mkLog warn ("NOTE: Deleting " +:+ root reactExamplesConfig +:+ "/src/"
                         +:+ Options.normalizedPkgName options);
             mkLog warn ("      - Please update your moved stories to follow standard storybook format"
                         +:+ Js.newline)] >>>
    updatePackageJson packageJson (λ json,
      Ok (mkPackageJson (pj_version json) (pj_scripts json)
            (delete (Options.name options) <$> pj_dependencies json)
            (pj_rest json))).

Definition updateLocalJestConfig (options : Options.t) : M unit :=
  let jestSetupFilePath :=
    joinPathFragments [configRoot (Options.paths options); "tests.js"] in
  let packagesThatTriggerAddingSnapshots :=
    ["@" +:+ Options.workspaceNpmScope options +:+ "/react-make-styles"] in
  let! packageJson := readPackageJson (packageJson (Options.paths options)) in
  let dependencies := default ∅ (pj_dependencies packageJson) in
  let addSnapshotSerializers :=
    existsb (λ pkgDepName,
               existsb (String.eqb pkgDepName) packagesThatTriggerAddingSnapshots)
            (map fst (map_to_list dependencies)) in
  let testSetupFilePath :=
    "./" +:+ basename (configRoot (Options.paths options)) +:+ "/tests.js" in
  write (jestConfig (Options.paths options))
        (FText (templates.jest (Options.normalizedPkgName options)
                  addSnapshotSerializers testSetupFilePath)) >>>
  let! present := exists_ jestSetupFilePath in
  if negb present then write jestSetupFilePath (FText templates.jestSetup)
  else ret tt.

(** [updateJestConfig(tree, { project })] of [tools/utils]: registers
    the project's root in the root jest config; the rewriting of that
    file's text is the host's [jestConfigWithProject]. *)
Definition updateJestConfig (project : string) : M unit :=
  let! projectConfig := readProjectConfiguration project in
  let! config := read "/jest.config.js" in
  match config with
  | Some f =>
      write "/jest.config.js"
            (FText (jestConfigWithProject h (root projectConfig) (fileText h f)))
  | None => throw (DevkitError "Cannot find '/jest.config.js' in your workspace.")
  end.

Definition updateRootJestConfig (options : Options.t) : M unit :=
  updateJestConfig (Options.name options).

Definition updatedLocalTsConfig (options : Options.t) : M unit :=
  let! oldConfig := readTsConfig (tsconfig (Options.paths options)) in
  match ts_compilerOptions oldConfig with
  | None => throw (TypeError "Cannot read property 'types' of undefined")
  | Some compilerOptions =>
      let oldConfigTypes := default [] (co_types compilerOptions) in
      let! newConfigTypes := getTemplateTypes in
      let updatedTypes := uniqueArray (newConfigTypes ++ oldConfigTypes) in
      setTemplateTypes updatedTypes >>>
      write (tsconfig (Options.paths options)) (FTsConfig (templates.tsconfig updatedTypes))
  end.

(** The [reduce] of [updatedBaseTsConfig]: one alias per dependency
    in the workspace's scope. *)
Definition depsThatNeedToBecomeAliases (scope : string)
    (allProjects : list (string * ProjectConfiguration))
    (dependencies : gmap string string) : gmap string (list string) :=
  fold_left
    (λ acc pkgName,
       <[pkgName :=
           [match lookupProject allProjects pkgName with
            | Some c => root c
            | None => "undefined"
            end +:+ "/src/index.ts"]]> acc)
    (List.filter (Js.startsWith ("@" +:+ scope)) (map fst (map_to_list dependencies)))
    ∅.

(** The updater [updatedBaseTsConfig] hands to [updateJson]. *)
Definition baseTsConfigUpdater (options : Options.t)
    (aliases : gmap string (list string)) (json : TsConfig) : Outcome TsConfig :=
  match ts_compilerOptions json with
  | None => Throw (TypeError "Cannot read property 'paths' of undefined")
  | Some compilerOptions =>
      let paths := default ∅ (co_paths compilerOptions) in
      let paths :=
        <[Options.name options :=
            [root (Options.projectConfig options) +:+ "/src/index.ts"]]> paths in
      let paths := aliases ∪ paths in
      Ok (mkTsConfig (ts_extends json) (ts_include json)
            (Some (mkCompilerOptions (co_types compilerOptions) (Some paths)
                     (co_rest compilerOptions)))
            (ts_rest json))
  end.

Definition updatedBaseTsConfig (options : Options.t) : M unit :=
  let! scope := readNpmScope in
  let! allProjects := getProjects in
  let! projectPkgJson := readPackageJson (packageJson (Options.paths options)) in
  let aliases :=
    depsThatNeedToBecomeAliases scope allProjects
      (default ∅ (pj_dependencies projectPkgJson)) in
  updateTsConfig (rootTsconfig (Options.paths options))
    (baseTsConfigUpdater options aliases).

Definition runMigrationOnProject (name : string) : M unit :=
  let! options := normalizeOptions name in
  updatedLocalTsConfig options >>>
  updatedBaseTsConfig options >>>
  updateLocalJestConfig options >>>
  updateRootJestConfig options >>>
  setupStorybook options >>>
  moveStorybookFromReactExamples options >>>
  removeMigratedPackageFromReactExamples options >>>
  updateNpmScripts options >>>
  updateApiExtractorForLocalBuilds options >>>
  setupNpmConfig options >>>
  updateNxWorkspace options.

Definition skipped (projectName : string) : LogEntry :=
  mkLog error (projectName +:+ " is not converged package. Skipping migration...").

(** The body of the [projects.forEach] callback of [runBatchMigration]. *)
Definition migrateIfConverged (entry : string * ProjectConfiguration) : M unit :=
  let! converged := isPackageConverged entry.2 in
  if negb converged then pushLog [skipped entry.1]
  else runMigrationOnProject entry.1.

Definition runBatchMigration : M unit :=
  let! projects := getProjects in
  forEach migrateIfConverged projects.

(** [printUserLogs(logs)]: what reaches the logger. *)
Definition printUserLogs (logs : UserLog) : list LogEntry :=
  [mkLog log (repeat80 +:+ Js.newline)] ++ logs ++ [mkLog log (repeat80 +:+ Js.newline)].

(** The generator's default export.  It starts an empty user log and
    returns what the run prints: the stats report at once, or the
    user log through the callback it hands back. *)
Definition generator (schema : Schema.t) : M (list LogEntry) :=
  (λ st, (Ok tt, mkState (tree st) [] (tsconfigTypes st))) >>>
  let! validatedSchema := validateSchema schema in
  if hasStats validatedSchema then printStats
  else
    (if hasAll validatedSchema then runBatchMigration else ret tt) >>>
    (match Schema.name validatedSchema with
     | Some name => if hasName validatedSchema then runMigrationOnProject name else ret tt
     | None => ret tt
     end) >>>
    (let! t := getTree in putFiles (formatFiles h (files t))) >>>
    (λ st, (Ok (printUserLogs (userLog st)), st)).

End Generator.

(** * The vocabulary of the properties *)

Import Devkit.

Definition withFiles (st : State) (fs : gmap string File) : State :=
  mkState (mkTree fs (npmScope (tree st)) (projects (tree st)))
          (userLog st) (tsconfigTypes st).

Definition withState (st : State) (fs : gmap string File) (l : UserLog) : State :=
  mkState (mkTree fs (npmScope (tree st)) (projects (tree st))) l (tsconfigTypes st).

Definition legacyScripts : list string := ["update-snapshots"; "start-test"; "test:watch"].

Definition fixedScripts (normalizedPkgName : string) : list (string * string) :=
  [("docs", "api-extractor run --config=config/api-extractor.local.json --local");
   ("build:local",
    "tsc -p . --module esnext --emitDeclarationOnly && node ../../scripts/typescript/normalize-import --output dist/"
    +:+ normalizedPkgName +:+ "/src && yarn docs");
   ("storybook", "start-storybook");
   ("start", "yarn storybook");
   ("test", "jest")].

Definition conflictMessages : list string :=
  ["--name and --stats are mutually exclusive";
   "--name and --all are mutually exclusive";
   "--stats and --all are mutually exclusive"].

Definition isConflictingModeError {A} (r : Outcome A) : bool :=
  match r with
  | Throw (Error msg) => existsb (String.eqb msg) conflictMessages
  | _ => false
  end.

(** How many of the three mode flags are truthy. *)
Definition truthyCount (s : Schema.t) : nat :=
  Nat.b2n (hasName s) + Nat.b2n (hasAll s) + Nat.b2n (hasStats s).

(** The schema the validator goes on with after the optional prompt. *)
Definition promptedSchema (h : Host) (s : Schema.t) : Schema.t :=
  if arePromptsEnabled h && shouldValidateNameInput s
  then Schema.mk (Some (promptedName h)) (Schema.all s) (Schema.stats s)
  else s.

(** The three ways a request fails validation. *)
Inductive ValidationFails (h : Host) (t : Tree) (s : Schema.t) : Prop :=
| ConflictingMode :
    2 ≤ truthyCount s → ValidationFails h t s
| MissingName :
    hasName (promptedSchema h s) = false →
    hasAll s = false → hasStats s = false →
    ValidationFails h t s
| NotConverged name cfg pj version :
    truthyCount s ≤ 1 →
    Schema.name (promptedSchema h s) = Some name →
    name ≠ "" →
    Devkit.lookupProject (projects t) name = Some cfg →
    files t !! Devkit.joinPathFragments [root cfg; "package.json"] = Some (FPackageJson pj) →
    pj_version pj = Some version →
    Js.startsWith "9." version = false →
    ValidationFails h t s.

(** What the version check answers for a registry entry on a state;
    a check that throws counts as no. *)
Definition convergedOn (st : State) (e : string * ProjectConfiguration) : bool :=
  match (isPackageConverged e.2 st).1 with
  | Ok b => b
  | Throw _ => false
  end.

Arguments convergedOn : simpl never.

Definition checkable (st : State) (e : string * ProjectConfiguration) : Prop :=
  ∃ b, (isPackageConverged e.2 st).1 = Ok b.

(** The seven lines of the stats report. *)
Definition statsReport (stats : Stats) : list LogEntry :=
  [mkLog info "Convergence DX migration stats:";
   mkLog info repeat80;
   mkLog info ("Migrated (" +:+ showNat (length (migrated stats)) +:+ "):");
   mkLog info (statLines (migrated stats));
   mkLog info repeat80;
   mkLog info ("Not migrated (" +:+ showNat (length (notMigrated stats)) +:+ "):");
   mkLog info (statLines (notMigrated stats))].

(** A declared dependency whose name starts with the workspace scope. *)
Definition internalDependency (scope : string) (dependencies : gmap string string)
    (k : string) : Prop :=
  is_Some (dependencies !! k) ∧ Js.startsWith ("@" +:+ scope) k = true.

Definition rootOrUndefined (allProjects : list (string * ProjectConfiguration))
    (pkgName : string) : string :=
  match Devkit.lookupProject allProjects pkgName with
  | Some c => root c
  | None => "undefined"
  end.

(** The last segment of the origin path. *)
Definition storyFileName (originPath : string) : string :=
  List.last (splitPathFragments originPath) EmptyString.

(** Where a story goes: [<project root>/src/<last segment>]. *)
Definition storyDestination (options : Options.t) (originPath : string) : string :=
  Devkit.joinPathFragments
    [root (Options.projectConfig options); "src"; storyFileName originPath].

(** One relocation, reading the story from [orig]. *)
Definition relocate (h : Host) (options : Options.t)
    (orig fs : gmap string File) (originPath : string)
  : gmap string File :=
  match orig !! originPath with
  | Some f =>
      <[storyDestination options originPath :=
          FText (movedStory (Options.name options) (storyFileName originPath)
                   (fileText h f))]> fs
  | None => fs
  end.

Definition isError (e : LogEntry) : bool :=
  match type e with
  | error => true
  | _ => false
  end.

Definition errorsOf (l : UserLog) : UserLog := List.filter isError l.

Definition othersOf (l : UserLog) : UserLog := List.filter (λ e, negb (isError e)) l.

(** A computation that never looks at the user log: from a tree and the
    template's types it determines its outcome, the new tree and types,
    and the entries it appends, all of them warnings. *)
Definition logpar {A} (m : M A) : Prop :=
  ∀ t ty, ∃ r t' ty' d,
    Forall (λ e, type e = warn) d
    ∧ ∀ l, m (mkState t l ty) = (r, mkState t' (l ++ d) ty').

(** Every manifest of [fs'] was a manifest of [fs], with the same version. *)
Definition VersPres (fs fs' : gmap string File) : Prop :=
  ∀ q pj', fs' !! q = Some (FPackageJson pj') →
           ∃ pj, fs !! q = Some (FPackageJson pj) ∧ pj_version pj = pj_version pj'.

Definition verspres {A} (m : M A) : Prop :=
  ∀ st r st', m st = (r, st') → VersPres (files (tree st)) (files (tree st')).

(** [root/s] as one append. *)
Definition rel (R s : string) : string := R +:+ String "/" s.

(** The project root and the package's directory in the examples
    project lie apart: the root is not the workspace root, and neither
    directory is the other or inside it. *)
Definition apart (R E : string) : bool :=
  negb (String.eqb R "")
  && negb (Js.startsWith (E +:+ "/") (R +:+ "/"))
  && negb (Js.startsWith (R +:+ "/") (E +:+ "/")).

(** The project's root and its directory in the examples project lie
    apart, as the registry has them. *)
Definition layoutApart (t : Tree) (name : string) : bool :=
  match lookupProject (projects t) name,
        lookupProject (projects t) ("@" +:+ npmScope t +:+ "/react-examples") with
  | Some cfg, Some ex =>
      apart (root cfg)
        (root ex +:+ "/src/" +:+ Js.replace ("@" +:+ npmScope t +:+ "/") "" name)
  | _, _ => false
  end.

Definition baseAliases (t : Tree) (pj : PackageJson) : gmap string (list string) :=
  depsThatNeedToBecomeAliases (npmScope t) (projects t) (default ∅ (pj_dependencies pj)).

Definition jestText (o : Options.t) (pj : PackageJson) : string :=
  templates.jest (Options.normalizedPkgName o)
    (existsb
       (λ pkgDepName,
          existsb (String.eqb pkgDepName)
            ["@" +:+ Options.workspaceNpmScope o +:+ "/react-make-styles"])
       (map fst (map_to_list (default ∅ (pj_dependencies pj)))))
    ("./" +:+ basename (configRoot (Options.paths o)) +:+ "/tests.js").

Definition jestSetupFilePath (o : Options.t) : string :=
  joinPathFragments [configRoot (Options.paths o); "tests.js"].

(** Something is stored at [p] or below it. *)
Definition occupied (fs : gmap string File) (p : string) : Prop :=
  ∃ k, within p k = true ∧ is_Some (fs !! k).

(** The registry entry [updateNxWorkspace] writes. *)
Definition taggedConfig (cfg : ProjectConfiguration) : ProjectConfiguration :=
  mkProject (root cfg) (Some (joinPathFragments [root cfg; "src"]))
    (Some (uniqueArray (default [] (tags cfg) ++ ["vNext"; "platform:web"])))
    (pc_rest cfg).

(** A registry of three converged projects, two of them migrated, and
    one project on version 8. *)
Module StatsExample.

Definition manifest (version : string) : File :=
  FPackageJson (mkPackageJson (Some version) (Some ∅) None []).

Definition registry : list (string * ProjectConfiguration) :=
  [("@scope/a", mkProject "packages/a" (Some "packages/a/src") (Some ["vNext"; "platform:web"]) []);
   ("@scope/b", mkProject "packages/b" (Some "packages/b/src") (Some ["vNext"]) []);
   ("@scope/c", mkProject "packages/c" None (Some ["platform:web"]) []);
   ("@scope/d", mkProject "packages/d" (Some "packages/d/src") (Some ["vNext"]) [])].

Definition workspace : Tree :=
  mkTree
    (list_to_map
       [("packages/a/package.json", manifest "9.0.0-alpha.30");
        ("packages/b/package.json", manifest "9.0.0");
        ("packages/c/package.json", manifest "9.1.2");
        ("packages/d/package.json", manifest "8.2.7")])
    "scope" registry.

Definition host : Host :=
  mkHost (λ _, "{}") (λ _, false) String.leb false "" (λ _ text, text) (λ fs, fs).

Definition start : State := mkState workspace [] templates.tsconfigTypes0.

Definition statsOnly : Schema.t := Schema.mk None None (Some true).

End StatsExample.

(** The scenario of a package [@scope/y] whose story in the examples
    project imports the package twice. *)
Module StoryExample.

Definition manifest (version : string) (dependencies : gmap string string) : File :=
  FPackageJson
    (mkPackageJson (Some version)
       (Some {["update-snapshots" := "just-scripts jest -u";
               "start-test" := "just-scripts jest-watch";
               "test:watch" := "just-scripts jest-watch";
               "other" := "just-scripts other"]})
       (Some dependencies) []).

Definition story : string :=
  "import { Button } from '@scope/y';" +:+ Js.newline
  +:+ "import type { ButtonProps } from '@scope/y';".

Definition registry : list (string * ProjectConfiguration) :=
  [("@scope/x", mkProject "packages/x" None None []);
   ("@scope/y", mkProject "packages/y" None None []);
   ("@scope/react-examples", mkProject "packages/react-examples" None None [])].

Definition workspace : Tree :=
  mkTree
    (list_to_map
       [("packages/x/package.json", manifest "9.0.0" ∅);
        ("packages/y/package.json",
         manifest "9.0.0" {["@scope/x" := "^9.0.0"; "react" := "16.8.6"]});
        ("packages/y/tsconfig.json",
         FTsConfig (mkTsConfig None None (Some (mkCompilerOptions (Some ["node"]) None [])) []));
        ("packages/react-examples/package.json",
         manifest "8.0.0" {["@scope/y" := "^9.0.0"]});
        ("packages/react-examples/src/y/Button.stories.tsx", FText story);
        ("packages/react-examples/src/y/nested/Button.stories.tsx", FText "export {};");
        ("/tsconfig.base.json",
         FTsConfig (mkTsConfig None None
                      (Some (mkCompilerOptions None
                               (Some {["@scope/x" := ["packages/x/lib/index.ts"]]}) []))
                      []));
        ("/jest.config.js", FText "module.exports = { projects: [] };")])
    "scope" registry.

Definition host : Host :=
  mkHost (λ _, "{}") (λ _, false) String.leb false ""
         (λ projectRoot text, if Js.includes projectRoot text then text
                              else text +:+ Js.newline +:+ "// " +:+ projectRoot)
         (λ fs, fs).

Definition start : State := mkState workspace [] templates.tsconfigTypes0.

Definition options : Options.t :=
  match (normalizeOptions "@scope/y" start).1 with
  | Ok o => o
  | Throw _ => Options.mk "" (mkProject "" None None []) "" ""
                 (mkPaths "" "" "" "" "" "" "" "" (mkStorybookPaths "" "" ""))
  end.

(** The same workspace with the top-level story alone. *)
Definition oneStory : State :=
  withFiles start
    (delete "packages/react-examples/src/y/nested/Button.stories.tsx" (files workspace)).

(** The same workspace, y depending also on [@scope/react-icons]: a
    package of the scope that is no project of the workspace. *)
Definition outsideDependency : State :=
  withFiles start
    (<["packages/y/package.json" :=
         manifest "9.0.0"
           {["@scope/x" := "^9.0.0"; "@scope/react-icons" := "^1.1.136";
             "react" := "16.8.6"]}]>
       (files workspace)).

End StoryExample.

(** Project A on 9.0.0, ready to be migrated, and project B on 8.2.7;
    the examples project is registered too and is itself on version 8. *)
Module BatchExample.

Definition manifest (version : string) : File :=
  FPackageJson (mkPackageJson (Some version) (Some {["test" := "just-scripts test"]}) None []).

Definition registry : list (string * ProjectConfiguration) :=
  [("@scope/a", mkProject "packages/a" None None []);
   ("@scope/b", mkProject "packages/b" None None []);
   ("@scope/react-examples", mkProject "packages/react-examples" None None [])].

Definition workspace : Tree :=
  mkTree
    (list_to_map
       [("packages/a/package.json", manifest "9.0.0");
        ("packages/a/tsconfig.json",
         FTsConfig (mkTsConfig None None (Some (mkCompilerOptions None None [])) []));
        ("packages/b/package.json", manifest "8.2.7");
        ("packages/react-examples/package.json", manifest "8.0.0");
        ("/tsconfig.base.json",
         FTsConfig (mkTsConfig None None (Some (mkCompilerOptions None None [])) []));
        ("/jest.config.js", FText "module.exports = { projects: [] };")])
    "scope" registry.

Definition host : Host := StoryExample.host.

Definition start : State := mkState workspace [] templates.tsconfigTypes0.

(** The same workspace with B alone in the registry. *)
Definition onlyB : State :=
  mkState (mkTree (files workspace) "scope" [("@scope/b", mkProject "packages/b" None None [])])
          [] templates.tsconfigTypes0.

End BatchExample.

(** ** Vocabulary of the further properties *)

(** The scoped name of the examples project. *)
Definition examplesName (scope : string) : string := "@" +:+ scope +:+ "/react-examples".


(** On a registry [ps] in scope [scope], the computation keeps both and
    leaves every file outside [P] as it was, whatever its outcome. *)
Definition confined (ps : list (string * ProjectConfiguration)) (scope : string)
    (P : string → bool) {A} (m : M A) : Prop :=
  ∀ st r st',
    projects (tree st) = ps → npmScope (tree st) = scope → m st = (r, st') →
    projects (tree st') = ps ∧ npmScope (tree st') = scope
    ∧ ∀ q, P q = false → files (tree st') !! q = files (tree st) !! q.

(** The same for the files alone: the registry may change. *)
Definition framed (ps : list (string * ProjectConfiguration)) (scope : string)
    (P : string → bool) {A} (m : M A) : Prop :=
  ∀ st r st',
    projects (tree st) = ps → npmScope (tree st) = scope → m st = (r, st') →
    ∀ q, P q = false → files (tree st') !! q = files (tree st) !! q.

(** Variations of the example workspaces. *)
Module EdgeExample.

(** The story example with a local config for x as well, which asks
    for one type of its own. *)
Definition twoConfigs : State :=
  withFiles StoryExample.start
    (<["packages/x/tsconfig.json" :=
         FTsConfig (mkTsConfig None None
                      (Some (mkCompilerOptions (Some ["webpack-env"]) None [])) [])]>
       (files StoryExample.workspace)).

(** One more story of y, without content. *)
Definition emptyStory : State :=
  withFiles StoryExample.start
    (<["packages/react-examples/src/y/Empty.stories.tsx" := FText ""]>
       (files StoryExample.workspace)).

(** The examples project has lost its manifest. *)
Definition noExamplesManifest : State :=
  withFiles StoryExample.start
    (delete "packages/react-examples/package.json" (files StoryExample.workspace)).

(** The directory of x in the examples project holds notes, no story. *)
Definition notesOnly : State :=
  withFiles StoryExample.start
    (<["packages/react-examples/src/x/README.md" := FText "notes"]>
       (files StoryExample.workspace)).

(** The manifest of y has no scripts. *)
Definition noScripts : State :=
  withFiles StoryExample.start
    (<["packages/y/package.json" :=
         FPackageJson (mkPackageJson (Some "9.0.0") None None [])]>
       (files StoryExample.workspace)).

(** The stats example with a fifth project that has no manifest. *)
Definition unreadable : State :=
  mkState
    (mkTree (files StatsExample.workspace) "scope"
       (StatsExample.registry ++ [("@scope/e", mkProject "packages/e" None None [])]))
    [] templates.tsconfigTypes0.

(** What [normalizeOptions] gives for x. *)
Definition optionsX : Options.t :=
  match (normalizeOptions "@scope/x" StoryExample.start).1 with
  | Ok o => o
  | Throw _ => StoryExample.options
  end.

End EdgeExample.

(** * Properties *)

Arguments Devkit.joinPathFragments : simpl never.

(** ** Running computations *)

Lemma bind_run {A B} (m : M A) (k : A → M B) st a st' :
  m st = (Ok a, st') → bind m k st = k a st'.
Proof. intros H. unfold bind. by rewrite H. Qed.

Lemma bind_ok_inv {A B} (m : M A) (k : A → M B) st b st2 :
  bind m k st = (Ok b, st2) →
  ∃ a st1, m st = (Ok a, st1) ∧ k a st1 = (Ok b, st2).
Proof.
  unfold bind. destruct (m st) as [[a|e] st1]; intros H.
  - by exists a, st1.
  - discriminate.
Qed.

(** ** String facts *)

Lemma append_cons c (a b : string) : String c a +:+ b = String c (a +:+ b).
Proof. reflexivity. Qed.

Lemma append_nil (b : string) : "" +:+ b = b.
Proof. reflexivity. Qed.

Lemma startsWith_app p s : Js.startsWith p (p +:+ s) = true.
Proof.
  induction p as [|c p IH]; [done|].
  rewrite append_cons. simpl. by rewrite Ascii.eqb_refl.
Qed.

Lemma startsWith_iff p s : Js.startsWith p s = true ↔ ∃ rest, s = p +:+ rest.
Proof.
  split.
  - revert s. induction p as [|c p IH]; intros s H; simpl in *.
    + by exists s.
    + destruct s as [|d s]; [discriminate|].
      destruct (Ascii.eqb_spec c d) as [->|]; [|discriminate].
      destruct (IH _ H) as [rest ->]. by exists rest.
  - intros [rest ->]. apply startsWith_app.
Qed.

Lemma string_app_length (a b : string) :
  String.length (a +:+ b) = String.length a + String.length b.
Proof. induction a as [|c a IH]; [done|]. rewrite append_cons. simpl. by rewrite IH. Qed.

Lemma string_app_inv_head (a b c : string) : a +:+ b = a +:+ c → b = c.
Proof.
  induction a as [|x a IH]; [done|]. rewrite !append_cons. intros [=]. auto.
Qed.

Lemma string_app_assoc (a b c : string) : (a +:+ b) +:+ c = a +:+ (b +:+ c).
Proof. induction a as [|x a IH]; [done|]. rewrite !append_cons. by f_equal. Qed.

(** ** The version predicate *)

(** C4: [isPackageConverged] answers true exactly when the manifest's
    version starts with the two characters "9." -- false for "8.2.7",
    true for "9.0.0-alpha.30" -- and it leaves the state alone. *)
Theorem isPackageConverged_iff_prefix (project : ProjectConfiguration)
    (st : State) (pj : PackageJson) (version : string) :
  files (tree st) !! Devkit.joinPathFragments [root project; "package.json"]
    = Some (FPackageJson pj) →
  pj_version pj = Some version →
  ∃ b, isPackageConverged project st = (Ok b, st)
       ∧ (b = true ↔ ∃ rest, version = String "9" (String "." rest))
       ∧ (version = "8.2.7" → b = false)
       ∧ (version = "9.0.0-alpha.30" → b = true).
Proof.
  intros Hfile Hver. exists (Js.startsWith "9." version).
  split; [|split; [|split]].
  - unfold isPackageConverged, Devkit.readPackageJson, Devkit.read, bind, ret.
    simpl in *. by rewrite Hfile, Hver.
  - rewrite startsWith_iff. simpl. done.
  - by intros ->.
  - by intros ->.
Qed.

(** ** The manifest's scripts *)

(** C6: on a manifest that has a scripts map, the script rewrite drops
    the three legacy keys, sets the five fixed keys (build:local with
    the normalised package name inside), keeps every other script and
    every other part of the manifest, and writes the result back to the
    manifest's path. *)
Theorem updateNpmScripts_rewrites (options : Options.t) (st : State)
    (json : PackageJson) (scripts : gmap string string) :
  files (tree st) !! packageJson (Options.paths options) = Some (FPackageJson json) →
  pj_scripts json = Some scripts →
  ∃ scripts',
    updateNpmScripts options st
      = (Ok tt,
         mkState
           (mkTree
              (<[packageJson (Options.paths options) :=
                   FPackageJson (mkPackageJson (pj_version json) (Some scripts')
                                   (pj_dependencies json) (pj_rest json))]>
                 (files (tree st)))
              (npmScope (tree st)) (projects (tree st)))
           (userLog st) (tsconfigTypes st))
    ∧ (∀ k, k ∈ legacyScripts → scripts' !! k = None)
    ∧ (∀ k v, (k, v) ∈ fixedScripts (Options.normalizedPkgName options) →
              scripts' !! k = Some v)
    ∧ (∀ k, k ∉ legacyScripts →
            k ∉ (fixedScripts (Options.normalizedPkgName options)).*1 →
            scripts' !! k = scripts !! k).
Proof.
  intros Hfile Hscripts.
  eexists. split; [|split; [|split]].
  - unfold updateNpmScripts, Devkit.updatePackageJson, Devkit.readPackageJson,
      Devkit.read, Devkit.write, npmScriptsUpdater, putFiles, getTree, bind, ret.
    simpl. rewrite Hfile. simpl. rewrite Hscripts. simpl. reflexivity.
  - intros k Hk. unfold legacyScripts in Hk.
    rewrite !elem_of_cons, elem_of_nil in Hk.
    destruct_or!; simplify_eq; by simplify_map_eq.
  - intros k v Hk. unfold fixedScripts in Hk.
    rewrite !elem_of_cons, elem_of_nil in Hk.
    destruct_or!; simplify_eq; by simplify_map_eq.
  - intros k Hleg Hfix. unfold legacyScripts, fixedScripts in *. simpl in Hfix.
    rewrite !not_elem_of_cons in Hleg. rewrite !not_elem_of_cons in Hfix.
    destruct Hleg as (?&?&?&_), Hfix as (?&?&?&?&?&_).
    by rewrite !lookup_insert_ne, !lookup_delete_ne by done.
Qed.

(** ** Validation of the schema *)

Lemma notConverged_not_conflict (name : string) :
  existsb
    (String.eqb (name +:+ " is not converged package. Make sure to run the migration on packages with version 9.x.x"))
    conflictMessages = false.
Proof.
  unfold conflictMessages. simpl.
  repeat match goal with
  | |- context [String.eqb ?a ?b] =>
      destruct (String.eqb_spec a b) as [E|_];
        [apply (f_equal String.length) in E;
         rewrite string_app_length in E; simpl in E; lia|]
  end.
  done.
Qed.

(** Validation only reads. *)
Lemma validateSchema_state h s st : (validateSchema h s st).2 = st.
Proof.
  unfold validateSchema, Devkit.readProjectConfiguration, Devkit.getProjects,
    isPackageConverged, Devkit.readPackageJson, Devkit.read, bind, ret, throw.
  repeat (case_match; simpl in *; simplify_eq; try done).
Qed.

(** C8: the validator throws a conflicting-mode error exactly when two
    or more of name, all, stats are truthy; each of the three pairs has
    its own check and message (name with stats first, then name with
    all, then stats with all); with at most one truthy flag no such
    error comes out. *)
Theorem validateSchema_conflicting_modes (h : Host) (s : Schema.t) (st : State) :
  isConflictingModeError (validateSchema h s st).1 = (2 <=? truthyCount s)
  ∧ match hasName s, hasAll s, hasStats s with
    | true, _, true =>
        validateSchema h s st = (Throw (Error "--name and --stats are mutually exclusive"), st)
    | true, true, false =>
        validateSchema h s st = (Throw (Error "--name and --all are mutually exclusive"), st)
    | false, true, true =>
        validateSchema h s st = (Throw (Error "--stats and --all are mutually exclusive"), st)
    | _, _, _ => isConflictingModeError (validateSchema h s st).1 = false
    end.
Proof.
  assert (Hnc : hasName s && hasStats s = false → hasName s && hasAll s = false →
                hasStats s && hasAll s = false →
                isConflictingModeError (validateSchema h s st).1 = false).
  { intros H1 H2 H3. unfold validateSchema. rewrite H1, H2, H3.
    unfold Devkit.readProjectConfiguration, Devkit.getProjects,
      isPackageConverged, Devkit.readPackageJson, Devkit.read, bind, ret, throw.
    repeat (case_match; simpl in *; simplify_eq; try done).
    all: exact (notConverged_not_conflict _). }
  unfold truthyCount.
  destruct (hasName s) eqn:Hn, (hasAll s) eqn:Ha, (hasStats s) eqn:Hs; simpl;
    try (split; by apply Hnc);
    unfold validateSchema, throw; rewrite Hn, Ha, Hs; simpl; done.
Qed.

Lemma validation_fails_throws h st s :
  ValidationFails h (tree st) s → ∃ e, (validateSchema h s st).1 = Throw e.
Proof.
  intros [Hc | Hn Ha Hs | name cfg pj version Hc Hname Hne Hcfg Hfile Hver Hpre].
  - unfold truthyCount in Hc. unfold validateSchema, throw.
    destruct (hasName s), (hasAll s), (hasStats s); simpl in *; try lia; eauto.
  - unfold validateSchema.
    assert (hasName s = false) as Hn0.
    { unfold promptedSchema in Hn.
      destruct (arePromptsEnabled h && shouldValidateNameInput s) eqn:E; [|done].
      apply andb_true_iff in E as [_ E]. unfold shouldValidateNameInput in E.
      apply andb_true_iff in E as [E _]. by apply negb_true_iff in E. }
    rewrite Hn0, Ha, Hs. simpl. fold (promptedSchema h s).
    unfold shouldValidateNameInput. rewrite Hn.
    assert (hasAll (promptedSchema h s) = false ∧ hasStats (promptedSchema h s) = false)
      as [-> ->].
    { unfold promptedSchema. by case_match. }
    simpl. eauto.
  - unfold validateSchema.
    assert (Hflags : hasName s && hasStats s = false ∧ hasName s && hasAll s = false
                     ∧ hasStats s && hasAll s = false).
    { unfold truthyCount in Hc.
      destruct (hasName s), (hasAll s), (hasStats s); simpl in *; try lia; done. }
    destruct Hflags as (-> & -> & ->). fold (promptedSchema h s).
    assert (Hhas : hasName (promptedSchema h s) = true).
    { unfold hasName. rewrite Hname. simpl.
      destruct (String.eqb_spec name ""); [done|done]. }
    unfold shouldValidateNameInput. rewrite Hhas. simpl.
    rewrite Hname.
    unfold Devkit.readProjectConfiguration, Devkit.getProjects,
      isPackageConverged, Devkit.readPackageJson, Devkit.read, bind, ret, throw.
    cbn -[Js.startsWith]. rewrite Hcfg. cbn -[Js.startsWith]. rewrite Hfile.
    cbn -[Js.startsWith]. rewrite Hver, Hpre. simpl. eauto.
Qed.

(** C7: when validation fails -- two or more modes at once, or no name
    after the optional prompt with neither batch nor stats chosen, or a
    named project that is not converged -- the generator throws and the
    tree is exactly as it was: nothing has been written. *)
Theorem validation_failure_leaves_tree (h : Host) (s : Schema.t) (st : State) :
  ValidationFails h (tree st) s →
  ∃ e st', generator h s st = (Throw e, st') ∧ tree st' = tree st.
Proof.
  intros Hfail.
  set (st0 := mkState (tree st) [] (tsconfigTypes st)).
  destruct (validation_fails_throws h st0 s Hfail) as [e He].
  exists e, st0. split; [|done].
  unfold generator. unfold bind at 1. fold st0.
  pose proof (validateSchema_state h s st0) as Hst.
  unfold bind. destruct (validateSchema h s st0) as [r st1]. simpl in *. by subst.
Qed.

(** ** Stats mode *)

Lemma isPackageConverged_state project st : (isPackageConverged project st).2 = st.
Proof.
  unfold isPackageConverged, Devkit.readPackageJson, Devkit.read, bind, ret, throw.
  repeat (case_match; simplify_eq/=; try done).
Qed.

Lemma isPackageConverged_tree project st st' :
  tree st = tree st' →
  (isPackageConverged project st).1 = (isPackageConverged project st').1.
Proof.
  intros Ht.
  unfold isPackageConverged, Devkit.readPackageJson, Devkit.read, bind, ret, throw.
  rewrite Ht. repeat (case_match; simplify_eq/=; try done).
Qed.

Lemma convergedOn_tree st st' e : tree st = tree st' → convergedOn st e = convergedOn st' e.
Proof. intros Ht. unfold convergedOn. by rewrite (isPackageConverged_tree _ st st'). Qed.

Lemma collectStats_state ps : ∀ stats st, (collectStats ps stats st).2 = st.
Proof.
  induction ps as [|[n p] ps IH]; intros stats st; simpl; [done|].
  unfold bind. pose proof (isPackageConverged_state p st) as Hst.
  destruct (isPackageConverged p st) as [[b|e] st1]; simpl in *; subst; [|done].
  destruct b; simpl; [|apply IH]. destruct (isProjectMigrated p); apply IH.
Qed.

Lemma collectStats_partition ps : ∀ stats st,
  Forall (checkable st) ps →
  (collectStats ps stats st).1
  = Ok (mkStats
          (migrated stats
             ++ List.filter (λ e, convergedOn st e && isProjectMigrated e.2) ps)
          (notMigrated stats
             ++ List.filter (λ e, convergedOn st e && negb (isProjectMigrated e.2)) ps)).
Proof.
  induction ps as [|[n p] ps IH]; intros stats st Hall; simpl.
  - rewrite !app_nil_r. by destruct stats.
  - apply Forall_cons in Hall as [[b Hb] Hall].
    assert (Hc : convergedOn st (n, p) = b).
    { unfold convergedOn. simpl in *. by rewrite Hb. }
    rewrite Hc. clear Hc. simpl in Hb.
    unfold bind. pose proof (isPackageConverged_state p st) as Hst.
    destruct (isPackageConverged p st) as [r st1]; simpl in *; subst.
    destruct b; simpl; [|by apply IH].
    destruct (isProjectMigrated p); simpl; rewrite IH by done; simpl;
      by rewrite <- app_assoc.
Qed.

(** C9: in stats mode nothing is written: whatever the outcome, the
    tree (and the rest of the state) is as before.  When every
    project's manifest can be checked, the report lists as migrated
    exactly the converged projects with a source root and the vNext
    tag, as not migrated exactly the other converged projects, and
    leaves the projects that are not converged out.  On the example
    registry that is 2 migrated (a, b) and 1 not migrated (c), with d
    in neither list. *)
Theorem stats_mode_reads_only (h : Host) (s : Schema.t) (st : State) :
  hasStats s = true → hasName s = false → hasAll s = false →
  tree (generator h s st).2 = tree st
  ∧ tsconfigTypes (generator h s st).2 = tsconfigTypes st
  ∧ (Forall (checkable st) (projects (tree st)) →
     (generator h s st).1
     = Ok (statsReport
             (mkStats
                (List.filter (λ e, convergedOn st e && isProjectMigrated e.2)
                   (projects (tree st)))
                (List.filter (λ e, convergedOn st e && negb (isProjectMigrated e.2))
                   (projects (tree st))))))
  ∧ generator StatsExample.host StatsExample.statsOnly StatsExample.start
    = (Ok [mkLog info "Convergence DX migration stats:";
           mkLog info repeat80;
           mkLog info "Migrated (2):";
           mkLog info ("- @scope/a" +:+ Js.newline +:+ "- @scope/b");
           mkLog info repeat80;
           mkLog info "Not migrated (1):";
           mkLog info "- @scope/c"],
       StatsExample.start).
Proof.
  intros Hs Hn Ha.
  set (st0 := mkState (tree st) [] (tsconfigTypes st)).
  assert (Hgen : generator h s st = printStats st0).
  { unfold generator. unfold bind at 1. fold st0.
    unfold validateSchema. rewrite Hn, Ha, Hs. simpl.
    unfold shouldValidateNameInput. rewrite Hn, Ha, Hs. simpl.
    rewrite andb_false_r. rewrite Hn, Ha, Hs. simpl.
    unfold bind at 1.
    destruct (Schema.name s); unfold ret; by rewrite ?Hn, Hs. }
  assert (Hprint : printStats st0
                   = (match (collectStats (projects (tree st)) (mkStats [] []) st0).1 with
                      | Ok stats => Ok (statsReport stats)
                      | Throw e => Throw e
                      end, st0)).
  { unfold printStats, Devkit.getProjects. unfold bind at 1. simpl.
    unfold bind. pose proof (collectStats_state (projects (tree st)) (mkStats [] []) st0) as H0.
    destruct (collectStats _ _ st0) as [[stats|e] st1]; simpl in *; by subst. }
  rewrite Hgen, Hprint. simpl. split; [done|]. split; [done|]. split.
  - intros Hall. rewrite collectStats_partition.
    + simpl. do 3 f_equal; apply filter_ext; intros e;
        by rewrite (convergedOn_tree st0 st).
    + eapply Forall_impl; [exact Hall|]. intros e [b Hb]. exists b.
      by rewrite (isPackageConverged_tree _ st0 st).
  - vm_compute. reflexivity.
Qed.

(** ** Path aliases in the root TypeScript config *)

Lemma fold_insert_lookup {V} (f : string → V) (l : list string) :
  ∀ (acc : gmap string V) k,
    fold_left (λ acc pkgName, <[pkgName := f pkgName]> acc) l acc !! k
    = if decide (k ∈ l) then Some (f k) else acc !! k.
Proof.
  induction l as [|x l IH]; intros acc k; cbn [fold_left].
  - rewrite decide_False; [done|apply not_elem_of_nil].
  - rewrite IH. destruct (decide (k ∈ l)) as [Hin|Hnin].
    + rewrite decide_True; [done|by right].
    + destruct (decide (k = x)) as [->|Hne].
      * rewrite decide_True by left. by rewrite lookup_insert_eq.
      * rewrite decide_False; [by rewrite lookup_insert_ne|].
        rewrite elem_of_cons. tauto.
Qed.

Lemma internal_keys scope (dependencies : gmap string string) k :
  k ∈ List.filter (Js.startsWith ("@" +:+ scope)) (map fst (map_to_list dependencies))
  ↔ internalDependency scope dependencies k.
Proof.
  unfold internalDependency.
  rewrite list_elem_of_In, filter_In, <- list_elem_of_In.
  change (map fst (map_to_list dependencies)) with ((map_to_list dependencies).*1).
  rewrite list_elem_of_fmap. split.
  - intros [([k' v] & -> & Hin) Hp]. apply elem_of_map_to_list in Hin.
    split; [by exists v|done].
  - intros [[v Hv] Hp]. split; [|done].
    exists (k, v). split; [done|]. by apply elem_of_map_to_list.
Qed.

Lemma aliases_lookup scope allProjects (dependencies : gmap string string) k :
  depsThatNeedToBecomeAliases scope allProjects dependencies !! k
  = if decide (internalDependency scope dependencies k)
    then Some [rootOrUndefined allProjects k +:+ "/src/index.ts"]
    else None.
Proof.
  unfold depsThatNeedToBecomeAliases.
  rewrite (fold_insert_lookup (λ pkgName, [rootOrUndefined allProjects pkgName +:+ "/src/index.ts"])).
  rewrite lookup_empty.
  destruct (decide (internalDependency scope dependencies k)) as [Hi|Hi].
  - rewrite decide_True; [done|by apply internal_keys].
  - rewrite decide_False; [done|by rewrite internal_keys].
Qed.

Lemma normalizeOptions_inv name st options st' :
  normalizeOptions name st = (Ok options, st') →
  st' = st
  ∧ Devkit.lookupProject (projects (tree st)) name = Some (Options.projectConfig options)
  ∧ options
    = Options.mk name (Options.projectConfig options) (npmScope (tree st))
        (Js.replace ("@" +:+ npmScope (tree st) +:+ "/") "" name)
        (mkPaths
           (Devkit.joinPathFragments [root (Options.projectConfig options); "config"])
           (Devkit.joinPathFragments [root (Options.projectConfig options); "package.json"])
           (Devkit.joinPathFragments [root (Options.projectConfig options); "tsconfig.json"])
           (Devkit.joinPathFragments [root (Options.projectConfig options); "jest.config.js"])
           "/tsconfig.base.json" "/jest.preset.js" "/jest.config.js"
           (Devkit.joinPathFragments [root (Options.projectConfig options); ".npmignore"])
           (mkStorybookPaths
              (Devkit.joinPathFragments [root (Options.projectConfig options); ".storybook/tsconfig.json"])
              (Devkit.joinPathFragments [root (Options.projectConfig options); ".storybook/main.js"])
              (Devkit.joinPathFragments [root (Options.projectConfig options); ".storybook/preview.js"]))).
Proof.
  unfold normalizeOptions, Devkit.readNpmScope, Devkit.readProjectConfiguration,
    Devkit.getProjects, bind, ret, throw. simpl.
  destruct (Devkit.lookupProject (projects (tree st)) name) as [c|] eqn:Hc; [|done].
  intros [= <- <-]. done.
Qed.

(** X27: what the alias step writes: after it the root config's paths map
    P's name to [P's root]/src/index.ts and every dependency of P in
    the workspace scope that is a registered project to
    [its root]/src/index.ts (one that is not registered gets
    undefined/src/index.ts); every other key, among them each
    dependency outside the scope, is as it was before. *)
Theorem updatedBaseTsConfig_registers_aliases (name : string) (st : State)
    (options : Options.t) (pj : PackageJson) (base : TsConfig) (co : CompilerOptions) :
  normalizeOptions name st = (Ok options, st) →
  files (tree st) !! packageJson (Options.paths options) = Some (FPackageJson pj) →
  files (tree st) !! "/tsconfig.base.json" = Some (FTsConfig base) →
  ts_compilerOptions base = Some co →
  ∃ paths' : gmap string (list string),
    updatedBaseTsConfig options st
    = (Ok tt,
       mkState
         (mkTree
            (<["/tsconfig.base.json" :=
                 FTsConfig (mkTsConfig (ts_extends base) (ts_include base)
                              (Some (mkCompilerOptions (co_types co) (Some paths') (co_rest co)))
                              (ts_rest base))]> (files (tree st)))
            (npmScope (tree st)) (projects (tree st)))
         (userLog st) (tsconfigTypes st))
    ∧ paths' !! name = Some [root (Options.projectConfig options) +:+ "/src/index.ts"]
    ∧ (∀ d c,
         internalDependency (npmScope (tree st)) (default ∅ (pj_dependencies pj)) d →
         Devkit.lookupProject (projects (tree st)) d = Some c →
         paths' !! d = Some [root c +:+ "/src/index.ts"])
    ∧ (∀ d,
         internalDependency (npmScope (tree st)) (default ∅ (pj_dependencies pj)) d →
         d ≠ name →
         Devkit.lookupProject (projects (tree st)) d = None →
         paths' !! d = Some ["undefined/src/index.ts"])
    ∧ (∀ k,
         k ≠ name →
         ¬ internalDependency (npmScope (tree st)) (default ∅ (pj_dependencies pj)) k →
         paths' !! k = default ∅ (co_paths co) !! k).
Proof.
  intros Hopt Hpj Hbase Hco.
  apply normalizeOptions_inv in Hopt as (_ & Hcfg & Hoptions).
  assert (Hname : Options.name options = name) by (by rewrite Hoptions).
  assert (Hroot : rootTsconfig (Options.paths options) = "/tsconfig.base.json")
    by (by rewrite Hoptions).
  eexists. split; [|split; [|split; [|split]]].
  - unfold updatedBaseTsConfig, Devkit.updateTsConfig, Devkit.readTsConfig,
      Devkit.readPackageJson, Devkit.read, Devkit.write, Devkit.readNpmScope,
      Devkit.getProjects, baseTsConfigUpdater, putFiles, getTree, bind, ret.
    simpl. rewrite Hpj, Hroot. simpl. rewrite Hbase. simpl. rewrite Hco. simpl.
    reflexivity.
  - rewrite Hname. rewrite lookup_union, aliases_lookup, lookup_insert_eq.
    case_decide as Hi; [|done]. simpl.
    unfold rootOrUndefined. by rewrite Hcfg.
  - intros d c Hi Hc. rewrite lookup_union, aliases_lookup, decide_True by done.
    unfold rootOrUndefined. rewrite Hc.
    by destruct (<[Options.name options:=_]> _ !! d).
  - intros d Hi Hne Hc. rewrite lookup_union, aliases_lookup, decide_True by done.
    unfold rootOrUndefined. rewrite Hc.
    by destruct (<[Options.name options:=_]> _ !! d).
  - intros k Hne Hi. rewrite lookup_union, aliases_lookup, decide_False by done.
    rewrite Hname, lookup_insert_ne by done.
    by destruct (default ∅ (co_paths co) !! k).
Qed.

(** C5, evaluated: y depends on [@scope/react-icons], a package of the
    workspace's scope that is no project of the workspace.  The alias
    step registers [undefined/src/index.ts] for it: the registry has no
    root to join, and the path is built all the same.  (The project's
    own alias and the alias of x, a registered dependency, are as
    claimed, and react, outside the scope, gets none.) *)
Theorem alias_of_unregistered_dependency_is_undefined :
  ∃ st' paths',
    Devkit.lookupProject (projects (tree StoryExample.outsideDependency))
      "@scope/react-icons" = None
    ∧ updatedBaseTsConfig StoryExample.options StoryExample.outsideDependency
      = (Ok tt, st')
    ∧ files (tree st') !! "/tsconfig.base.json"
      = Some (FTsConfig (mkTsConfig None None
                           (Some (mkCompilerOptions None (Some paths') [])) []))
    ∧ paths' !! "@scope/react-icons" = Some ["undefined/src/index.ts"]
    ∧ paths' !! "@scope/y" = Some ["packages/y/src/index.ts"]
    ∧ paths' !! "@scope/x" = Some ["packages/x/src/index.ts"]
    ∧ paths' !! "react" = None.
Proof.
  eexists _, _. split; [reflexivity|]. split; [vm_compute; reflexivity|].
  split; [vm_compute; reflexivity|].
  repeat split; vm_compute; reflexivity.
Qed.

(** ** Story relocation *)

Section Stories.

Variable h : Host.
Variable options : Options.t.

Lemma moveStory_run st p f :
  files (tree st) !! p = Some f →
  fileText h f ≠ "" →
  moveStory h options p st
  = (Ok tt,
     withFiles st
       (<[storyDestination options p :=
            FText (movedStory (Options.name options) (storyFileName p) (fileText h f))]>
          (files (tree st)))).
Proof.
  intros Hp Hne.
  unfold moveStory, Devkit.read, Devkit.write, getTree, putFiles, bind, ret, throw.
  simpl. rewrite Hp. simpl.
  destruct (String.eqb_spec (fileText h f) ""); [done|]. done.
Qed.

Lemma forEach_moveStory orig l : ∀ st,
  (∀ p, p ∈ l → files (tree st) !! p = orig !! p) →
  (∀ p, p ∈ l → ∃ f, orig !! p = Some f ∧ fileText h f ≠ "") →
  (∀ p q, p ∈ l → q ∈ l → storyDestination options p ≠ q) →
  forEach (moveStory h options) l st
  = (Ok tt, withFiles st (fold_left (relocate h options orig) l (files (tree st)))).
Proof.
  induction l as [|p l IH]; intros st Hsame Hcontent Hdest; cbn [forEach fold_left].
  - unfold ret, withFiles. by destruct st as [[]].
  - destruct (Hcontent p) as (f & Hf & Hne); [by left|].
    assert (Hp : files (tree st) !! p = Some f).
    { rewrite Hsame by left. done. }
    rewrite (bind_run _ _ _ _ _ (moveStory_run st p f Hp Hne)).
    assert (Hrel : relocate h options orig (files (tree st)) p
                   = <[storyDestination options p :=
                         FText (movedStory (Options.name options) (storyFileName p)
                                  (fileText h f))]> (files (tree st))).
    { unfold relocate. by rewrite Hf. }
    rewrite Hrel. rewrite IH.
    + done.
    + intros q Hq. simpl. rewrite lookup_insert_ne.
      * apply Hsame. by right.
      * apply Hdest; [by left|by right].
    + intros q Hq. apply Hcontent. by right.
    + intros q r Hq Hr. apply Hdest; by right.
Qed.

Lemma relocate_frame orig l : ∀ fs k,
  (∀ p, p ∈ l → storyDestination options p ≠ k) →
  fold_left (relocate h options orig) l fs !! k = fs !! k.
Proof.
  induction l as [|p l IH]; intros fs k Hk; simpl; [done|].
  rewrite IH by (intros q Hq; apply Hk; by right).
  unfold relocate. destruct (orig !! p); [|done].
  rewrite lookup_insert_ne; [done|]. apply Hk. by left.
Qed.

Lemma relocate_last orig l1 q l2 fs f :
  (∀ p, p ∈ l2 → storyDestination options p ≠ storyDestination options q) →
  orig !! q = Some f →
  fold_left (relocate h options orig) (l1 ++ q :: l2) fs !! storyDestination options q
  = Some (FText (movedStory (Options.name options) (storyFileName q) (fileText h f))).
Proof.
  intros Hl2 Hq. rewrite fold_left_app. simpl.
  rewrite relocate_frame by done.
  unfold relocate. rewrite Hq. by rewrite lookup_insert_eq.
Qed.

Lemma storyDestination_inj p q :
  storyDestination options p = storyDestination options q ↔ storyFileName p = storyFileName q.
Proof.
  split; [|unfold storyDestination; by intros ->].
  unfold storyDestination, Devkit.joinPathFragments. simpl.
  intros H. apply string_app_inv_head in H.
  by apply (string_app_inv_head "/src/") in H.
Qed.

Lemma elem_of_insertWalked x y l : x ∈ Devkit.insertWalked h y l ↔ x = y ∨ x ∈ l.
Proof.
  induction l as [|z l IH]; cbn [Devkit.insertWalked].
  - rewrite list_elem_of_singleton, elem_of_nil. tauto.
  - destruct (Devkit.walkedBefore _ _ _).
    + by rewrite elem_of_cons.
    + rewrite !elem_of_cons, IH. tauto.
Qed.

(** Ordering the paths neither adds nor drops one. *)
Lemma elem_of_inWalkOrder x l : x ∈ Devkit.inWalkOrder h l ↔ x ∈ l.
Proof.
  unfold Devkit.inWalkOrder. induction l as [|y l IH]; cbn [foldr]; [done|].
  by rewrite elem_of_insertWalked, IH, elem_of_cons.
Qed.

(** The stories collected: the files below the directory that have
    ".stories." in their path and are not ignored. *)
Lemma elem_of_storyPathsIn fs dir p :
  p ∈ storyPathsIn h fs dir
  ↔ is_Some (fs !! p) ∧ Js.startsWith (dir +:+ "/") p = true
    ∧ ignored h p = false ∧ Js.includes ".stories." p = true.
Proof.
  unfold storyPathsIn, Devkit.visitedFiles.
  rewrite list_elem_of_In, filter_In, <- list_elem_of_In, elem_of_inWalkOrder.
  rewrite list_elem_of_In, filter_In, <- list_elem_of_In.
  change (map fst (map_to_list fs)) with ((map_to_list fs).*1).
  rewrite list_elem_of_fmap, andb_true_iff, negb_true_iff. split.
  - intros [[([k v] & -> & Hin) [Hd Hi]] Hs].
    apply elem_of_map_to_list in Hin. split; [by exists v|done].
  - intros ([v Hv] & Hd & Hi & Hs). split; [|done]. split; [|done].
    exists (p, v). split; [done|]. by apply elem_of_map_to_list.
Qed.

Lemma storyPaths_exist fs dir p :
  p ∈ storyPathsIn h fs dir → is_Some (fs !! p).
Proof. by intros [H _]%elem_of_storyPathsIn. Qed.

End Stories.

(** C10: relocation flattens.  The stories are the files below the
    package's directory in the examples project, at whatever depth,
    that have ".stories." in their path and are not ignored.  Every one
    of them is written to [<project root>/src/<last segment of its
    path>] and nothing else is written; stories that share their last
    segment share that destination, and the destination ends up with
    the text made from the one visited last.  (Every story is taken to
    have content, and no destination to be one of the stories still to
    be read.) *)
Theorem stories_are_flattened (h : Host) (options : Options.t) (st : State)
    (reactExamplesConfig : ProjectConfiguration) :
  let storyPaths :=
    storyPathsIn h (files (tree st))
      (root reactExamplesConfig +:+ "/src/" +:+ Options.normalizedPkgName options) in
  lookupProject (projects (tree st))
    ("@" +:+ Options.workspaceNpmScope options +:+ "/react-examples")
    = Some reactExamplesConfig →
  (∀ p f, p ∈ storyPaths → files (tree st) !! p = Some f → fileText h f ≠ "") →
  (∀ p q, p ∈ storyPaths → q ∈ storyPaths → storyDestination options p ≠ q) →
  ∃ st',
    moveStorybookFromReactExamples h options st = (Ok tt, st')
    ∧ projects (tree st') = projects (tree st)
    ∧ (∀ p, p ∈ storyPaths
            ↔ is_Some (files (tree st) !! p)
              ∧ Js.startsWith
                  ((root reactExamplesConfig +:+ "/src/"
                    +:+ Options.normalizedPkgName options) +:+ "/") p = true
              ∧ ignored h p = false
              ∧ Js.includes ".stories." p = true)
    ∧ (∀ k, (∀ p, p ∈ storyPaths → storyDestination options p ≠ k) →
            files (tree st') !! k = files (tree st) !! k)
    ∧ (∀ l1 q l2 f,
         storyPaths = l1 ++ q :: l2 →
         (∀ p, p ∈ l2 → storyFileName p ≠ storyFileName q) →
         files (tree st) !! q = Some f →
         (∀ p, p ∈ l1 → storyFileName p = storyFileName q →
               storyDestination options p = storyDestination options q)
         ∧ storyDestination options q
           = root (Options.projectConfig options) +:+ "/src/"
             +:+ List.last (splitPathFragments q) ""
         ∧ files (tree st') !! storyDestination options q
           = Some (FText (movedStory (Options.name options) (storyFileName q)
                            (fileText h f)))).
Proof.
  intros storyPaths Hex Hcontent Hdest.
  unfold moveStorybookFromReactExamples, getReactExamplesProjectConfig,
    readProjectConfiguration, getProjects, getTree.
  unfold bind at 1. unfold bind at 1. simpl. rewrite Hex. simpl.
  unfold bind at 1. simpl. fold storyPaths.
  destruct (length storyPaths =? 0) eqn:Hlen.
  - apply Nat.eqb_eq, nil_length_inv in Hlen.
    eexists. split; [reflexivity|]. simpl. split; [done|].
    split; [intros p; apply elem_of_storyPathsIn|]. split; [done|].
    intros l1 q l2 f Heq. rewrite Hlen in Heq. by destruct l1.
  - rewrite (forEach_moveStory h options (files (tree st))).
    + eexists. split; [reflexivity|]. simpl. split; [done|].
      split; [intros p; apply elem_of_storyPathsIn|]. split.
      * intros k Hk. by apply relocate_frame.
      * intros l1 q l2 f Heq Hl2 Hq. split; [|split].
        -- intros p _ Hpq. by apply storyDestination_inj.
        -- done.
        -- rewrite Heq. apply relocate_last; [|done].
           intros p Hp. rewrite storyDestination_inj. by apply Hl2.
    + done.
    + intros p Hp. destruct (storyPaths_exist h _ _ _ Hp) as [f Hf].
      exists f. split; [done|]. by apply (Hcontent p).
    + done.
Qed.

(** C1, evaluated on the workspace whose one story imports [@scope/y]
    twice: after relocation the file at
    [packages/y/src/Button.stories.tsx] has [./index] for the first
    import only, and the second still names [@scope/y].  (The appended
    block does name [Button].) *)
Theorem story_relocation_replaces_first_occurrence_only :
  ∃ st' moved,
    storyPathsIn StoryExample.host (files (tree StoryExample.oneStory))
      "packages/react-examples/src/y"
    = ["packages/react-examples/src/y/Button.stories.tsx"]
    ∧ files (tree StoryExample.oneStory)
        !! "packages/react-examples/src/y/Button.stories.tsx"
      = Some (FText ("import { Button } from '@scope/y';" +:+ Js.newline
                     +:+ "import type { ButtonProps } from '@scope/y';"))
    ∧ moveStorybookFromReactExamples StoryExample.host StoryExample.options
        StoryExample.oneStory
      = (Ok tt, st')
    ∧ files (tree st') !! "packages/y/src/Button.stories.tsx" = Some (FText moved)
    ∧ moved
      = "import { Button } from './index';" +:+ Js.newline
        +:+ "import type { ButtonProps } from '@scope/y';"
        +:+ Js.newline +:+ Js.newline
        +:+ "export default {" +:+ Js.newline
        +:+ "title: 'Components/Button'," +:+ Js.newline
        +:+ "component: Button," +:+ Js.newline
        +:+ "}"
    ∧ Js.includes "@scope/y" moved = true.
Proof.
  eexists _, _. split; [|split; [|split; [|split; [|split]]]].
  - vm_compute. reflexivity.
  - vm_compute. reflexivity.
  - vm_compute. reflexivity.
  - vm_compute. reflexivity.
  - vm_compute. reflexivity.
  - vm_compute. reflexivity.
Qed.

(** ** The user log is a side channel *)

Lemma logpar_ret {A} (a : A) : logpar (ret a).
Proof.
  intros t ty. exists (Ok a), t, ty, []. split; [done|].
  intros l. unfold ret. by rewrite app_nil_r.
Qed.

Lemma logpar_throw {A} e : logpar (@throw A e).
Proof.
  intros t ty. exists (Throw e), t, ty, []. split; [done|].
  intros l. unfold throw. by rewrite app_nil_r.
Qed.

Lemma logpar_bind {A B} (m : M A) (k : A → M B) :
  logpar m → (∀ a, logpar (k a)) → logpar (bind m k).
Proof.
  intros Hm Hk t ty. destruct (Hm t ty) as (r & t1 & ty1 & d1 & Hd1 & Hrun).
  destruct r as [a|e].
  - destruct (Hk a t1 ty1) as (r2 & t2 & ty2 & d2 & Hd2 & Hrun2).
    exists r2, t2, ty2, (d1 ++ d2). split; [by apply Forall_app|].
    intros l. unfold bind. rewrite Hrun, Hrun2. by rewrite app_assoc.
  - exists (Throw e), t1, ty1, d1. split; [done|].
    intros l. unfold bind. by rewrite Hrun.
Qed.

(** Reading the tree or the template, and writing them, is log-blind. *)
Lemma logpar_read {A} (f : Tree → list string → A) :
  logpar (λ st, (Ok (f (tree st) (tsconfigTypes st)), st)).
Proof.
  intros t ty. exists (Ok (f t ty)), t, ty, []. split; [done|].
  intros l. simpl. by rewrite app_nil_r.
Qed.

Lemma logpar_putFiles fs : logpar (putFiles fs).
Proof.
  intros t ty. exists (Ok tt), (mkTree fs (npmScope t) (projects t)), ty, [].
  split; [done|]. intros l. unfold putFiles. simpl. by rewrite app_nil_r.
Qed.

Lemma logpar_putProjects ps : logpar (putProjects ps).
Proof.
  intros t ty. exists (Ok tt), (mkTree (files t) (npmScope t) ps), ty, [].
  split; [done|]. intros l. unfold putProjects. simpl. by rewrite app_nil_r.
Qed.

Lemma logpar_setTemplateTypes ts : logpar (setTemplateTypes ts).
Proof.
  intros t ty. exists (Ok tt), t, ts, []. split; [done|].
  intros l. unfold setTemplateTypes. simpl. by rewrite app_nil_r.
Qed.

Lemma logpar_pushLog es : Forall (λ e, type e = warn) es → logpar (pushLog es).
Proof.
  intros Hes t ty. exists (Ok tt), t, ty, es. split; [done|].
  intros l. done.
Qed.

Lemma logpar_forEach {A} (f : A → M unit) l :
  (∀ a, logpar (f a)) → logpar (forEach f l).
Proof.
  intros Hf. induction l as [|x l IH]; simpl.
  - apply logpar_ret.
  - apply logpar_bind; [apply Hf|]. intros _. apply IH.
Qed.

Ltac logpar_step :=
  first
    [ apply logpar_ret
    | apply logpar_throw
    | apply logpar_bind; [|intros ?]
    | apply logpar_putFiles
    | apply logpar_putProjects
    | apply logpar_setTemplateTypes
    | apply (logpar_read (λ t _, t))
    | apply (logpar_read (λ _ ty, ty))
    | apply (logpar_read (λ t _, projects t))
    | apply (logpar_read (λ t _, npmScope t))
    | match goal with
      | |- logpar (Devkit.read ?p) => apply (logpar_read (λ t _, files t !! p))
      | |- logpar (Devkit.exists_ ?p) => apply (logpar_read (λ t _, existsIn (files t) p))
      | |- logpar (pushLog _) => apply logpar_pushLog; repeat constructor
      | |- logpar (forEach _ _) => apply logpar_forEach; intros ?
      | |- logpar (match ?x with _ => _ end) => destruct x
      end ].

Ltac logpar :=
  unfold Devkit.write, Devkit.delete_, Devkit.readPackageJson, Devkit.readTsConfig,
    Devkit.updatePackageJson, Devkit.updateTsConfig, Devkit.readProjectConfiguration,
    Devkit.updateProjectConfiguration, Devkit.getProjects, Devkit.readNpmScope,
    getTree, getTemplateTypes;
  repeat logpar_step.

Lemma runMigrationOnProject_logpar h name : logpar (runMigrationOnProject h name).
Proof.
  unfold runMigrationOnProject, normalizeOptions, updatedLocalTsConfig,
    updatedBaseTsConfig, updateLocalJestConfig, updateRootJestConfig,
    updateJestConfig, setupStorybook, moveStorybookFromReactExamples,
    removeMigratedPackageFromReactExamples, updateNpmScripts,
    updateApiExtractorForLocalBuilds, setupNpmConfig, updateNxWorkspace,
    getReactExamplesProjectConfig, moveStory.
  logpar.
Qed.

(** ** No step makes or re-versions a manifest *)

Lemma VersPres_refl fs : VersPres fs fs.
Proof. intros q pj' H. by exists pj'. Qed.

Lemma VersPres_trans fs1 fs2 fs3 : VersPres fs1 fs2 → VersPres fs2 fs3 → VersPres fs1 fs3.
Proof.
  intros H12 H23 q pj3 H3. destruct (H23 q pj3 H3) as (pj2 & H2 & E2).
  destruct (H12 q pj2 H2) as (pj1 & H1 & E1). exists pj1. split; [done|congruence].
Qed.

Lemma verspres_ret {A} (a : A) : verspres (ret a).
Proof. intros st r st' [= <- <-]. apply VersPres_refl. Qed.

Lemma verspres_throw {A} e : verspres (@throw A e).
Proof. intros st r st' [= <- <-]. apply VersPres_refl. Qed.

Lemma verspres_bind {A B} (m : M A) (k : A → M B) :
  verspres m → (∀ a, verspres (k a)) → verspres (bind m k).
Proof.
  intros Hm Hk st r st'. unfold bind.
  destruct (m st) as [[a|e] st1] eqn:Hrun; intros H.
  - eapply VersPres_trans; [by eapply Hm|by eapply Hk].
  - injection H as <- <-. by eapply Hm.
Qed.

(** Anything that leaves the files alone. *)
Lemma verspres_files {A} (m : M A) :
  (∀ st, files (tree (m st).2) = files (tree st)) → verspres m.
Proof.
  intros H st r st' Hrun. specialize (H st). rewrite Hrun in H. simpl in H.
  rewrite H. apply VersPres_refl.
Qed.

Lemma verspres_write p f :
  (∀ pj, f ≠ FPackageJson pj) → verspres (Devkit.write p f).
Proof.
  intros Hf st r st'. unfold Devkit.write, getTree, putFiles, bind. simpl.
  intros [= <- <-]. simpl. intros q pj' Hq.
  destruct (decide (p = q)) as [->|Hne].
  - rewrite lookup_insert_eq in Hq. injection Hq as ->. by destruct (Hf pj').
  - rewrite lookup_insert_ne in Hq by done. by exists pj'.
Qed.

Lemma verspres_delete p : verspres (Devkit.delete_ p).
Proof.
  intros st r st'. unfold Devkit.delete_, getTree, putFiles, bind. simpl.
  intros [= <- <-]. simpl. intros q pj' Hq.
  unfold deleteIn in Hq. apply map_lookup_filter_Some in Hq as [Hq _]. by exists pj'.
Qed.

Lemma verspres_updatePackageJson p updater :
  (∀ pj pj', updater pj = Ok pj' → pj_version pj = pj_version pj') →
  verspres (Devkit.updatePackageJson p updater).
Proof.
  intros Hup st r st'.
  unfold Devkit.updatePackageJson, Devkit.readPackageJson, Devkit.read,
    Devkit.write, getTree, putFiles, bind, ret, throw. simpl.
  destruct (files (tree st) !! p) as [[| pj | |]|] eqn:Hp; simpl;
    try (intros [= <- <-]; apply VersPres_refl).
  destruct (updater pj) as [pj'|e] eqn:Hu; intros [= <- <-]; [|apply VersPres_refl].
  simpl. intros q pj2 Hq.
  destruct (decide (p = q)) as [->|Hne].
  - rewrite lookup_insert_eq in Hq. injection Hq as <-.
    exists pj. split; [done|]. by apply Hup.
  - rewrite lookup_insert_ne in Hq by done. by exists pj2.
Qed.

Lemma verspres_forEach {A} (f : A → M unit) l :
  (∀ a, verspres (f a)) → verspres (forEach f l).
Proof.
  intros Hf. induction l as [|x l IH]; simpl.
  - apply verspres_ret.
  - apply verspres_bind; [apply Hf|]. intros _. apply IH.
Qed.

Ltac verspres_step :=
  first
    [ match goal with
      | |- verspres (Devkit.updatePackageJson _ _) => idtac
      | |- verspres (Devkit.write _ _) => apply verspres_write; intros ?; discriminate
      | |- verspres (Devkit.delete_ _) => apply verspres_delete
      end
    | apply verspres_ret
    | apply verspres_throw
    | apply verspres_bind; [|intros ?]
    | apply verspres_forEach; intros ?
    | apply verspres_files; intros ?; reflexivity
    | match goal with
      | |- verspres (match ?x with _ => _ end) => destruct x
      end ].

Ltac verspres :=
  unfold Devkit.readPackageJson, Devkit.readTsConfig, Devkit.updateTsConfig,
    Devkit.readProjectConfiguration, Devkit.updateProjectConfiguration,
    Devkit.getProjects, Devkit.readNpmScope;
  repeat verspres_step.

Lemma runMigrationOnProject_verspres h name : verspres (runMigrationOnProject h name).
Proof.
  unfold runMigrationOnProject, normalizeOptions, updatedLocalTsConfig,
    updatedBaseTsConfig, updateLocalJestConfig, updateRootJestConfig,
    updateJestConfig, setupStorybook, moveStorybookFromReactExamples,
    removeMigratedPackageFromReactExamples, updateNpmScripts,
    updateApiExtractorForLocalBuilds, setupNpmConfig, updateNxWorkspace,
    getReactExamplesProjectConfig, moveStory.
  verspres.
  - apply verspres_updatePackageJson. by intros pj pj' [= <-].
  - apply verspres_updatePackageJson. unfold npmScriptsUpdater.
    intros pj pj'. destruct (pj_scripts pj); [|done]. by intros [= <-].
Qed.

(** ** Batch mode *)

Lemma warnings_split d :
  Forall (λ e, type e = warn) d → errorsOf d = [] ∧ othersOf d = d.
Proof.
  unfold errorsOf, othersOf, isError.
  induction 1 as [|e d He _ [IH1 IH2]]; simpl; [done|].
  rewrite He. simpl. by rewrite IH1, IH2.
Qed.

Lemma errorsOf_app l d : errorsOf (l ++ d) = errorsOf l ++ errorsOf d.
Proof. apply List.filter_app. Qed.

Lemma othersOf_app l d : othersOf (l ++ d) = othersOf l ++ othersOf d.
Proof. apply List.filter_app. Qed.

Lemma isPackageConverged_inv project st b st' :
  isPackageConverged project st = (Ok b, st') →
  st' = st
  ∧ ∃ pj version,
      files (tree st) !! joinPathFragments [root project; "package.json"]
        = Some (FPackageJson pj)
      ∧ pj_version pj = Some version ∧ b = Js.startsWith "9." version.
Proof.
  unfold isPackageConverged, readPackageJson, read, bind, ret, throw.
  destruct (files (tree st) !! _) as [[| pj | |]|] eqn:Hf; cbn -[Js.startsWith];
    try discriminate.
  destruct (pj_version pj) as [version|] eqn:Hv; cbn -[Js.startsWith]; [|discriminate].
  intros [= <- <-]. split; [done|]. by exists pj, version.
Qed.

(** A check that succeeds later gave the same answer at the start. *)
Lemma convergedOn_earlier st0 st e b st' :
  VersPres (files (tree st0)) (files (tree st)) →
  isPackageConverged e.2 st = (Ok b, st') →
  convergedOn st0 e = b.
Proof.
  intros Hvp Hrun.
  apply isPackageConverged_inv in Hrun as (_ & pj' & version & Hf & Hv & ->).
  destruct (Hvp _ _ Hf) as (pj & Hf0 & Hv0).
  unfold convergedOn, isPackageConverged, readPackageJson, read, bind, ret, throw.
  cbn -[Js.startsWith]. rewrite Hf0. cbn -[Js.startsWith].
  rewrite Hv0, Hv. done.
Qed.

Lemma batch_forEach h st0 : ∀ ps st sa st',
  VersPres (files (tree st0)) (files (tree st)) →
  tree sa = tree st → tsconfigTypes sa = tsconfigTypes st →
  othersOf (userLog sa) = othersOf (userLog st) →
  forEach (migrateIfConverged h) ps st = (Ok tt, st') →
  errorsOf (userLog st')
  = errorsOf (userLog st)
    ++ map (λ e, skipped e.1) (List.filter (λ e, negb (convergedOn st0 e)) ps)
  ∧ ∃ s2,
      forEach (λ e, runMigrationOnProject h e.1) (List.filter (convergedOn st0) ps) sa
      = (Ok tt, s2)
      ∧ tree s2 = tree st' ∧ tsconfigTypes s2 = tsconfigTypes st'
      ∧ othersOf (userLog s2) = othersOf (userLog st').
Proof.
  induction ps as [|e ps IH]; intros st sa st' Hvp Ht Hty Hlog Hrun.
  - simpl in *. injection Hrun as <-. rewrite app_nil_r. split; [done|].
    exists sa. by rewrite Ht, Hty, Hlog.
  - cbn [forEach] in Hrun. apply bind_ok_inv in Hrun as ([] & st1 & Hstep & Hrest).
    unfold migrateIfConverged in Hstep.
    apply bind_ok_inv in Hstep as (b & stc & Hcheck & Hstep).
    pose proof (convergedOn_earlier st0 st e b stc Hvp Hcheck) as Hb.
    apply isPackageConverged_inv in Hcheck as (-> & _).
    cbn [List.filter map]. rewrite Hb. destruct b; cbn [negb] in *.
    + (* converged: the migration runs *)
      destruct (runMigrationOnProject_logpar h e.1 (tree st) (tsconfigTypes st))
        as (r & t1 & ty1 & d & Hd & Hpar).
      destruct st as [t l ty], sa as [ta la tya]. simpl in *. subst ta tya.
      rewrite Hpar in Hstep. injection Hstep as -> <-.
      destruct (warnings_split d Hd) as [Hde Hdo].
      destruct (IH (mkState t1 (l ++ d) ty1) (mkState t1 (la ++ d) ty1) st') as [He Hs2].
      * eapply VersPres_trans; [exact Hvp|].
        eapply (runMigrationOnProject_verspres h e.1 (mkState t l ty)). apply Hpar.
      * done.
      * done.
      * simpl. rewrite !othersOf_app. by rewrite Hlog.
      * done.
      * simpl in He. rewrite errorsOf_app, Hde, app_nil_r in He. split; [done|].
        cbn [forEach]. rewrite (bind_run _ _ _ _ _ (Hpar la)). done.
    + (* not converged: one error entry, nothing else *)
      unfold pushLog in Hstep. injection Hstep as <-.
      destruct (IH (mkState (tree st) (userLog st ++ [skipped e.1]) (tsconfigTypes st))
                  sa st') as [He Hs2]; simpl; try done.
      * rewrite othersOf_app. simpl. by rewrite app_nil_r.
      * simpl in He. rewrite errorsOf_app in He. simpl in He.
        rewrite <- app_assoc in He. done.
Qed.

(** C3 as stated fails on the severity: with B, on 8.2.7, as the only
    project, the batch completes and the log holds one entry for B, of
    type error; no warning is logged. *)
Lemma batch_skip_is_an_error_entry :
  ∃ st',
    runBatchMigration BatchExample.host BatchExample.onlyB = (Ok tt, st')
    ∧ userLog st' = [mkLog error "@scope/b is not converged package. Skipping migration..."]
    ∧ List.filter (λ e, match type e with warn => true | _ => false end) (userLog st') = [].
Proof.
  eexists. split; [|split].
  - vm_compute. reflexivity.
  - reflexivity.
  - reflexivity.
Qed.

(** C3, amended: a project whose manifest version fails the check is
    skipped with exactly one log entry, of type error, and without
    touching the tree or stopping the batch.  When the batch completes,
    the error entries added are exactly one per project that was not
    converged at the start, in registry order, and the tree it leaves is
    the one left by running the full migration on the converged
    projects alone, in registry order; the other log entries agree as
    well. *)
Theorem batch_skips_unconverged (h : Host) (st st' : State) :
  runBatchMigration h st = (Ok tt, st') →
  (∀ e s, isPackageConverged e.2 s = (Ok false, s) →
          migrateIfConverged h e s
          = (Ok tt, mkState (tree s) (userLog s ++ [skipped e.1]) (tsconfigTypes s)))
  ∧ errorsOf (userLog st')
    = errorsOf (userLog st)
      ++ map (λ e, skipped e.1)
           (List.filter (λ e, negb (convergedOn st e)) (projects (tree st)))
  ∧ ∃ s2,
      forEach (λ e, runMigrationOnProject h e.1)
        (List.filter (convergedOn st) (projects (tree st))) st
      = (Ok tt, s2)
      ∧ tree s2 = tree st' ∧ tsconfigTypes s2 = tsconfigTypes st'
      ∧ othersOf (userLog s2) = othersOf (userLog st').
Proof.
  intros Hrun. split.
  - intros e s Hcheck. unfold migrateIfConverged.
    rewrite (bind_run _ _ _ _ _ Hcheck). done.
  - unfold runBatchMigration, getProjects in Hrun. unfold bind at 1 in Hrun.
    by apply (batch_forEach h st (projects (tree st)) st st st' (VersPres_refl _)).
Qed.

(** ** Toolkit for the idempotence proof *)

(** *** First-occurrence deduplication *)

Lemma existsb_eqb_elem x (l : list string) : existsb (String.eqb x) l = true ↔ x ∈ l.
Proof.
  rewrite existsb_exists, list_elem_of_In. split.
  - intros (y & Hy & E). apply String.eqb_eq in E. by subst.
  - intros H. exists x. split; [done|apply String.eqb_refl].
Qed.

Lemma uniqueFrom_ext l : ∀ s1 s2,
  (∀ y, y ∈ s1 ↔ y ∈ s2) → uniqueFrom s1 l = uniqueFrom s2 l.
Proof.
  induction l as [|x l IH]; intros s1 s2 Hs; simpl; [done|].
  assert (existsb (String.eqb x) s1 = existsb (String.eqb x) s2) as ->.
  { apply eq_true_iff_eq. rewrite !existsb_eqb_elem. apply Hs. }
  destruct (existsb (String.eqb x) s2); [by apply IH|].
  f_equal. apply IH. intros y. rewrite !elem_of_cons. by rewrite Hs.
Qed.

Lemma uniqueFrom_app l1 : ∀ seen l2,
  uniqueFrom seen (l1 ++ l2) = uniqueFrom seen l1 ++ uniqueFrom (l1 ++ seen) l2.
Proof.
  induction l1 as [|x l1 IH]; intros seen l2; simpl; [done|].
  destruct (existsb (String.eqb x) seen) eqn:Hx.
  - rewrite IH. f_equal. apply uniqueFrom_ext. intros y.
    repeat (rewrite elem_of_app || rewrite elem_of_cons).
    apply existsb_eqb_elem in Hx. split; [tauto|].
    intros H. destruct_or!; subst; tauto.
  - simpl. rewrite IH. do 2 f_equal. apply uniqueFrom_ext. intros y.
    repeat (rewrite elem_of_app || rewrite elem_of_cons). tauto.
Qed.

Lemma uniqueFrom_seen l : ∀ seen, (∀ x, x ∈ l → x ∈ seen) → uniqueFrom seen l = [].
Proof.
  induction l as [|x l IH]; intros seen H; simpl; [done|].
  assert (existsb (String.eqb x) seen = true) as ->.
  { apply existsb_eqb_elem, H. by left. }
  apply IH. intros y Hy. apply H. by right.
Qed.

Lemma uniqueFrom_idem l : ∀ seen, uniqueFrom seen (uniqueFrom seen l) = uniqueFrom seen l.
Proof.
  induction l as [|x l IH]; intros seen; simpl; [done|].
  destruct (existsb (String.eqb x) seen) eqn:Hx; [apply IH|].
  simpl. rewrite Hx. f_equal. apply IH.
Qed.

Lemma elem_of_uniqueFrom l : ∀ seen y, y ∈ uniqueFrom seen l ↔ y ∈ l ∧ y ∉ seen.
Proof.
  induction l as [|x l IH]; intros seen y; simpl.
  - rewrite elem_of_nil. tauto.
  - destruct (existsb (String.eqb x) seen) eqn:Hx.
    + apply existsb_eqb_elem in Hx. rewrite IH, elem_of_cons.
      split; [tauto|]. intros [[->|Hy] Hn]; [by destruct Hn|tauto].
    + assert (x ∉ seen) as Hnx.
      { intros H. apply existsb_eqb_elem in H. congruence. }
      rewrite elem_of_cons, IH. repeat rewrite elem_of_cons.
      destruct (decide (y = x)) as [->|Hne].
      * split; [intros _|by left]. split; [by left|done].
      * split.
        -- intros [E|[Hy Hn]]; [done|]. split; [by right|]. tauto.
        -- intros [[E|Hy] Hn]; [done|]. right. split; [done|]. tauto.
Qed.

(** Appending what is already there changes nothing. *)
Lemma uniqueArray_absorb l m :
  (∀ x, x ∈ m → x ∈ l) → uniqueArray (uniqueArray l ++ m) = uniqueArray l.
Proof.
  intros H. unfold uniqueArray. rewrite uniqueFrom_app, uniqueFrom_idem.
  rewrite (uniqueFrom_seen m); [by rewrite app_nil_r|].
  intros x Hx. rewrite app_nil_r. apply elem_of_uniqueFrom. split; [by apply H|].
  apply not_elem_of_nil.
Qed.

Lemma uniqueArray_twice l : uniqueArray (uniqueArray l ++ uniqueArray l) = uniqueArray l.
Proof.
  apply uniqueArray_absorb. intros x Hx.
  by apply elem_of_uniqueFrom in Hx as [? _].
Qed.

(** *** Strings and paths *)

Lemma includes_app_r p a s : Js.includes p s = true → Js.includes p (a +:+ s) = true.
Proof.
  intros H. induction a as [|c a IH]; [done|].
  rewrite append_cons. simpl. rewrite IH. apply orb_true_r.
Qed.

Lemma includes_prefix p s : Js.startsWith p s = true → Js.includes p s = true.
Proof.
  intros H. destruct s as [|c s].
  - change (Js.includes p "") with (Js.startsWith p "" || false). by rewrite H.
  - change (Js.includes p (String c s))
      with (Js.startsWith p (String c s) || Js.includes p s).
    by rewrite H.
Qed.

Lemma includes_mid p a b : Js.includes p (a +:+ p +:+ b) = true.
Proof. apply includes_app_r, includes_prefix, startsWith_app. Qed.

Lemma string_app_inv_tail (a b c : string) : a +:+ c = b +:+ c → a = b.
Proof.
  revert b. induction a as [|x a IH]; intros [|y b] H; [done| | |].
  - apply (f_equal String.length) in H. rewrite append_nil, string_app_length in H.
    simpl in H. lia.
  - apply (f_equal String.length) in H. rewrite append_nil, string_app_length in H.
    simpl in H. lia.
  - rewrite !append_cons in H. injection H as -> H. f_equal. by apply IH.
Qed.

(** Of two strings that end a common string, the shorter ends the longer. *)
Lemma app_eq_suffix (b : string) : ∀ a u v,
  a +:+ u = b +:+ v → String.length u ≤ String.length v →
  Js.slice (String.length v - String.length u) v = u.
Proof.
  induction b as [|y b IH]; intros a u v H Hlen.
  - rewrite append_nil in H. subst v. rewrite string_app_length.
    replace (String.length a + String.length u - String.length u) with (String.length a) by lia.
    clear. induction a as [|x a IH]; [done|]. by rewrite append_cons.
  - destruct a as [|x a].
    + apply (f_equal String.length) in H.
      rewrite append_nil, append_cons in H. simpl in H.
      rewrite string_app_length in H. lia.
    + rewrite !append_cons in H. injection H as _ H. by apply (IH a).
Qed.

(** Two strings that begin a common string: one begins the other. *)
Lemma startsWith_comparable a : ∀ b s,
  Js.startsWith a s = true → Js.startsWith b s = true →
  Js.startsWith a b = true ∨ Js.startsWith b a = true.
Proof.
  induction a as [|x a IH]; intros b s Ha Hb; [by left|].
  destruct b as [|y b]; [by right|].
  destruct s as [|z s]; [done|]. simpl in *.
  destruct (Ascii.eqb_spec x z) as [->|]; [|done].
  destruct (Ascii.eqb_spec y z) as [->|]; [|done].
  rewrite Ascii.eqb_refl. by apply (IH b s).
Qed.

(** *** Files *)

Lemma existsIn_false (fs : gmap string File) p :
  existsIn fs p = false ↔ ∀ k, within p k = true → fs !! k = None.
Proof.
  unfold existsIn. split.
  - intros H k Hk. destruct (fs !! k) as [f|] eqn:Hf; [|done].
    assert (existsb (λ kv, within p kv.1) (map_to_list fs) = true); [|congruence].
    apply existsb_exists. exists (k, f). split; [|done].
    apply list_elem_of_In. by apply elem_of_map_to_list.
  - intros H. apply not_true_is_false. intros Hex.
    apply existsb_exists in Hex as ([k f] & Hin & Hw).
    apply list_elem_of_In, elem_of_map_to_list in Hin. simpl in Hw.
    rewrite (H k Hw) in Hin. done.
Qed.

Lemma existsIn_lookup (fs : gmap string File) p f :
  fs !! p = Some f → existsIn fs p = true.
Proof.
  intros Hf. apply not_false_is_true. intros H.
  rewrite existsIn_false in H. rewrite (H p) in Hf; [done|].
  unfold within. by rewrite String.eqb_refl.
Qed.

Lemma lookup_deleteIn (fs : gmap string File) p k :
  deleteIn fs p !! k = if within p k then None else fs !! k.
Proof.
  unfold deleteIn. destruct (within p k) eqn:Hw.
  - apply map_lookup_filter_None. right. intros f _. simpl. congruence.
  - destruct (fs !! k) as [f|] eqn:Hf.
    + by apply map_lookup_filter_Some.
    + apply map_lookup_filter_None. by left.
Qed.

Lemma storyPathsIn_empty h (fs : gmap string File) dir :
  (∀ k, within dir k = true → fs !! k = None) → storyPathsIn h fs dir = [].
Proof.
  intros H. destruct (storyPathsIn h fs dir) as [|p l] eqn:E; [done|].
  assert (Hin : p ∈ storyPathsIn h fs dir) by (rewrite E; by left).
  apply elem_of_storyPathsIn in Hin as ([f Hf] & Hp & _).
  rewrite H in Hf; [done|]. unfold within. rewrite Hp. apply orb_true_r.
Qed.

(** *** Paths below a root *)

Lemma join2 R s : joinPathFragments [R; s] = rel R s.
Proof. reflexivity. Qed.

Lemma join3 R s x : joinPathFragments [R; s; x] = rel R (s +:+ String "/" x).
Proof. reflexivity. Qed.

Lemma join_rel R s x : joinPathFragments [rel R s; x] = rel R (s +:+ String "/" x).
Proof.
  unfold joinPathFragments, rel. cbn [Js.join].
  change ("/" +:+ x) with (String "/" x).
  rewrite string_app_assoc. by rewrite append_cons.
Qed.

Lemma rel_inj R s1 s2 : rel R s1 = rel R s2 → s1 = s2.
Proof. unfold rel. intros H%string_app_inv_head. by injection H. Qed.

Lemma rel_prefix R s : Js.startsWith (R +:+ "/") (rel R s) = true.
Proof.
  apply startsWith_iff. exists s. unfold rel.
  rewrite string_app_assoc. reflexivity.
Qed.

(** A root-level path with no further slash is below no proper root. *)
Lemma const_ne_rel R c s : R ≠ "" → Js.includes "/" c = false → String "/" c ≠ rel R s.
Proof.
  intros HR Hc H. unfold rel in H. destruct R as [|x R]; [done|].
  rewrite append_cons in H. injection H as _ H.
  rewrite H in Hc.
  change (String "/" s) with ("/" +:+ s) in Hc.
  by rewrite includes_mid in Hc.
Qed.

(** Paths that end differently differ. *)
Lemma suffix_ne (a b u v : string) :
  (if String.length u <=? String.length v
   then negb (String.eqb (Js.slice (String.length v - String.length u) v) u)
   else negb (String.eqb (Js.slice (String.length u - String.length v) u) v)) = true →
  a +:+ u ≠ b +:+ v.
Proof.
  intros Hc H. destruct (String.length u <=? String.length v) eqn:Hl.
  - apply Nat.leb_le in Hl. apply app_eq_suffix in H; [|done].
    rewrite H, String.eqb_refl in Hc. done.
  - apply Nat.leb_gt in Hl. symmetry in H. apply app_eq_suffix in H; [|lia].
    rewrite H, String.eqb_refl in Hc. done.
Qed.

Lemma apart_inv R E :
  apart R E = true →
  R ≠ "" ∧ Js.startsWith (E +:+ "/") (R +:+ "/") = false
  ∧ Js.startsWith (R +:+ "/") (E +:+ "/") = false.
Proof.
  unfold apart. rewrite !andb_true_iff, !negb_true_iff.
  intros [[H1 H2] H3]. split; [|done]. by apply String.eqb_neq.
Qed.

Lemma rel_not_within R E s : apart R E = true → within E (rel R s) = false.
Proof.
  intros (HR & H1 & H2)%apart_inv. unfold within.
  apply orb_false_iff. split.
  - apply String.eqb_neq. intros HE.
    assert (Js.startsWith (R +:+ "/") (E +:+ "/") = true); [|congruence].
    apply startsWith_iff. exists (s +:+ "/"). rewrite <- HE. unfold rel.
    rewrite !string_app_assoc. by rewrite append_cons.
  - apply not_true_is_false. intros HE.
    destruct (startsWith_comparable _ _ _ HE (rel_prefix R s)); congruence.
Qed.

Lemma const_not_within X pkg c :
  Js.includes "/src/" c = false → within (X +:+ "/src/" +:+ pkg) c = false.
Proof.
  intros Hc. unfold within. apply orb_false_iff. split.
  - apply String.eqb_neq. intros ->. by rewrite includes_mid in Hc.
  - apply not_true_is_false. intros [rest ->]%startsWith_iff.
    rewrite !string_app_assoc in Hc. by rewrite includes_mid in Hc.
Qed.

Lemma expkg_not_within X pkg :
  within (X +:+ "/src/" +:+ pkg) (X +:+ "/package.json") = false.
Proof.
  unfold within. apply orb_false_iff. split.
  - apply String.eqb_neq. intros H%string_app_inv_head. discriminate.
  - apply not_true_is_false. intros [rest H]%startsWith_iff.
    rewrite !string_app_assoc in H. apply string_app_inv_head in H. discriminate.
Qed.

Lemma expkg_ne_pkg R X pkg :
  apart R (X +:+ "/src/" +:+ pkg) = true → rel R "package.json" ≠ X +:+ "/package.json".
Proof.
  intros (_ & _ & H)%apart_inv E. unfold rel in E. apply string_app_inv_tail in E.
  subst X. assert (Js.startsWith (R +:+ "/") ((R +:+ "/src/" +:+ pkg) +:+ "/") = true);
    [|congruence].
  apply startsWith_iff. exists ("src/" +:+ pkg +:+ "/").
  rewrite !string_app_assoc. reflexivity.
Qed.

(** *** What each step does when it succeeds *)

Lemma withFiles_id st : withFiles st (files (tree st)) = st.
Proof. by destruct st as [[]]. Qed.

Lemma write_run p f st :
  write p f st = (Ok tt, withFiles st (<[p := f]> (files (tree st)))).
Proof. reflexivity. Qed.

Lemma write_same p f st :
  files (tree st) !! p = Some f → write p f st = (Ok tt, st).
Proof. intros H. rewrite write_run, insert_id by done. by rewrite withFiles_id. Qed.

Lemma readPackageJson_run p st pj :
  files (tree st) !! p = Some (FPackageJson pj) → readPackageJson p st = (Ok pj, st).
Proof. intros H. unfold readPackageJson, read, bind, ret. simpl. by rewrite H. Qed.

Lemma readPackageJson_inv p st pj st' :
  readPackageJson p st = (Ok pj, st') →
  st' = st ∧ files (tree st) !! p = Some (FPackageJson pj).
Proof.
  unfold readPackageJson, read, bind, ret, throw. simpl.
  destruct (files (tree st) !! p) as [[| pj0 | |]|]; try discriminate.
  by intros [= <- <-].
Qed.

Lemma readProjectConfiguration_run name st c :
  lookupProject (projects (tree st)) name = Some c →
  readProjectConfiguration name st = (Ok c, st).
Proof.
  intros H. unfold readProjectConfiguration, getProjects, bind, ret. simpl. by rewrite H.
Qed.

Lemma readProjectConfiguration_inv name st c st' :
  readProjectConfiguration name st = (Ok c, st') →
  st' = st ∧ lookupProject (projects (tree st)) name = Some c.
Proof.
  unfold readProjectConfiguration, getProjects, bind, ret, throw. simpl.
  destruct (lookupProject _ name); [|discriminate]. by intros [= <- <-].
Qed.

Section Steps.

Variable h : Host.
Variable o : Options.t.

Lemma updatedLocalTsConfig_inv st st' :
  updatedLocalTsConfig o st = (Ok tt, st') →
  ∃ old co,
    files (tree st) !! tsconfig (Options.paths o) = Some (FTsConfig old)
    ∧ ts_compilerOptions old = Some co
    ∧ st' = mkState
              (mkTree
                 (<[tsconfig (Options.paths o) :=
                      FTsConfig (templates.tsconfig
                                   (uniqueArray (tsconfigTypes st ++ default [] (co_types co))))]>
                    (files (tree st)))
                 (npmScope (tree st)) (projects (tree st)))
              (userLog st)
              (uniqueArray (tsconfigTypes st ++ default [] (co_types co))).
Proof.
  unfold updatedLocalTsConfig, readTsConfig, read, write, getTemplateTypes,
    setTemplateTypes, getTree, putFiles, bind, ret, throw. simpl.
  destruct (files (tree st) !! _) as [[| | old |]|] eqn:Hf; simpl; try discriminate.
  destruct (ts_compilerOptions old) as [co|] eqn:Hco; simpl; [|discriminate].
  intros [= <-]. by exists old, co.
Qed.

Lemma updatedLocalTsConfig_noop st U :
  files (tree st) !! tsconfig (Options.paths o)
    = Some (FTsConfig (templates.tsconfig U)) →
  tsconfigTypes st = U →
  uniqueArray (U ++ U) = U →
  updatedLocalTsConfig o st = (Ok tt, st).
Proof.
  intros Hf Hty HU.
  unfold updatedLocalTsConfig, readTsConfig, read, write, getTemplateTypes,
    setTemplateTypes, getTree, putFiles, bind, ret, throw. simpl.
  rewrite Hf. simpl. rewrite Hty, HU, insert_id by done.
  destruct st as [[] ? ?]; simpl in *. by subst.
Qed.

Lemma updatedBaseTsConfig_inv st st' :
  updatedBaseTsConfig o st = (Ok tt, st') →
  ∃ pj base base',
    files (tree st) !! packageJson (Options.paths o) = Some (FPackageJson pj)
    ∧ files (tree st) !! rootTsconfig (Options.paths o) = Some (FTsConfig base)
    ∧ baseTsConfigUpdater o (baseAliases (tree st) pj) base = Ok base'
    ∧ st' = withFiles st (<[rootTsconfig (Options.paths o) := FTsConfig base']>
                            (files (tree st))).
Proof.
  unfold updatedBaseTsConfig, updateTsConfig, readTsConfig, readPackageJson, read,
    write, readNpmScope, getProjects, getTree, putFiles, bind, ret, throw. simpl.
  destruct (files (tree st) !! packageJson _) as [[| pj | |]|] eqn:Hp; simpl;
    try discriminate.
  destruct (files (tree st) !! rootTsconfig _) as [[| | base |]|] eqn:Hb; simpl;
    try discriminate.
  fold (baseAliases (tree st) pj).
  destruct (baseTsConfigUpdater o _ base) as [base'|] eqn:Hu; [|discriminate].
  intros [= <-]. by exists pj, base, base'.
Qed.

Lemma updatedBaseTsConfig_noop st pj base :
  files (tree st) !! packageJson (Options.paths o) = Some (FPackageJson pj) →
  files (tree st) !! rootTsconfig (Options.paths o) = Some (FTsConfig base) →
  baseTsConfigUpdater o (baseAliases (tree st) pj) base = Ok base →
  updatedBaseTsConfig o st = (Ok tt, st).
Proof.
  intros Hp Hb Hu.
  unfold updatedBaseTsConfig, updateTsConfig, readTsConfig, readPackageJson, read,
    readNpmScope, getProjects, bind, ret, throw. simpl.
  rewrite Hp. simpl. rewrite Hb. simpl.
  fold (baseAliases (tree st) pj). rewrite Hu. by apply write_same.
Qed.

(** The updater absorbs its own result. *)
Lemma baseTsConfigUpdater_idem aliases base base' :
  baseTsConfigUpdater o aliases base = Ok base' →
  baseTsConfigUpdater o aliases base' = Ok base'.
Proof.
  unfold baseTsConfigUpdater.
  destruct (ts_compilerOptions base) as [co|]; [|done].
  intros [= <-]. simpl. do 5 f_equal.
  apply map_eq. intros k.
  destruct (aliases !! k) as [v|] eqn:Ha.
  - by rewrite !(lookup_union_Some_l _ _ _ _ Ha).
  - rewrite !lookup_union_r by done.
    destruct (decide (k = Options.name o)) as [->|Hne].
    + by rewrite !lookup_insert_eq.
    + rewrite !lookup_insert_ne by done.
      rewrite lookup_union_r by done. by rewrite lookup_insert_ne.
Qed.

Lemma existsIn_true (fs : gmap string File) p :
  existsIn fs p = true ↔ occupied fs p.
Proof.
  unfold occupied. split.
  - intros Hex. destruct (existsb_exists (λ kv, within p kv.1) (map_to_list fs))
      as [Hx _]. destruct (Hx Hex) as ([k f] & Hin & Hw).
    apply list_elem_of_In, elem_of_map_to_list in Hin. by exists k.
  - intros (k & Hw & [f Hf]). apply not_false_iff_true. intros Hn.
    rewrite existsIn_false in Hn. rewrite (Hn k Hw) in Hf. done.
Qed.

Lemma updateLocalJestConfig_inv st st' :
  updateLocalJestConfig o st = (Ok tt, st') →
  ∃ pj fs',
    files (tree st) !! packageJson (Options.paths o) = Some (FPackageJson pj)
    ∧ st' = withFiles st fs'
    ∧ fs' !! jestConfig (Options.paths o) = Some (FText (jestText o pj))
    ∧ occupied fs' (jestSetupFilePath o)
    ∧ ∀ k, k ≠ jestConfig (Options.paths o) → k ≠ jestSetupFilePath o →
           fs' !! k = files (tree st) !! k.
Proof.
  unfold updateLocalJestConfig. cbv zeta. intros H.
  apply bind_ok_inv in H as (pj & st1 & Hread & H).
  apply readPackageJson_inv in Hread as [-> Hp].
  fold (jestText o pj) in H. fold (jestSetupFilePath o) in H.
  apply bind_ok_inv in H as ([] & st2 & Hw & H).
  rewrite write_run in Hw. injection Hw as <-.
  apply bind_ok_inv in H as (present & st3 & Hex & H).
  unfold exists_ in Hex. injection Hex as <- <-.
  set (f3 := <[jestConfig (Options.paths o) := FText (jestText o pj)]> (files (tree st))) in *.
  cbn [tree files withFiles] in H.
  destruct (existsIn f3 (jestSetupFilePath o)) eqn:Hex; cbn [negb] in H.
  - injection H as <-. exists pj, f3. split; [done|]. split; [done|].
    split; [apply lookup_insert_eq|]. split; [by apply existsIn_true|].
    intros k Hk _. subst f3. by rewrite lookup_insert_ne.
  - rewrite write_run in H. injection H as <-.
    exists pj, (<[jestSetupFilePath o := FText templates.jestSetup]> f3).
    split; [done|]. split; [done|].
    assert (jestSetupFilePath o ≠ jestConfig (Options.paths o)) as Hne.
    { intros E. rewrite E in Hex.
      rewrite (existsIn_lookup f3 _ (FText (jestText o pj))) in Hex; [done|].
      apply lookup_insert_eq. }
    split; [|split].
    + rewrite lookup_insert_ne by done. apply lookup_insert_eq.
    + exists (jestSetupFilePath o). split.
      * unfold within. by rewrite String.eqb_refl.
      * rewrite lookup_insert_eq. by eexists.
    + intros k Hk1 Hk2. subst f3. by rewrite !lookup_insert_ne.
Qed.

Lemma updateLocalJestConfig_noop st pj :
  files (tree st) !! packageJson (Options.paths o) = Some (FPackageJson pj) →
  files (tree st) !! jestConfig (Options.paths o) = Some (FText (jestText o pj)) →
  occupied (files (tree st)) (jestSetupFilePath o) →
  updateLocalJestConfig o st = (Ok tt, st).
Proof.
  intros Hp Hj Hs.
  unfold updateLocalJestConfig. cbv zeta.
  rewrite (bind_run _ _ _ _ _ (readPackageJson_run _ _ _ Hp)).
  fold (jestText o pj). fold (jestSetupFilePath o).
  rewrite (bind_run _ _ _ _ _ (write_same _ _ _ Hj)).
  unfold exists_, bind. apply existsIn_true in Hs. by rewrite Hs.
Qed.

Lemma updateRootJestConfig_inv st st' :
  updateRootJestConfig h o st = (Ok tt, st') →
  ∃ cfg f,
    lookupProject (projects (tree st)) (Options.name o) = Some cfg
    ∧ files (tree st) !! "/jest.config.js" = Some f
    ∧ st' = withFiles st
              (<["/jest.config.js" :=
                   FText (jestConfigWithProject h (root cfg) (fileText h f))]>
                 (files (tree st))).
Proof.
  unfold updateRootJestConfig, updateJestConfig. intros H.
  apply bind_ok_inv in H as (cfg & st1 & Hcfg & H).
  apply readProjectConfiguration_inv in Hcfg as [-> Hcfg].
  apply bind_ok_inv in H as (c & st2 & Hr & H).
  unfold read in Hr. injection Hr as <- <-.
  destruct (files (tree st) !! "/jest.config.js") as [f|] eqn:Hf; [|discriminate].
  rewrite write_run in H. injection H as <-. by exists cfg, f.
Qed.

Lemma updateRootJestConfig_noop st cfg text :
  lookupProject (projects (tree st)) (Options.name o) = Some cfg →
  files (tree st) !! "/jest.config.js" = Some (FText text) →
  jestConfigWithProject h (root cfg) text = text →
  updateRootJestConfig h o st = (Ok tt, st).
Proof.
  intros Hcfg Hf Hg. unfold updateRootJestConfig, updateJestConfig.
  rewrite (bind_run _ _ _ _ _ (readProjectConfiguration_run _ _ _ Hcfg)).
  unfold read, bind. rewrite Hf. cbn [fileText]. rewrite Hg. by apply write_same.
Qed.

Lemma setupStorybook_run st :
  setupStorybook o st
  = (Ok tt,
     withFiles st
       (<[sb_preview (storybook (Options.paths o)) := FText templates.storybook_preview]>
          (<[sb_main (storybook (Options.paths o)) := FText templates.storybook_main]>
             (<[sb_tsconfig (storybook (Options.paths o)) :=
                  FTsConfig templates.storybook_tsconfig]>
                (files (tree st)))))).
Proof. reflexivity. Qed.

Lemma setupStorybook_noop st :
  files (tree st) !! sb_tsconfig (storybook (Options.paths o))
    = Some (FTsConfig templates.storybook_tsconfig) →
  files (tree st) !! sb_main (storybook (Options.paths o))
    = Some (FText templates.storybook_main) →
  files (tree st) !! sb_preview (storybook (Options.paths o))
    = Some (FText templates.storybook_preview) →
  setupStorybook o st = (Ok tt, st).
Proof.
  intros H1 H2 H3. unfold setupStorybook. cbv zeta.
  rewrite (bind_run _ _ _ _ _ (write_same _ _ _ H1)).
  rewrite (bind_run _ _ _ _ _ (write_same _ _ _ H2)).
  by apply write_same.
Qed.

(** Moving stories writes below [<root>/src] only and removes nothing. *)
Lemma forEach_moveStory_frame l : ∀ st st',
  forEach (moveStory h o) l st = (Ok tt, st') →
  ∃ fs', st' = withFiles st fs'
         ∧ (∀ k, (∀ x, k ≠ joinPathFragments [root (Options.projectConfig o); "src"; x]) →
                 fs' !! k = files (tree st) !! k)
         ∧ (∀ k, is_Some (files (tree st) !! k) → is_Some (fs' !! k)).
Proof.
  induction l as [|p l IH]; intros st st' H; cbn [forEach] in H.
  - injection H as <-. exists (files (tree st)). by rewrite withFiles_id.
  - apply bind_ok_inv in H as ([] & st1 & Hmove & H).
    unfold moveStory in Hmove. cbv zeta in Hmove.
    apply bind_ok_inv in Hmove as (c & st0 & Hr & Hmove).
    unfold read in Hr. injection Hr as <- <-.
    destruct (fileText h <$> files (tree st) !! p) as [text|]; [|discriminate].
    destruct (negb (String.eqb text "")); [|discriminate].
    rewrite write_run in Hmove. injection Hmove as <-.
    destruct (IH _ _ H) as (fs' & -> & Hframe & Hkeep). cbn [withFiles tree files] in *.
    exists fs'. split; [done|]. split.
    + intros k Hk. rewrite Hframe by done. by rewrite lookup_insert_ne.
    + intros k Hk. apply Hkeep. rewrite lookup_insert. by case_decide.
Qed.

Lemma moveStorybookFromReactExamples_inv st st' :
  moveStorybookFromReactExamples h o st = (Ok tt, st') →
  ∃ fs' l',
    st' = withState st fs' l'
    ∧ (∀ k, (∀ x, k ≠ joinPathFragments [root (Options.projectConfig o); "src"; x]) →
            fs' !! k = files (tree st) !! k)
    ∧ (∀ k, is_Some (files (tree st) !! k) → is_Some (fs' !! k)).
Proof.
  unfold moveStorybookFromReactExamples. cbv zeta. intros H.
  apply bind_ok_inv in H as (ex & st1 & Hex & H).
  apply readProjectConfiguration_inv in Hex as [-> Hex].
  apply bind_ok_inv in H as (t & st2 & Ht & H).
  unfold getTree in Ht. injection Ht as <- <-.
  destruct (length _ =? 0).
  - unfold pushLog in H. injection H as <-.
    exists (files (tree st)), (userLog st ++
      [mkLog warn "No package stories found within react-examples. Skipping storybook stories migration..."]).
    split; [by destruct st as [[]]|done].
  - apply forEach_moveStory_frame in H as (fs' & -> & Hframe & Hkeep).
    exists fs', (userLog st). done.
Qed.

Lemma moveStorybookFromReactExamples_noop st ex :
  lookupProject (projects (tree st))
    ("@" +:+ Options.workspaceNpmScope o +:+ "/react-examples") = Some ex →
  (∀ k, within (root ex +:+ "/src/" +:+ Options.normalizedPkgName o) k = true →
        files (tree st) !! k = None) →
  ∃ l', moveStorybookFromReactExamples h o st
        = (Ok tt, mkState (tree st) (userLog st ++ l') (tsconfigTypes st)).
Proof.
  intros Hex Hnone. unfold moveStorybookFromReactExamples, getReactExamplesProjectConfig.
  cbv zeta. rewrite (bind_run _ _ _ _ _ (readProjectConfiguration_run _ _ _ Hex)).
  unfold getTree, bind. rewrite (storyPathsIn_empty h _ _ Hnone). simpl.
  eexists. reflexivity.
Qed.

Lemma removeMigratedPackageFromReactExamples_inv st st' :
  removeMigratedPackageFromReactExamples o st = (Ok tt, st') →
  ∃ ex fs' l',
    lookupProject (projects (tree st))
      ("@" +:+ Options.workspaceNpmScope o +:+ "/react-examples") = Some ex
    ∧ st' = withState st fs' l'
    ∧ (∀ k, within (root ex +:+ "/src/" +:+ Options.normalizedPkgName o) k = true →
            fs' !! k = None)
    ∧ (∀ k, within (root ex +:+ "/src/" +:+ Options.normalizedPkgName o) k = false →
            k ≠ root ex +:+ "/package.json" →
            fs' !! k = files (tree st) !! k)
    ∧ (∀ k, within (root ex +:+ "/src/" +:+ Options.normalizedPkgName o) k = false →
            is_Some (files (tree st) !! k) → is_Some (fs' !! k)).
Proof.
  unfold removeMigratedPackageFromReactExamples, getReactExamplesProjectConfig.
  cbv zeta. intros H.
  apply bind_ok_inv in H as (ex & st1 & Hex & H).
  apply readProjectConfiguration_inv in Hex as [-> Hex].
  apply bind_ok_inv in H as (present & st2 & Hp & H).
  unfold exists_ in Hp. injection Hp as <- <-.
  destruct (existsIn (files (tree st)) _) eqn:Hpresent; cbn [negb] in H.
  - apply bind_ok_inv in H as ([] & st3 & Hdel & H).
    unfold delete_, getTree, putFiles, bind in Hdel. injection Hdel as <-.
    apply bind_ok_inv in H as ([] & st4 & Hlog & H).
    unfold pushLog in Hlog. injection Hlog as <-. cbn [tree files userLog tsconfigTypes] in H.
    unfold updatePackageJson in H.
    apply bind_ok_inv in H as (pj & st5 & Hread & H).
    apply readPackageJson_inv in Hread as [-> Hread].
    rewrite write_run in H. injection H as <-.
    eexists ex, _, _. split; [done|]. split; [reflexivity|].
    cbn [tree files] in *. split; [|split].
    + intros k Hk. rewrite lookup_insert_ne.
      * by rewrite lookup_deleteIn, Hk.
      * intros <-. by rewrite expkg_not_within in Hk.
    + intros k Hk Hne. rewrite lookup_insert_ne by done.
      by rewrite lookup_deleteIn, Hk.
    + intros k Hk Hsome. rewrite lookup_insert. case_decide; [done|].
      by rewrite lookup_deleteIn, Hk.
  - injection H as <-. exists ex, (files (tree st)), (userLog st).
    split; [done|]. split; [by destruct st as [[]]|].
    split; [|done]. by apply existsIn_false.
Qed.

Lemma removeMigratedPackageFromReactExamples_noop st ex :
  lookupProject (projects (tree st))
    ("@" +:+ Options.workspaceNpmScope o +:+ "/react-examples") = Some ex →
  (∀ k, within (root ex +:+ "/src/" +:+ Options.normalizedPkgName o) k = true →
        files (tree st) !! k = None) →
  removeMigratedPackageFromReactExamples o st = (Ok tt, st).
Proof.
  intros Hex Hnone.
  unfold removeMigratedPackageFromReactExamples, getReactExamplesProjectConfig.
  cbv zeta. rewrite (bind_run _ _ _ _ _ (readProjectConfiguration_run _ _ _ Hex)).
  unfold exists_, bind. apply existsIn_false in Hnone. by rewrite Hnone.
Qed.

Lemma npmScriptsUpdater_idem n pj pj' :
  npmScriptsUpdater n pj = Ok pj' →
  npmScriptsUpdater n pj' = Ok pj' ∧ pj_dependencies pj' = pj_dependencies pj.
Proof.
  unfold npmScriptsUpdater. destruct (pj_scripts pj) as [scripts|]; [|done].
  intros [= <-]. cbn [pj_scripts pj_version pj_dependencies pj_rest].
  split; [|done]. do 3 f_equal. apply map_eq. intros k.
  destruct (decide (k = "test")) as [->|]; [by simplify_map_eq|].
  destruct (decide (k = "start")) as [->|]; [by simplify_map_eq|].
  destruct (decide (k = "storybook")) as [->|]; [by simplify_map_eq|].
  destruct (decide (k = "build:local")) as [->|]; [by simplify_map_eq|].
  destruct (decide (k = "docs")) as [->|]; [by simplify_map_eq|].
  destruct (decide (k = "test:watch")) as [->|]; [by simplify_map_eq|].
  destruct (decide (k = "start-test")) as [->|]; [by simplify_map_eq|].
  destruct (decide (k = "update-snapshots")) as [->|]; [by simplify_map_eq|].
  by rewrite !lookup_insert_ne, !lookup_delete_ne, !lookup_insert_ne,
    !lookup_delete_ne by done.
Qed.

Lemma updateNpmScripts_inv st st' :
  updateNpmScripts o st = (Ok tt, st') →
  ∃ pj pj',
    files (tree st) !! packageJson (Options.paths o) = Some (FPackageJson pj)
    ∧ npmScriptsUpdater (Options.normalizedPkgName o) pj = Ok pj'
    ∧ st' = withFiles st (<[packageJson (Options.paths o) := FPackageJson pj']>
                            (files (tree st))).
Proof.
  unfold updateNpmScripts, updatePackageJson. intros H.
  apply bind_ok_inv in H as (pj & st1 & Hread & H).
  apply readPackageJson_inv in Hread as [-> Hread].
  destruct (npmScriptsUpdater _ pj) as [pj'|] eqn:Hu; [|discriminate].
  rewrite write_run in H. injection H as <-. by exists pj, pj'.
Qed.

Lemma updateNpmScripts_noop st pj :
  files (tree st) !! packageJson (Options.paths o) = Some (FPackageJson pj) →
  npmScriptsUpdater (Options.normalizedPkgName o) pj = Ok pj →
  updateNpmScripts o st = (Ok tt, st).
Proof.
  intros Hp Hu. unfold updateNpmScripts, updatePackageJson.
  rewrite (bind_run _ _ _ _ _ (readPackageJson_run _ _ _ Hp)).
  rewrite Hu. by apply write_same.
Qed.

Lemma updateApiExtractorForLocalBuilds_run st :
  updateApiExtractorForLocalBuilds o st
  = (Ok tt,
     withFiles st
       (<[joinPathFragments [configRoot (Options.paths o); "api-extractor.json"] :=
            templates.apiExtractor]>
          (<[joinPathFragments [configRoot (Options.paths o); "api-extractor.local.json"] :=
               templates.apiExtractorLocal]>
             (files (tree st))))).
Proof. reflexivity. Qed.

Lemma updateApiExtractorForLocalBuilds_noop st :
  files (tree st) !! joinPathFragments [configRoot (Options.paths o); "api-extractor.local.json"]
    = Some templates.apiExtractorLocal →
  files (tree st) !! joinPathFragments [configRoot (Options.paths o); "api-extractor.json"]
    = Some templates.apiExtractor →
  updateApiExtractorForLocalBuilds o st = (Ok tt, st).
Proof.
  intros H1 H2. unfold updateApiExtractorForLocalBuilds.
  rewrite (bind_run _ _ _ _ _ (write_same _ _ _ H1)). by apply write_same.
Qed.

Lemma setupNpmConfig_run st :
  setupNpmConfig o st
  = (Ok tt,
     withFiles st (<[npmConfig (Options.paths o) := FText templates.npmIgnoreConfig]>
                     (files (tree st)))).
Proof. reflexivity. Qed.

Lemma taggedConfig_idem cfg : taggedConfig (taggedConfig cfg) = taggedConfig cfg.
Proof.
  unfold taggedConfig. cbn [root tags pc_rest default]. f_equal. f_equal.
  apply uniqueArray_absorb. intros x Hx. apply elem_of_app. by right.
Qed.

Lemma updateNxWorkspace_inv st st' :
  updateNxWorkspace o st = (Ok tt, st') →
  is_Some (lookupProject (projects (tree st)) (Options.name o))
  ∧ st' = mkState
            (mkTree (files (tree st)) (npmScope (tree st))
               (replaceProject (Options.name o) (taggedConfig (Options.projectConfig o))
                  (projects (tree st))))
            (userLog st) (tsconfigTypes st).
Proof.
  unfold updateNxWorkspace, updateProjectConfiguration. cbv zeta. intros H.
  apply bind_ok_inv in H as (ps & st1 & Hps & H).
  unfold getProjects in Hps. injection Hps as <- <-.
  destruct (lookupProject _ _) as [c|]; [|discriminate].
  unfold putProjects in H. injection H as <-. split; [by eexists|done].
Qed.

End Steps.

(** *** The registry under [updateNxWorkspace] *)

Lemma lookup_replaceProject name c ps n :
  lookupProject (replaceProject name c ps) n
  = if String.eqb n name
    then match lookupProject ps name with Some _ => Some c | None => None end
    else lookupProject ps n.
Proof.
  induction ps as [|[m d] ps IH]; simpl.
  - by destruct (String.eqb n name).
  - destruct (String.eqb_spec m name) as [E1|E1]; simpl; rewrite IH;
      destruct (String.eqb_spec m n) as [E2|E2];
      destruct (String.eqb_spec n name) as [E3|E3]; subst; try done.
Qed.

Lemma replaceProject_idem name c ps :
  replaceProject name c (replaceProject name c ps) = replaceProject name c ps.
Proof.
  unfold replaceProject. rewrite map_map. apply map_ext. intros [m d]. simpl.
  destruct (String.eqb m name) eqn:E; simpl; by rewrite E.
Qed.

Lemma rootOrUndefined_replaceProject name c ps cfg d :
  lookupProject ps name = Some cfg → root c = root cfg →
  rootOrUndefined (replaceProject name c ps) d = rootOrUndefined ps d.
Proof.
  intros Hcfg Hroot. unfold rootOrUndefined. rewrite lookup_replaceProject.
  destruct (String.eqb_spec d name) as [->|_]; [|done]. by rewrite Hcfg, Hroot.
Qed.

Lemma aliases_replaceProject scope name c ps cfg deps :
  lookupProject ps name = Some cfg → root c = root cfg →
  depsThatNeedToBecomeAliases scope (replaceProject name c ps) deps
  = depsThatNeedToBecomeAliases scope ps deps.
Proof.
  intros Hcfg Hroot. apply map_eq. intros k. rewrite !aliases_lookup.
  case_decide; [|done]. by rewrite (rootOrUndefined_replaceProject _ _ _ cfg).
Qed.

(** ** Running the migration twice *)

Lemma normalizeOptions_run name st c :
  lookupProject (projects (tree st)) name = Some c →
  normalizeOptions name st
  = (Ok (Options.mk name c (npmScope (tree st))
           (Js.replace ("@" +:+ npmScope (tree st) +:+ "/") "" name)
           (mkPaths
              (joinPathFragments [root c; "config"])
              (joinPathFragments [root c; "package.json"])
              (joinPathFragments [root c; "tsconfig.json"])
              (joinPathFragments [root c; "jest.config.js"])
              "/tsconfig.base.json" "/jest.preset.js" "/jest.config.js"
              (joinPathFragments [root c; ".npmignore"])
              (mkStorybookPaths
                 (joinPathFragments [root c; ".storybook/tsconfig.json"])
                 (joinPathFragments [root c; ".storybook/main.js"])
                 (joinPathFragments [root c; ".storybook/preview.js"])))), st).
Proof.
  intros H. unfold normalizeOptions, readNpmScope.
  unfold bind at 1. rewrite (bind_run _ _ _ _ _ (readProjectConfiguration_run _ _ _ H)).
  reflexivity.
Qed.

Ltac proj :=
  cbn [Options.name Options.projectConfig Options.workspaceNpmScope
       Options.normalizedPkgName Options.paths configRoot packageJson tsconfig
       jestConfig rootTsconfig rootJestPreset rootJestConfig npmConfig storybook
       sb_tsconfig sb_main sb_preview tree files projects npmScope userLog
       tsconfigTypes withFiles withState root taggedConfig] in *.

Lemma rel_rel R a b : rel (rel R a) b = rel R (a +:+ String "/" b).
Proof. rewrite <- join_rel. reflexivity. Qed.

Ltac relpaths :=
  unfold jestSetupFilePath in *; proj;
  rewrite ?join2 in *; rewrite ?rel_rel in *;
  rewrite ?append_cons, ?append_nil in *.

Ltac path_ne :=
  first
    [ discriminate
    | let Hpn := fresh in intros Hpn; apply rel_inj in Hpn; discriminate
    | apply const_ne_rel; [assumption | reflexivity]
    | apply not_eq_sym, const_ne_rel; [assumption | reflexivity]
    | eapply expkg_ne_pkg; eassumption
    | apply not_eq_sym; eapply expkg_ne_pkg; eassumption
    | unfold rel; apply suffix_ne; reflexivity
    | unfold rel; apply not_eq_sym, suffix_ne; reflexivity
    | match goal with
      | |- ?c ≠ ?X +:+ ?v => apply (suffix_ne "" X c v); reflexivity
      | |- ?X +:+ ?v ≠ ?c => apply not_eq_sym, (suffix_ne "" X c v); reflexivity
      end ].

Ltac outside :=
  first
    [ apply rel_not_within; assumption
    | apply const_not_within; reflexivity
    | apply expkg_not_within ].

Lemma within_rel R s k : within (rel R s) k = true → ∃ s', k = rel R s'.
Proof.
  unfold within. intros [H|H]%orb_true_iff.
  - apply String.eqb_eq in H. by exists s.
  - apply startsWith_iff in H as [rest ->]. exists (s +:+ "/" +:+ rest).
    unfold rel. rewrite !string_app_assoc. by rewrite append_cons.
Qed.

Lemma is_Some_insert (m : gmap string File) i x k :
  is_Some (m !! k) → is_Some (<[i:=x]> m !! k).
Proof. intros H. rewrite lookup_insert. by case_decide. Qed.

Lemma updateNxWorkspace_run o st c :
  lookupProject (projects (tree st)) (Options.name o) = Some c →
  updateNxWorkspace o st
  = (Ok tt,
     mkState
       (mkTree (files (tree st)) (npmScope (tree st))
          (replaceProject (Options.name o) (taggedConfig (Options.projectConfig o))
             (projects (tree st))))
       (userLog st) (tsconfigTypes st)).
Proof.
  intros H. unfold updateNxWorkspace, updateProjectConfiguration, getProjects.
  cbv zeta. unfold bind at 1. by rewrite H.
Qed.

Ltac lookups := repeat first [ rewrite lookup_insert_eq | rewrite lookup_insert_ne by path_ne ].

(** C2: when the migration of a project has gone through, running it
    again changes nothing: the second run completes and leaves the tree
    (files and registry) and the template as the first run left them;
    every one of its steps rewrites what is already there, and story
    relocation finds nothing, because the package's directory in the
    examples project is gone after the first run.  (The project's root
    and that directory are taken to lie apart, and the rewriting of the
    root jest config, which is not among the sources, to be
    idempotent.) *)
Theorem migration_is_idempotent (h : Host) (name : string) (st st1 : State) :
  (∀ r text, jestConfigWithProject h r (jestConfigWithProject h r text)
             = jestConfigWithProject h r text) →
  layoutApart (tree st) name = true →
  runMigrationOnProject h name st = (Ok tt, st1) →
  (∀ l, ∃ l', runMigrationOnProject h name (mkState (tree st1) l (tsconfigTypes st1))
             = (Ok tt, mkState (tree st1) l' (tsconfigTypes st1)))
  ∧ (∀ ex,
       lookupProject (projects (tree st1))
         ("@" +:+ npmScope (tree st1) +:+ "/react-examples") = Some ex →
       existsIn (files (tree st1))
         (root ex +:+ "/src/"
          +:+ Js.replace ("@" +:+ npmScope (tree st1) +:+ "/") "" name) = false).
Proof.
  intros Hg Hlay Hrun.
  unfold runMigrationOnProject in Hrun.
  apply bind_ok_inv in Hrun as (o & s0 & Hopt & Hrun).
  apply normalizeOptions_inv in Hopt as (-> & Hcfg & Ho).
  set (cfg := Options.projectConfig o) in *.
  set (R := root cfg) in *.
  apply bind_ok_inv in Hrun as ([] & s1 & H1 & Hrun).
  apply updatedLocalTsConfig_inv in H1 as (old & co & Hts & Hco & ->).
  apply bind_ok_inv in Hrun as ([] & s2 & H2 & Hrun).
  apply updatedBaseTsConfig_inv in H2 as (pj & base & base' & Hpj & Hbase & Hupd & ->).
  apply bind_ok_inv in Hrun as ([] & s3 & H3 & Hrun).
  apply (updateLocalJestConfig_inv) in H3 as (pj3 & fs3 & Hpj3 & -> & Hjest & Hsetup & Hframe3).
  apply bind_ok_inv in Hrun as ([] & s4 & H4 & Hrun).
  apply updateRootJestConfig_inv in H4 as (cfg4 & f4 & Hcfg4 & Hrj & ->).
  apply bind_ok_inv in Hrun as ([] & s5 & H5 & Hrun).
  rewrite setupStorybook_run in H5. injection H5 as <-.
  apply bind_ok_inv in Hrun as ([] & s6 & H6 & Hrun).
  apply moveStorybookFromReactExamples_inv in H6 as (fs6 & l6 & -> & Hframe6 & Hkeep6).
  apply bind_ok_inv in Hrun as ([] & s7 & H7 & Hrun).
  apply removeMigratedPackageFromReactExamples_inv in H7 as (ex & fs7 & l7 & Hex & -> & Hgone & Hframe7 & Hkeep7).
  apply bind_ok_inv in Hrun as ([] & s8 & H8 & Hrun).
  apply updateNpmScripts_inv in H8 as (pj8 & pj8' & Hpj8 & Hupd8 & ->).
  apply bind_ok_inv in Hrun as ([] & s9 & H9 & Hrun).
  rewrite updateApiExtractorForLocalBuilds_run in H9. injection H9 as <-.
  apply bind_ok_inv in Hrun as ([] & s10 & H10 & Hrun).
  rewrite setupNpmConfig_run in H10. injection H10 as <-.
  apply updateNxWorkspace_inv in Hrun as (Hsome & ->).
  unfold layoutApart in Hlay. rewrite Hcfg in Hlay.
  subst cfg. rewrite Ho in *. clear Ho. proj.
  set (cfg := Options.projectConfig o) in *.
  rewrite Hex in Hlay. fold R in Hlay.
  set (scope := npmScope (tree st)) in *.
  set (pkg := Js.replace ("@" +:+ scope +:+ "/") "" name) in *.
  set (E := root ex +:+ "/src/" +:+ pkg) in *.
  pose proof (apart_inv _ _ Hlay) as (HR & _ & _).
  relpaths.
  set (U := uniqueArray (tsconfigTypes st ++ default [] (co_types co))) in *.
  set (g := jestConfigWithProject h (root cfg4) (fileText h f4)) in *.
  (* the manifest read by every step is the original one *)
  rewrite lookup_insert_ne in Hpj by path_ne.
  rewrite !lookup_insert_ne in Hpj3 by path_ne.
  rewrite Hpj in Hpj3. injection Hpj3 as <-.
  rewrite lookup_insert_ne in Hbase by path_ne.
  assert (Hpj8' : fs7 !! rel R "package.json" = Some (FPackageJson pj)).
  { rewrite Hframe7 by (outside || path_ne).
    rewrite Hframe6 by (intros ?; rewrite join3; path_ne).
    rewrite !lookup_insert_ne by path_ne.
    rewrite Hframe3 by path_ne.
    rewrite !lookup_insert_ne by path_ne. done. }
  rewrite Hpj8' in Hpj8. injection Hpj8 as <-. clear Hpj8'.
  destruct (npmScriptsUpdater_idem _ _ _ Hupd8) as [Hupd8' Hdeps].
  rewrite Hcfg in Hcfg4. injection Hcfg4 as <-.
  set (F := <[rel R ".npmignore":=FText templates.npmIgnoreConfig]> _).
  assert (HF_pkg : F !! rel R "package.json" = Some (FPackageJson pj8')).
  { subst F. by lookups. }
  assert (HF_ts : F !! rel R "tsconfig.json" = Some (FTsConfig (templates.tsconfig U))).
  { subst F. lookups. rewrite Hframe7 by (outside || path_ne).
    rewrite Hframe6 by (intros ?; rewrite join3; path_ne). lookups.
    rewrite Hframe3 by path_ne. by lookups. }
  assert (HF_base : F !! "/tsconfig.base.json" = Some (FTsConfig base')).
  { subst F. lookups. rewrite Hframe7 by (outside || path_ne).
    rewrite Hframe6 by (intros ?; rewrite join3; path_ne). lookups.
    rewrite Hframe3 by path_ne. by lookups. }
  assert (HF_jest : F !! rel R "jest.config.js" = fs3 !! rel R "jest.config.js").
  { subst F. lookups. rewrite Hframe7 by (outside || path_ne).
    rewrite Hframe6 by (intros ?; rewrite join3; path_ne). by lookups. }
  assert (HF_rj : F !! "/jest.config.js" = Some (FText g)).
  { subst F. lookups. rewrite Hframe7 by (outside || path_ne).
    rewrite Hframe6 by (intros ?; rewrite join3; path_ne). by lookups. }
  assert (HF_sb1 : F !! rel R ".storybook/tsconfig.json"
                   = Some (FTsConfig templates.storybook_tsconfig)).
  { subst F. lookups. rewrite Hframe7 by (outside || path_ne).
    rewrite Hframe6 by (intros ?; rewrite join3; path_ne). by lookups. }
  assert (HF_sb2 : F !! rel R ".storybook/main.js" = Some (FText templates.storybook_main)).
  { subst F. lookups. rewrite Hframe7 by (outside || path_ne).
    rewrite Hframe6 by (intros ?; rewrite join3; path_ne). by lookups. }
  assert (HF_sb3 : F !! rel R ".storybook/preview.js"
                   = Some (FText templates.storybook_preview)).
  { subst F. lookups. rewrite Hframe7 by (outside || path_ne).
    rewrite Hframe6 by (intros ?; rewrite join3; path_ne). by lookups. }
  assert (HF_api1 : F !! rel R "config/api-extractor.local.json"
                    = Some templates.apiExtractorLocal).
  { subst F. by lookups. }
  assert (HF_api2 : F !! rel R "config/api-extractor.json" = Some templates.apiExtractor).
  { subst F. by lookups. }
  assert (HF_npm : F !! rel R ".npmignore" = Some (FText templates.npmIgnoreConfig)).
  { subst F. by lookups. }
  assert (HF_gone : ∀ k, within E k = true → F !! k = None).
  { intros k Hk. subst F.
    rewrite !lookup_insert_ne by (intros <-; by rewrite rel_not_within in Hk).
    by apply Hgone. }
  assert (HF_setup : occupied F (rel R "config/tests.js")).
  { destruct Hsetup as (k & Hk & Hsome3). exists k. split; [done|].
    destruct (within_rel _ _ _ Hk) as [s' ->].
    subst F. do 4 apply is_Some_insert.
    apply Hkeep7; [by apply rel_not_within|].
    apply Hkeep6. by do 4 apply is_Some_insert. }
  rewrite Hjest in HF_jest.
  assert (Hne : String "@" (scope +:+ "/react-examples") ≠ name).
  { intros Heq. rewrite Heq, Hcfg in Hex. injection Hex as <-.
    apply apart_inv in Hlay as (_ & _ & Hlay).
    assert (Js.startsWith (R +:+ "/") (E +:+ "/") = true); [|congruence].
    apply startsWith_iff. exists ("src/" +:+ pkg +:+ "/"). subst E. fold R.
    rewrite !string_app_assoc. reflexivity. }
  assert (Hcfg1 : lookupProject (replaceProject name (taggedConfig cfg) (projects (tree st))) name
                  = Some (taggedConfig cfg)).
  { by rewrite lookup_replaceProject, String.eqb_refl, Hcfg. }
  assert (Hex1 : lookupProject (replaceProject name (taggedConfig cfg) (projects (tree st)))
                   (String "@" (scope +:+ "/react-examples")) = Some ex).
  { rewrite lookup_replaceProject. by rewrite (proj2 (String.eqb_neq _ _) Hne). }
  split; cycle 1.
  { intros ex' Hex'. proj.
    change ("@" +:+ scope +:+ "/react-examples")
      with (String "@" (scope +:+ "/react-examples")) in Hex'.
    rewrite Hex1 in Hex'. injection Hex' as <-. by apply existsIn_false. }
  intros l.
  match goal with |- context [runMigrationOnProject h name ?S] => set (S1 := S) end.
  unfold runMigrationOnProject.
  rewrite (bind_run _ _ _ _ _ (normalizeOptions_run name S1 (taggedConfig cfg) Hcfg1)).
  match goal with |- context [updatedLocalTsConfig ?oo] => set (o' := oo) end.
  assert (Hs1 : updatedLocalTsConfig o' S1 = (Ok tt, S1)).
  { apply (updatedLocalTsConfig_noop o' S1 U); [|done|apply uniqueArray_twice].
    subst o' S1. proj. by rewrite join2. }
  rewrite (bind_run _ _ _ _ _ Hs1).
  assert (Hs2 : updatedBaseTsConfig o' S1 = (Ok tt, S1)).
  { apply (updatedBaseTsConfig_noop o' S1 pj8' base').
    - subst o' S1. proj. by rewrite join2.
    - subst o' S1. by proj.
    - apply (baseTsConfigUpdater_idem o' _ base).
      unfold baseAliases. subst S1. proj. rewrite Hdeps.
      rewrite (aliases_replaceProject _ _ _ _ cfg) by done.
      exact Hupd. }
  rewrite (bind_run _ _ _ _ _ Hs2).
  assert (Hs3 : updateLocalJestConfig o' S1 = (Ok tt, S1)).
  { apply (updateLocalJestConfig_noop o' S1 pj8').
    - subst o' S1. proj. by rewrite join2.
    - subst o' S1. proj. fold R. rewrite join2, HF_jest. unfold jestText. proj.
      fold R. by rewrite Hdeps, !join2.
    - subst o' S1. unfold jestSetupFilePath. proj. by rewrite !join2, rel_rel. }
  rewrite (bind_run _ _ _ _ _ Hs3).
  assert (Hs4 : updateRootJestConfig h o' S1 = (Ok tt, S1)).
  { apply (updateRootJestConfig_noop h o' S1 (taggedConfig cfg) g); [done|done|].
    subst g. proj. apply Hg. }
  rewrite (bind_run _ _ _ _ _ Hs4).
  assert (Hs5 : setupStorybook o' S1 = (Ok tt, S1)).
  { apply setupStorybook_noop; subst o' S1; proj; by rewrite join2. }
  rewrite (bind_run _ _ _ _ _ Hs5).
  destruct (moveStorybookFromReactExamples_noop h o' S1 ex Hex1 HF_gone) as [l' Hs6].
  rewrite (bind_run _ _ _ _ _ Hs6).
  set (S2 := mkState (tree S1) (userLog S1 ++ l') (tsconfigTypes S1)).
  assert (Hs7 : removeMigratedPackageFromReactExamples o' S2 = (Ok tt, S2)).
  { by apply (removeMigratedPackageFromReactExamples_noop o' S2 ex). }
  rewrite (bind_run _ _ _ _ _ Hs7).
  assert (Hs8 : updateNpmScripts o' S2 = (Ok tt, S2)).
  { apply (updateNpmScripts_noop o' S2 pj8'); [|done].
    subst o' S2 S1. proj. by rewrite join2. }
  rewrite (bind_run _ _ _ _ _ Hs8).
  assert (Hs9 : updateApiExtractorForLocalBuilds o' S2 = (Ok tt, S2)).
  { apply updateApiExtractorForLocalBuilds_noop; subst o' S2 S1; proj;
      by rewrite !join2, rel_rel. }
  rewrite (bind_run _ _ _ _ _ Hs9).
  assert (Hs10 : setupNpmConfig o' S2 = (Ok tt, S2)).
  { unfold setupNpmConfig. apply write_same. subst o' S2 S1. proj. by rewrite join2. }
  rewrite (bind_run _ _ _ _ _ Hs10).
  rewrite (updateNxWorkspace_run o' S2 (taggedConfig cfg)) by done.
  exists (l ++ l'). subst S2 S1 o'. proj.
  by rewrite taggedConfig_idem, replaceProject_idem.
Qed.

(** ** The theorems at work on the example workspaces *)

Lemma isPackageConverged_iff_prefix_witness :
  ∃ b, isPackageConverged (mkProject "packages/a" None None []) StatsExample.start
       = (Ok b, StatsExample.start)
       ∧ (b = true ↔ ∃ rest, "9.0.0-alpha.30" = String "9" (String "." rest))
       ∧ ("9.0.0-alpha.30" = "8.2.7" → b = false)
       ∧ ("9.0.0-alpha.30" = "9.0.0-alpha.30" → b = true).
Proof.
  apply (isPackageConverged_iff_prefix (mkProject "packages/a" None None [])
           StatsExample.start
           (mkPackageJson (Some "9.0.0-alpha.30") (Some ∅) None [])
           "9.0.0-alpha.30").
  - vm_compute. reflexivity.
  - reflexivity.
Defined.

Lemma updateNpmScripts_rewrites_witness :
  ∃ scripts',
    updateNpmScripts StoryExample.options StoryExample.start
      = (Ok tt,
         mkState
           (mkTree
              (<["packages/y/package.json" :=
                   FPackageJson
                     (mkPackageJson (Some "9.0.0") (Some scripts')
                        (Some {["@scope/x" := "^9.0.0"; "react" := "16.8.6"]}) [])]>
                 (files StoryExample.workspace))
              "scope" StoryExample.registry)
           [] templates.tsconfigTypes0)
    ∧ (∀ k, k ∈ legacyScripts → scripts' !! k = None)
    ∧ (∀ k v, (k, v) ∈ fixedScripts "y" → scripts' !! k = Some v)
    ∧ (∀ k, k ∉ legacyScripts → k ∉ (fixedScripts "y").*1 →
            scripts' !! k
            = ({["update-snapshots" := "just-scripts jest -u";
                 "start-test" := "just-scripts jest-watch";
                 "test:watch" := "just-scripts jest-watch";
                 "other" := "just-scripts other"]} : gmap string string) !! k).
Proof.
  apply (updateNpmScripts_rewrites StoryExample.options StoryExample.start
           (mkPackageJson (Some "9.0.0")
              (Some {["update-snapshots" := "just-scripts jest -u";
                      "start-test" := "just-scripts jest-watch";
                      "test:watch" := "just-scripts jest-watch";
                      "other" := "just-scripts other"]})
              (Some {["@scope/x" := "^9.0.0"; "react" := "16.8.6"]}) [])).
  - vm_compute. reflexivity.
  - reflexivity.
Defined.

(** A request naming project d of the stats example, which is on 8.2.7. *)
Lemma validation_failure_leaves_tree_witness :
  ∃ e st',
    generator StatsExample.host (Schema.mk (Some "@scope/d") None None) StatsExample.start
    = (Throw e, st')
    ∧ tree st' = tree StatsExample.start.
Proof.
  apply (validation_failure_leaves_tree StatsExample.host
           (Schema.mk (Some "@scope/d") None None) StatsExample.start).
  apply (NotConverged _ _ _ "@scope/d"
           (mkProject "packages/d" (Some "packages/d/src") (Some ["vNext"]) [])
           (mkPackageJson (Some "8.2.7") (Some ∅) None []) "8.2.7").
  - vm_compute. lia.
  - reflexivity.
  - discriminate.
  - reflexivity.
  - vm_compute. reflexivity.
  - reflexivity.
  - reflexivity.
Defined.

Lemma stats_mode_reads_only_witness :
  tree (generator StatsExample.host StatsExample.statsOnly StatsExample.start).2
  = tree StatsExample.start.
Proof.
  apply (stats_mode_reads_only StatsExample.host StatsExample.statsOnly
           StatsExample.start); reflexivity.
Defined.

Lemma updatedBaseTsConfig_registers_aliases_witness :
  ∃ paths' : gmap string (list string),
    (updatedBaseTsConfig StoryExample.options StoryExample.start).1 = Ok tt
    ∧ files (tree (updatedBaseTsConfig StoryExample.options StoryExample.start).2)
        !! "/tsconfig.base.json"
      = Some (FTsConfig (mkTsConfig None None
                           (Some (mkCompilerOptions None (Some paths') [])) []))
    ∧ paths' !! "@scope/y" = Some ["packages/y/src/index.ts"]
    ∧ paths' !! "@scope/x" = Some ["packages/x/src/index.ts"]
    ∧ paths' !! "react" = None.
Proof.
  destruct (updatedBaseTsConfig_registers_aliases "@scope/y" StoryExample.start
              StoryExample.options
              (mkPackageJson (Some "9.0.0")
                 (Some {["update-snapshots" := "just-scripts jest -u";
                         "start-test" := "just-scripts jest-watch";
                         "test:watch" := "just-scripts jest-watch";
                         "other" := "just-scripts other"]})
                 (Some {["@scope/x" := "^9.0.0"; "react" := "16.8.6"]}) [])
              (mkTsConfig None None
                 (Some (mkCompilerOptions None
                          (Some {["@scope/x" := ["packages/x/lib/index.ts"]]}) []))
                 [])
              (mkCompilerOptions None
                 (Some {["@scope/x" := ["packages/x/lib/index.ts"]]}) []))
    as (paths' & Hrun & Hown & Hdeps & _ & Hrest).
  - vm_compute. reflexivity.
  - vm_compute. reflexivity.
  - vm_compute. reflexivity.
  - reflexivity.
  - exists paths'. rewrite Hrun. split; [reflexivity|]. split.
    + apply lookup_insert_eq.
    + split; [exact Hown|]. split.
      * apply (Hdeps "@scope/x" (mkProject "packages/x" None None [])).
        -- split; [by eexists|reflexivity].
        -- reflexivity.
      * rewrite Hrest; [reflexivity|discriminate|].
        intros [_ Hscope]. discriminate Hscope.
Defined.

(** Both stories of the example are called Button.stories.tsx, one of
    them in a nested directory: they land on one destination.  The
    directory lists Button.stories.tsx before nested, so the nested
    story is visited last, and its text is what the destination holds. *)
Lemma stories_are_flattened_witness :
  ∃ st',
    storyPathsIn StoryExample.host (files (tree StoryExample.start))
      "packages/react-examples/src/y"
    = ["packages/react-examples/src/y/Button.stories.tsx";
       "packages/react-examples/src/y/nested/Button.stories.tsx"]
    ∧ moveStorybookFromReactExamples StoryExample.host StoryExample.options
        StoryExample.start = (Ok tt, st')
    ∧ storyDestination StoryExample.options
        "packages/react-examples/src/y/Button.stories.tsx"
      = "packages/y/src/Button.stories.tsx"
    ∧ storyDestination StoryExample.options
        "packages/react-examples/src/y/nested/Button.stories.tsx"
      = "packages/y/src/Button.stories.tsx"
    ∧ files (tree st') !! "packages/y/src/Button.stories.tsx"
      = Some (FText (movedStory "@scope/y" "Button.stories.tsx" "export {};"))
    ∧ files (tree st') !! "packages/y/src/nested/Button.stories.tsx" = None.
Proof.
  destruct (stories_are_flattened StoryExample.host StoryExample.options
              StoryExample.start (mkProject "packages/react-examples" None None []))
    as (st' & Hrun & _ & _ & Hframe & Hlast).
  - reflexivity.
  - intros p f Hp Hf. vm_compute in Hp.
    apply elem_of_cons in Hp as [->|Hp].
    { vm_compute in Hf. injection Hf as <-. discriminate. }
    apply elem_of_cons in Hp as [->|Hp].
    { vm_compute in Hf. injection Hf as <-. discriminate. }
    apply elem_of_nil in Hp. destruct Hp.
  - intros p q Hp Hq. vm_compute in Hp, Hq.
    apply elem_of_cons in Hp as [->|Hp];
      [|apply elem_of_cons in Hp as [->|Hp]; [|apply elem_of_nil in Hp; destruct Hp]];
      (apply elem_of_cons in Hq as [->|Hq];
       [|apply elem_of_cons in Hq as [->|Hq]; [|apply elem_of_nil in Hq; destruct Hq]]);
      vm_compute; discriminate.
  - exists st'. split; [vm_compute; reflexivity|]. split; [exact Hrun|].
    split; [reflexivity|]. split; [reflexivity|].
    destruct (Hlast ["packages/react-examples/src/y/Button.stories.tsx"]
                "packages/react-examples/src/y/nested/Button.stories.tsx" []
                (FText "export {};")) as (_ & _ & Hfile).
    + vm_compute. reflexivity.
    + intros p Hp. apply elem_of_nil in Hp. destruct Hp.
    + vm_compute. reflexivity.
    + split; [exact Hfile|]. rewrite Hframe; [vm_compute; reflexivity|].
      intros p Hp. vm_compute in Hp.
      apply elem_of_cons in Hp as [->|Hp];
        [|apply elem_of_cons in Hp as [->|Hp]; [|apply elem_of_nil in Hp; destruct Hp]];
        vm_compute; discriminate.
Defined.

Lemma batch_skips_unconverged_witness :
  errorsOf (userLog (runBatchMigration BatchExample.host BatchExample.start).2)
  = [skipped "@scope/b"; skipped "@scope/react-examples"]
  ∧ ∃ s2,
      forEach (λ e, runMigrationOnProject BatchExample.host e.1)
        [("@scope/a", mkProject "packages/a" None None [])] BatchExample.start
      = (Ok tt, s2)
      ∧ tree s2 = tree (runBatchMigration BatchExample.host BatchExample.start).2.
Proof.
  destruct (batch_skips_unconverged BatchExample.host BatchExample.start
              (runBatchMigration BatchExample.host BatchExample.start).2)
    as (_ & Herr & s2 & Hrun & Htree & _).
  - vm_compute. reflexivity.
  - split; [exact Herr|]. exists s2. split; [exact Hrun|exact Htree].
Defined.

Lemma example_jest_rewrite_idempotent r text :
  jestConfigWithProject StoryExample.host r
    (jestConfigWithProject StoryExample.host r text)
  = jestConfigWithProject StoryExample.host r text.
Proof.
  cbn [jestConfigWithProject StoryExample.host].
  destruct (Js.includes r text) eqn:E; [by rewrite E|].
  assert (Js.includes r (text +:+ Js.newline +:+ "// " +:+ r) = true) as ->; [|done].
  do 3 apply includes_app_r. apply includes_prefix.
  clear. induction r as [|c r IH]; [done|]. simpl. by rewrite Ascii.eqb_refl.
Qed.

Lemma migration_is_idempotent_witness :
  ∃ st1,
    runMigrationOnProject StoryExample.host "@scope/y" StoryExample.start = (Ok tt, st1)
    ∧ (∀ l, ∃ l',
         runMigrationOnProject StoryExample.host "@scope/y"
           (mkState (tree st1) l (tsconfigTypes st1))
         = (Ok tt, mkState (tree st1) l' (tsconfigTypes st1)))
    ∧ existsIn (files (tree st1)) "packages/react-examples/src/y" = false.
Proof.
  exists (runMigrationOnProject StoryExample.host "@scope/y" StoryExample.start).2.
  assert (Hrun : runMigrationOnProject StoryExample.host "@scope/y" StoryExample.start
                 = (Ok tt,
                    (runMigrationOnProject StoryExample.host "@scope/y"
                       StoryExample.start).2)).
  { vm_compute. reflexivity. }
  destruct (migration_is_idempotent StoryExample.host "@scope/y" StoryExample.start
              _ example_jest_rewrite_idempotent eq_refl Hrun) as [Hagain Hgone].
  split; [exact Hrun|]. split; [exact Hagain|].
  apply (Hgone (mkProject "packages/react-examples" None None [])).
  vm_compute. reflexivity.
Defined.

(** * Further properties of the generator *)

(** ** [uniqueArray] *)

Lemma uniqueFrom_NoDup l : ∀ seen, NoDup (uniqueFrom seen l).
Proof.
  induction l as [|x l IH]; intros seen; simpl; [constructor|].
  destruct (existsb (String.eqb x) seen); [apply IH|].
  constructor; [|apply IH].
  rewrite elem_of_uniqueFrom. intros [_ H]. apply H. by left.
Qed.

Lemma uniqueFrom_sublist l : ∀ seen, sublist (uniqueFrom seen l) l.
Proof.
  induction l as [|x l IH]; intros seen; simpl; [constructor|].
  destruct (existsb (String.eqb x) seen).
  - apply sublist_cons, IH.
  - apply sublist_skip, IH.
Qed.

Lemma uniqueFrom_fixed l : ∀ seen,
  NoDup l → (∀ x, x ∈ l → x ∉ seen) → uniqueFrom seen l = l.
Proof.
  induction l as [|x l IH]; intros seen Hnd Hs; simpl; [done|].
  apply NoDup_cons in Hnd as [Hx Hnd].
  destruct (existsb (String.eqb x) seen) eqn:E.
  - apply existsb_eqb_elem in E. destruct (Hs x); [by left|done].
  - f_equal. apply IH; [done|]. intros y Hy. rewrite elem_of_cons.
    intros [->|Hin]; [done|]. apply (Hs y); [by right|done].
Qed.

(** X1: [uniqueArray] returns every element of its argument exactly
    once: the result has no duplicates, holds the same elements as the
    argument, keeps them in the argument's order, and starts with the
    argument's first element. *)
Theorem uniqueArray_keeps_first_occurrences (value : list string) :
  NoDup (uniqueArray value)
  ∧ (∀ x, x ∈ uniqueArray value ↔ x ∈ value)
  ∧ sublist (uniqueArray value) value
  ∧ head (uniqueArray value) = head value.
Proof.
  unfold uniqueArray. split; [apply uniqueFrom_NoDup|].
  split; [|split; [apply uniqueFrom_sublist|by destruct value]].
  intros x. rewrite elem_of_uniqueFrom. split; [tauto|].
  intros H. split; [done|apply not_elem_of_nil].
Qed.

(** X2: [uniqueArray] returns its argument unchanged exactly when the
    argument has no duplicates. *)
Theorem uniqueArray_fixes_duplicate_free (value : list string) :
  uniqueArray value = value ↔ NoDup value.
Proof.
  split.
  - intros <-. apply uniqueFrom_NoDup.
  - intros H. apply uniqueFrom_fixed; [done|]. intros x _. apply not_elem_of_nil.
Qed.

(** ** Paths *)

Lemma split_nonempty sep s : Js.split sep s ≠ [].
Proof.
  destruct s as [|c s]; simpl; [done|].
  destruct (Ascii.eqb c sep); [done|]. by destruct (Js.split sep s).
Qed.

Lemma join_cons sep x y l : Js.join sep (x :: y :: l) = x +:+ sep +:+ Js.join sep (y :: l).
Proof. reflexivity. Qed.

Lemma join_split s : Js.join "/" (Js.split slash s) = s.
Proof.
  induction s as [|c s IH]; [done|]. simpl.
  destruct (Ascii.eqb_spec c slash) as [->|Hc].
  - destruct (Js.split slash s) as [|y l] eqn:E; [by destruct (split_nonempty slash s)|].
    rewrite join_cons, IH. reflexivity.
  - destruct (Js.split slash s) as [|y l] eqn:E; [by destruct (split_nonempty slash s)|].
    destruct l as [|z l].
    + simpl in *. by rewrite IH.
    + rewrite join_cons in *. rewrite append_cons. by rewrite IH.
Qed.

Lemma includes_slash_cons c s :
  Js.includes "/" (String c s) = Ascii.eqb slash c || Js.includes "/" s.
Proof.
  change (Js.includes "/" (String c s))
    with (Js.startsWith "/" (String c s) || Js.includes "/" s).
  f_equal. cbn [Js.startsWith]. change "/"%char with slash.
  by destruct (Ascii.eqb slash c).
Qed.

Lemma split_fragments s : Forall (λ x, Js.includes "/" x = false) (Js.split slash s).
Proof.
  induction s as [|c s IH]; simpl; [by repeat constructor|].
  destruct (Ascii.eqb_spec c slash) as [->|Hc].
  - constructor; [done|apply IH].
  - destruct (Js.split slash s) as [|y l] eqn:E; [by destruct (split_nonempty slash s)|].
    apply Forall_cons in IH as [Hy Hl]. constructor; [|done].
    rewrite includes_slash_cons, Hy, Ascii.eqb_sym.
    destruct (Ascii.eqb_spec c slash); [done|reflexivity].
Qed.

Lemma split_no_slash s : Js.includes "/" s = false → Js.split slash s = [s].
Proof.
  induction s as [|c s IH]; [done|]. rewrite includes_slash_cons.
  intros [Hc Hs]%orb_false_iff. simpl. rewrite Ascii.eqb_sym, Hc.
  by rewrite IH.
Qed.

Lemma split_app_slash a : ∀ b,
  Js.includes "/" a = false →
  Js.split slash (a +:+ String "/" b) = a :: Js.split slash b.
Proof.
  induction a as [|c a IH]; intros b Ha.
  - rewrite append_nil. reflexivity.
  - rewrite includes_slash_cons in Ha. apply orb_false_iff in Ha as [Hc Ha].
    rewrite append_cons. simpl. rewrite Ascii.eqb_sym, Hc.
    fold (a +:+ String "/" b). by rewrite IH.
Qed.

Lemma split_join l :
  l ≠ [] → Forall (λ x, Js.includes "/" x = false) l →
  Js.split slash (Js.join "/" l) = l.
Proof.
  induction l as [|x l IH]; [done|]. intros _ Hl.
  apply Forall_cons in Hl as [Hx Hl]. destruct l as [|y l].
  - simpl. by apply split_no_slash.
  - rewrite join_cons. change ("/" +:+ Js.join "/" (y :: l)) with (String "/" (Js.join "/" (y :: l))).
    rewrite split_app_slash by done. f_equal. by apply IH.
Qed.

(** X3: [splitPathFragments] and joining with the separator undo each
    other: the fragments of a path, joined with "/", give the path
    back; there is always at least one fragment and no fragment holds
    a separator; and a non-empty list of separator-free fragments is
    what comes back from splitting its join. *)
Theorem splitPathFragments_round_trip (filePath : string) :
  Js.join "/" (splitPathFragments filePath) = filePath
  ∧ splitPathFragments filePath ≠ []
  ∧ Forall (λ fragment, Js.includes "/" fragment = false) (splitPathFragments filePath)
  ∧ (∀ fragments, fragments ≠ [] →
       Forall (λ fragment, Js.includes "/" fragment = false) fragments →
       splitPathFragments (Js.join "/" fragments) = fragments).
Proof.
  unfold splitPathFragments.
  split; [apply join_split|]. split; [apply split_nonempty|].
  split; [apply split_fragments|]. intros l. apply split_join.
Qed.

Lemma replace_unfold pat rep s :
  Js.replace pat rep s
  = if Js.startsWith pat s then rep +:+ Js.slice (String.length pat) s
    else match s with
         | EmptyString => EmptyString
         | String c s' => String c (Js.replace pat rep s')
         end.
Proof. by destruct s. Qed.

Lemma slice_app p s : Js.slice (String.length p) (p +:+ s) = s.
Proof. induction p as [|c p IH]; [done|]. by rewrite append_cons. Qed.

Lemma replace_prefix pat rep s : Js.replace pat rep (pat +:+ s) = rep +:+ s.
Proof. by rewrite replace_unfold, startsWith_app, slice_app. Qed.

Lemma replace_absent pat rep s : Js.includes pat s = false → Js.replace pat rep s = s.
Proof.
  induction s as [|c s IH]; intros H; rewrite replace_unfold.
  - change (Js.includes pat "") with (Js.startsWith pat "" || false) in H.
    apply orb_false_iff in H as [-> _]. done.
  - change (Js.includes pat (String c s))
      with (Js.startsWith pat (String c s) || Js.includes pat s) in H.
    apply orb_false_iff in H as [-> H]. by rewrite IH.
Qed.

(** X4: for a registered project [normalizeOptions] succeeds without
    changing the state and keeps the name and the registry's
    configuration.  The normalized package name is the name without
    its leading ["@<npmScope>/"]; a name that does not hold that
    prefix anywhere is its own normalized name. *)
Theorem normalizeOptions_strips_scope (name : string) (st : State)
    (c : ProjectConfiguration) :
  lookupProject (projects (tree st)) name = Some c →
  ∃ options,
    normalizeOptions name st = (Ok options, st)
    ∧ Options.name options = name
    ∧ Options.projectConfig options = c
    ∧ (∀ rest, name = "@" +:+ npmScope (tree st) +:+ "/" +:+ rest →
               Options.normalizedPkgName options = rest)
    ∧ (Js.includes ("@" +:+ npmScope (tree st) +:+ "/") name = false →
       Options.normalizedPkgName options = name).
Proof.
  intros Hc. eexists. split; [by apply normalizeOptions_run|].
  proj. split; [done|]. split; [done|]. split.
  - intros rest ->.
    replace ("@" +:+ npmScope (tree st) +:+ "/" +:+ rest)
      with (("@" +:+ npmScope (tree st) +:+ "/") +:+ rest)
      by (by rewrite !string_app_assoc).
    by rewrite replace_prefix.
  - apply replace_absent.
Qed.

Lemma isProjectMigrated_taggedConfig cfg : isProjectMigrated (taggedConfig cfg) = true.
Proof.
  unfold isProjectMigrated, taggedConfig. cbn [sourceRoot tags].
  apply existsb_eqb_elem. unfold uniqueArray. apply elem_of_uniqueFrom.
  split; [|apply not_elem_of_nil].
  rewrite elem_of_app, !elem_of_cons. tauto.
Qed.


(** ** Where a migration writes *)

Section Confined.

Variable ps : list (string * ProjectConfiguration).
Variable scope : string.
Variable P : string → bool.

Lemma confined_ret {A} (a : A) : confined ps scope P (ret a).
Proof. by intros st r st' Hp Hs [= <- <-]. Qed.

Lemma confined_throw {A} e : confined ps scope P (@throw A e).
Proof. by intros st r st' Hp Hs [= <- <-]. Qed.

Lemma confined_bind {A B} (m : M A) (k : A → M B) :
  confined ps scope P m → (∀ a, confined ps scope P (k a)) →
  confined ps scope P (bind m k).
Proof.
  intros Hm Hk st r st' Hp Hs Hrun. unfold bind in Hrun.
  destruct (m st) as [[a|e] st1] eqn:E.
  - destruct (Hm _ _ _ Hp Hs E) as (Hp1 & Hs1 & Hf1).
    destruct (Hk a _ _ _ Hp1 Hs1 Hrun) as (Hp2 & Hs2 & Hf2).
    split; [done|]. split; [done|]. intros q Hq. by rewrite Hf2, Hf1.
  - injection Hrun as <- <-. by apply (Hm _ _ _ Hp Hs E).
Qed.

(** What changes the log or the template at most. *)
Lemma confined_aside {A} (m : M A) :
  (∀ st, tree (m st).2 = tree st) → confined ps scope P m.
Proof.
  intros H st r st' Hp Hs Hrun. specialize (H st). rewrite Hrun in H. simpl in H.
  by rewrite H.
Qed.

Lemma confined_write p f : P p = true → confined ps scope P (Devkit.write p f).
Proof.
  intros HP st r st' Hp Hs [= <- <-]. simpl. split; [done|]. split; [done|].
  intros q Hq. apply lookup_insert_ne. intros ->. congruence.
Qed.

Lemma confined_delete p :
  (∀ q, within p q = true → P q = true) → confined ps scope P (Devkit.delete_ p).
Proof.
  intros HP st r st' Hp Hs [= <- <-]. simpl. split; [done|]. split; [done|].
  intros q Hq. rewrite lookup_deleteIn.
  destruct (within p q) eqn:Hw; [|done]. rewrite (HP q Hw) in Hq. done.
Qed.

Lemma confined_forEach {A} (f : A → M unit) l :
  (∀ a, confined ps scope P (f a)) → confined ps scope P (forEach f l).
Proof.
  intros Hf. induction l as [|a l IH]; [apply confined_ret|].
  apply confined_bind; [apply Hf|]. intros _. apply IH.
Qed.

(** Reading a project's configuration: the continuation runs on an
    entry of the registry. *)
Lemma confined_project {B} name (k : ProjectConfiguration → M B) :
  (∀ c, lookupProject ps name = Some c → confined ps scope P (k c)) →
  confined ps scope P (bind (Devkit.readProjectConfiguration name) k).
Proof.
  intros Hk st r st' Hp Hs Hrun. unfold bind in Hrun.
  destruct (Devkit.readProjectConfiguration name st) as [[c|e] st1] eqn:E.
  - apply readProjectConfiguration_inv in E as [-> Hc]. rewrite Hp in Hc.
    by apply (Hk c Hc st r st').
  - unfold Devkit.readProjectConfiguration, Devkit.getProjects, bind in E.
    destruct (lookupProject (projects (tree st)) name); [discriminate|].
    injection E as <- <-. by injection Hrun as <- <-.
Qed.

Lemma confined_framed {A} (m : M A) : confined ps scope P m → framed ps scope P m.
Proof. intros H st r st' Hp Hs Hrun. by apply (H st r st'). Qed.


End Confined.

Ltac confined_step :=
  first
    [ match goal with
      | |- confined _ _ _ (Devkit.write _ _) => apply confined_write
      | |- confined _ _ _ (Devkit.delete_ _) => apply confined_delete
      | |- confined _ _ _ (bind (Devkit.readProjectConfiguration _) _) =>
          apply confined_project; intros ? ?
      end
    | apply confined_ret
    | apply confined_throw
    | apply confined_bind; [|intros ?]
    | apply confined_forEach; intros ?
    | apply confined_aside; intros ?; reflexivity
    | match goal with
      | |- confined _ _ _ (match ?x with _ => _ end) => destruct x
      end ].

Ltac confined :=
  unfold getReactExamplesProjectConfig, updateJestConfig,
    Devkit.readPackageJson, Devkit.readTsConfig, Devkit.updatePackageJson,
    Devkit.updateTsConfig, Devkit.getProjects, Devkit.readNpmScope;
  repeat confined_step.

Section StepsConfined.

Variable h : Host.
Variable o : Options.t.
Variable ps : list (string * ProjectConfiguration).
Variable scope : string.
Variable P : string → bool.

Lemma updatedLocalTsConfig_confined :
  P (tsconfig (Options.paths o)) = true →
  confined ps scope P (updatedLocalTsConfig o).
Proof. intros H. unfold updatedLocalTsConfig. confined; assumption. Qed.

Lemma updatedBaseTsConfig_confined :
  P (rootTsconfig (Options.paths o)) = true →
  confined ps scope P (updatedBaseTsConfig o).
Proof. intros H. unfold updatedBaseTsConfig. confined; assumption. Qed.

Lemma updateLocalJestConfig_confined :
  P (jestConfig (Options.paths o)) = true →
  P (jestSetupFilePath o) = true →
  confined ps scope P (updateLocalJestConfig o).
Proof. intros H1 H2. unfold updateLocalJestConfig. confined; assumption. Qed.

Lemma updateRootJestConfig_confined :
  P "/jest.config.js" = true →
  confined ps scope P (updateRootJestConfig h o).
Proof. intros H. unfold updateRootJestConfig. confined; assumption. Qed.

Lemma setupStorybook_confined :
  P (sb_tsconfig (storybook (Options.paths o))) = true →
  P (sb_main (storybook (Options.paths o))) = true →
  P (sb_preview (storybook (Options.paths o))) = true →
  confined ps scope P (setupStorybook o).
Proof. intros H1 H2 H3. unfold setupStorybook. confined; assumption. Qed.

Lemma moveStorybookFromReactExamples_confined :
  (∀ fileName,
     P (joinPathFragments [root (Options.projectConfig o); "src"; fileName]) = true) →
  confined ps scope P (moveStorybookFromReactExamples h o).
Proof.
  intros H. unfold moveStorybookFromReactExamples, moveStory. confined; apply H.
Qed.

Lemma removeMigratedPackageFromReactExamples_confined :
  (∀ ex, lookupProject ps (examplesName (Options.workspaceNpmScope o)) = Some ex →
         P (root ex +:+ "/package.json") = true
         ∧ ∀ q, within (root ex +:+ "/src/" +:+ Options.normalizedPkgName o) q = true →
                P q = true) →
  confined ps scope P (removeMigratedPackageFromReactExamples o).
Proof.
  intros H. unfold removeMigratedPackageFromReactExamples. confined.
  - by apply H.
  - by apply H.
Qed.

Lemma updateNpmScripts_confined :
  P (packageJson (Options.paths o)) = true →
  confined ps scope P (updateNpmScripts o).
Proof. intros H. unfold updateNpmScripts. confined; assumption. Qed.

Lemma updateApiExtractorForLocalBuilds_confined :
  P (joinPathFragments [configRoot (Options.paths o); "api-extractor.local.json"]) = true →
  P (joinPathFragments [configRoot (Options.paths o); "api-extractor.json"]) = true →
  confined ps scope P (updateApiExtractorForLocalBuilds o).
Proof. intros H1 H2. unfold updateApiExtractorForLocalBuilds. confined; assumption. Qed.

Lemma setupNpmConfig_confined :
  P (npmConfig (Options.paths o)) = true →
  confined ps scope P (setupNpmConfig o).
Proof. intros H. unfold setupNpmConfig. confined; assumption. Qed.


End StepsConfined.


(** The registry after a migration: the project's entry is replaced by
    its tagged form; everything else, and the scope, stay. *)
Lemma runMigrationOnProject_registry h name st st' :
  runMigrationOnProject h name st = (Ok tt, st') →
  ∃ c, lookupProject (projects (tree st)) name = Some c
       ∧ projects (tree st')
         = replaceProject name (taggedConfig c) (projects (tree st))
       ∧ npmScope (tree st') = npmScope (tree st)
       ∧ is_Some (lookupProject (projects (tree st)) (examplesName (npmScope (tree st)))).
Proof.
  unfold runMigrationOnProject. intros H.
  apply bind_ok_inv in H as (o & s0 & Ho & H).
  apply normalizeOptions_inv in Ho as (-> & Hc & Eo).
  assert (Hw : Options.workspaceNpmScope o = npmScope (tree st)) by by rewrite Eo.
  assert (Hn : Options.name o = name) by by rewrite Eo.
  clear Eo.
  pose (T := λ _ : string, true).
  pose proof (eq_refl (projects (tree st))) as Hp.
  pose proof (eq_refl (npmScope (tree st))) as Hs.
  apply bind_ok_inv in H as ([] & s1 & H1 & H).
  apply (updatedLocalTsConfig_confined o _ _ T eq_refl _ _ _ Hp Hs) in H1 as (Hp1 & Hs1 & _).
  apply bind_ok_inv in H as ([] & s2 & H2 & H).
  apply (updatedBaseTsConfig_confined o _ _ T eq_refl _ _ _ Hp1 Hs1) in H2 as (Hp2 & Hs2 & _).
  apply bind_ok_inv in H as ([] & s3 & H3 & H).
  apply (updateLocalJestConfig_confined o _ _ T eq_refl eq_refl _ _ _ Hp2 Hs2) in H3
    as (Hp3 & Hs3 & _).
  apply bind_ok_inv in H as ([] & s4 & H4 & H).
  apply (updateRootJestConfig_confined h o _ _ T eq_refl _ _ _ Hp3 Hs3) in H4
    as (Hp4 & Hs4 & _).
  apply bind_ok_inv in H as ([] & s5 & H5 & H).
  apply (setupStorybook_confined o _ _ T eq_refl eq_refl eq_refl _ _ _ Hp4 Hs4) in H5
    as (Hp5 & Hs5 & _).
  apply bind_ok_inv in H as ([] & s6 & H6 & H).
  assert (Hex : is_Some (lookupProject (projects (tree st))
                           (examplesName (npmScope (tree st))))).
  { unfold moveStorybookFromReactExamples, getReactExamplesProjectConfig in H6.
    apply bind_ok_inv in H6 as (ex & ? & Hex & _).
    apply readProjectConfiguration_inv in Hex as [_ Hex].
    rewrite Hp5, Hw in Hex. by eexists. }
  apply (moveStorybookFromReactExamples_confined h o _ _ T (λ _, eq_refl) _ _ _ Hp5 Hs5) in H6
    as (Hp6 & Hs6 & _).
  apply bind_ok_inv in H as ([] & s7 & H7 & H).
  apply (removeMigratedPackageFromReactExamples_confined o _ _ T
           (λ _ _, conj eq_refl (λ _ _, eq_refl)) _ _ _ Hp6 Hs6) in H7
    as (Hp7 & Hs7 & _).
  apply bind_ok_inv in H as ([] & s8 & H8 & H).
  apply (updateNpmScripts_confined o _ _ T eq_refl _ _ _ Hp7 Hs7) in H8 as (Hp8 & Hs8 & _).
  apply bind_ok_inv in H as ([] & s9 & H9 & H).
  apply (updateApiExtractorForLocalBuilds_confined o _ _ T eq_refl eq_refl _ _ _ Hp8 Hs8)
    in H9 as (Hp9 & Hs9 & _).
  apply bind_ok_inv in H as ([] & s10 & H10 & H).
  apply (setupNpmConfig_confined o _ _ T eq_refl _ _ _ Hp9 Hs9) in H10 as (Hp10 & Hs10 & _).
  apply updateNxWorkspace_inv in H as [_ ->]. proj.
  exists (Options.projectConfig o). rewrite Hn, Hp10, Hs10. done.
Qed.

(** X6: after a migration that goes through, the project's registry
    entry passes [isProjectMigrated], so that the stats count it as
    migrated; its root and its other settings are as before, no tag is
    lost, and no other project's entry and not the npm scope have
    changed.  ([updateJestConfig] of tools/utils is taken to rewrite
    the root jest config only.) *)
Theorem migration_marks_project_migrated (h : Host) (name : string) (st st' : State) :
  runMigrationOnProject h name st = (Ok tt, st') →
  ∃ c c',
    lookupProject (projects (tree st)) name = Some c
    ∧ lookupProject (projects (tree st')) name = Some c'
    ∧ isProjectMigrated c' = true
    ∧ root c' = root c
    ∧ pc_rest c' = pc_rest c
    ∧ (∀ t, t ∈ default [] (tags c) → t ∈ default [] (tags c'))
    ∧ (∀ n, n ≠ name →
            lookupProject (projects (tree st')) n = lookupProject (projects (tree st)) n)
    ∧ npmScope (tree st') = npmScope (tree st).
Proof.
  intros (c & Hc & Hp & Hs & _)%runMigrationOnProject_registry.
  exists c, (taggedConfig c). split; [done|]. rewrite Hp. split.
  { by rewrite lookup_replaceProject, String.eqb_refl, Hc. }
  split; [apply isProjectMigrated_taggedConfig|].
  split; [done|]. split; [done|]. split.
  - intros t Ht. cbn [taggedConfig tags default]. unfold uniqueArray.
    apply elem_of_uniqueFrom. split; [|apply not_elem_of_nil].
    apply elem_of_app. by left.
  - split; [|done]. intros n Hn. rewrite lookup_replaceProject.
    by apply String.eqb_neq in Hn as ->.
Qed.


Lemma bind_throw {A B} (m : M A) (k : A → M B) st e st' :
  m st = (Throw e, st') → bind m k st = (Throw e, st').
Proof. intros H. unfold bind. by rewrite H. Qed.

(** With a name and no other mode, validation is the check of the
    named project. *)
Lemma validateSchema_named h s name st :
  Schema.name s = Some name → hasName s = true → hasAll s = false → hasStats s = false →
  validateSchema h s st
  = (let! projectConfig := readProjectConfiguration name in
     let! converged := isPackageConverged projectConfig in
     if converged then ret s
     else throw (Error (name +:+ " is not converged package. Make sure to run the migration on packages with version 9.x.x"))) st.
Proof.
  intros Hn H1 H2 H3. unfold validateSchema, shouldValidateNameInput.
  rewrite H1, H2, H3. cbn [andb negb orb]. rewrite andb_false_r.
  cbn [negb andb]. rewrite Hn, H1, H2, H3. reflexivity.
Qed.

(** X8: migrating a project that the registry does not know throws
    devkit's error at once, with the state exactly as it was; the
    generator, asked for that name alone, throws the same kind of
    error and leaves the tree untouched. *)
Theorem migration_of_unregistered_project (h : Host) (name : string) (st : State) :
  lookupProject (projects (tree st)) name = None →
  (∃ msg, runMigrationOnProject h name st = (Throw (DevkitError msg), st))
  ∧ (∀ s, Schema.name s = Some name → hasName s = true →
          hasAll s = false → hasStats s = false →
          ∃ msg st', generator h s st = (Throw (DevkitError msg), st')
                     ∧ tree st' = tree st).
Proof.
  intros Hn. split.
  - eexists. unfold runMigrationOnProject, normalizeOptions, readNpmScope,
      readProjectConfiguration, getProjects, bind. cbn [tree].
    rewrite Hn. reflexivity.
  - intros s Hs H1 H2 H3.
    set (st0 := mkState (tree st) [] (tsconfigTypes st)).
    eexists _, st0. unfold generator. unfold bind at 1. fold st0. split.
    + apply bind_throw. rewrite (validateSchema_named h s name) by done.
      apply bind_throw. unfold readProjectConfiguration, getProjects, bind, st0.
      cbn [tree projects]. rewrite Hn. reflexivity.
    + reflexivity.
Qed.


(** ** The batch as a whole *)

Lemma migrateIfConverged_verspres h e : verspres (migrateIfConverged h e).
Proof.
  unfold migrateIfConverged. apply verspres_bind.
  - apply verspres_files. intros st. by rewrite isPackageConverged_state.
  - intros b. destruct b; cbn [negb].
    + apply runMigrationOnProject_verspres.
    + by apply verspres_files.
Qed.

Lemma isPackageConverged_root p p' : root p = root p' → isPackageConverged p = isPackageConverged p'.
Proof. intros H. unfold isPackageConverged. by rewrite H. Qed.

(** A check that succeeds later succeeded at the start. *)
Lemma isPackageConverged_earlier st0 st p b st' :
  VersPres (files (tree st0)) (files (tree st)) →
  isPackageConverged p st = (Ok b, st') →
  isPackageConverged p st0 = (Ok b, st0).
Proof.
  intros Hvp Hrun.
  apply isPackageConverged_inv in Hrun as (_ & pj' & version & Hf & Hv & ->).
  destruct (Hvp _ _ Hf) as (pj & Hf0 & Hv0).
  unfold isPackageConverged, readPackageJson, read, bind, ret, throw.
  cbn -[Js.startsWith]. rewrite Hf0. cbn -[Js.startsWith].
  rewrite Hv0, Hv. done.
Qed.

Lemma forEach_migrate_throws h st0 e e0 : ∀ ps st,
  VersPres (files (tree st0)) (files (tree st)) →
  e ∈ ps →
  (isPackageConverged e.2 st0).1 = Throw e0 →
  ∃ e' st', forEach (migrateIfConverged h) ps st = (Throw e', st').
Proof.
  induction ps as [|x ps IH]; intros st Hvp Hin Hthrow.
  { by apply elem_of_nil in Hin. }
  cbn [forEach].
  destruct (migrateIfConverged h x st) as [[[]|e'] st1] eqn:Estep.
  2:{ exists e', st1. by apply bind_throw. }
  rewrite (bind_run _ _ _ _ _ Estep).
  apply elem_of_cons in Hin as [<-|Hin].
  - unfold migrateIfConverged in Estep.
    apply bind_ok_inv in Estep as (b & stc & Hcheck & _).
    rewrite (isPackageConverged_earlier st0 st _ _ _ Hvp Hcheck) in Hthrow.
    discriminate.
  - apply IH; [|done|done].
    eapply VersPres_trans; [exact Hvp|].
    by apply (migrateIfConverged_verspres h x st (Ok tt) st1).
Qed.

Lemma collectStats_throws e e0 : ∀ ps stats st,
  e ∈ ps →
  (isPackageConverged e.2 st).1 = Throw e0 →
  ∃ e', collectStats ps stats st = (Throw e', st).
Proof.
  induction ps as [|[n p] ps IH]; intros stats st Hin Hthrow.
  { by apply elem_of_nil in Hin. }
  cbn [collectStats]. unfold bind.
  pose proof (isPackageConverged_state p st) as Hst.
  destruct (isPackageConverged p st) as [[b|e'] st1] eqn:Echeck; simpl in Hst; subst st1.
  2:{ by exists e'. }
  apply elem_of_cons in Hin as [->|Hin].
  { simpl in Hthrow. rewrite Echeck in Hthrow. discriminate. }
  destruct b; cbn [negb]; [destruct (isProjectMigrated p)|]; by apply IH.
Qed.

(** X10: one project whose version check throws (no manifest, a
    manifest that is no package manifest, or one without a version)
    stops both modes that walk the registry: the batch throws, however
    many projects it has migrated before, and the stats throw without
    changing the state. *)
Theorem unreadable_manifest_stops_batch_and_stats (h : Host) (st : State)
    (entry : string * ProjectConfiguration) (e0 : exn) :
  entry ∈ projects (tree st) →
  (isPackageConverged entry.2 st).1 = Throw e0 →
  (∃ e st', runBatchMigration h st = (Throw e, st'))
  ∧ (∃ e, printStats st = (Throw e, st)).
Proof.
  intros Hin Hthrow. split.
  - unfold runBatchMigration, getProjects. unfold bind at 1.
    by apply (forEach_migrate_throws h st entry e0 _ st (VersPres_refl _)).
  - unfold printStats, getProjects. unfold bind at 1. cbn [fst snd].
    destruct (collectStats_throws entry e0 (projects (tree st)) (mkStats [] []) st Hin Hthrow)
      as [e He].
    exists e. by apply bind_throw.
Qed.

Lemma lookupProject_notin ps n : n ∉ ps.*1 → lookupProject ps n = None.
Proof.
  induction ps as [|[m c] ps IH]; [done|]. rewrite fmap_cons, not_elem_of_cons.
  intros [Hne Hn]. simpl in *. apply not_eq_sym, String.eqb_neq in Hne. rewrite Hne.
  by apply IH.
Qed.

Lemma lookupProject_app ps1 ps2 n :
  lookupProject (ps1 ++ ps2) n
  = match lookupProject ps1 n with Some c => Some c | None => lookupProject ps2 n end.
Proof.
  induction ps1 as [|[m c] ps1 IH]; [done|]. simpl.
  by destruct (String.eqb m n).
Qed.

Lemma replaceProject_notin n c ps : n ∉ ps.*1 → replaceProject n c ps = ps.
Proof.
  induction ps as [|[m c0] ps IH]; [done|]. rewrite fmap_cons, not_elem_of_cons.
  intros [Hne Hn]. unfold replaceProject in *. simpl in *.
  apply not_eq_sym, String.eqb_neq in Hne. rewrite Hne. f_equal. by apply IH.
Qed.

Lemma batch_registry h st0 : ∀ l pre st st',
  projects (tree st) = pre ++ l →
  NoDup (pre ++ l).*1 →
  VersPres (files (tree st0)) (files (tree st)) →
  forEach (migrateIfConverged h) l st = (Ok tt, st') →
  projects (tree st')
  = pre ++ map (λ e, if convergedOn st0 e then (e.1, taggedConfig e.2) else e) l.
Proof.
  induction l as [|[n c] l IH]; intros pre st st' Hp Hnd Hvp Hrun.
  - injection Hrun as <-. done.
  - cbn [forEach] in Hrun. apply bind_ok_inv in Hrun as ([] & st1 & Hstep & Hrest).
    pose proof (migrateIfConverged_verspres h (n, c) st (Ok tt) st1 Hstep) as Hvp1.
    unfold migrateIfConverged in Hstep.
    apply bind_ok_inv in Hstep as (b & stc & Hcheck & Hstep).
    pose proof (convergedOn_earlier st0 st (n, c) b stc Hvp Hcheck) as Hb.
    apply isPackageConverged_inv in Hcheck as (-> & _).
    cbn [map]. rewrite Hb. cbn [fst snd] in *.
    rewrite fmap_app, fmap_cons in Hnd. cbn [fst] in Hnd.
    apply NoDup_app in Hnd as (Hnd1 & Hnd2 & Hnd3).
    apply NoDup_cons in Hnd3 as [Hn3 Hnd3].
    assert (Hn1 : n ∉ pre.*1).
    { intros Hin. apply (Hnd2 n Hin). by left. }
    destruct b; cbn [negb] in Hstep.
    + apply runMigrationOnProject_registry in Hstep as (c' & Hc' & Hp1 & _).
      rewrite Hp, lookupProject_app, (lookupProject_notin pre n Hn1) in Hc'.
      simpl in Hc'. rewrite String.eqb_refl in Hc'. injection Hc' as <-.
      rewrite Hp in Hp1. unfold replaceProject in Hp1. rewrite map_app in Hp1.
      fold (replaceProject n (taggedConfig c) pre) in Hp1.
      rewrite (replaceProject_notin _ _ pre Hn1) in Hp1.
      cbn [map fst] in Hp1. rewrite String.eqb_refl in Hp1.
      fold (replaceProject n (taggedConfig c) l) in Hp1.
      rewrite (replaceProject_notin _ _ l Hn3) in Hp1.
      rewrite (IH (pre ++ [(n, taggedConfig c)]) st1 st').
      * by rewrite <- app_assoc.
      * by rewrite <- app_assoc.
      * rewrite <- app_assoc. cbn [app]. rewrite fmap_app, fmap_cons. cbn [fst].
        apply NoDup_app. split; [done|]. split; [done|]. by apply NoDup_cons.
      * by eapply VersPres_trans.
      * done.
    + unfold pushLog in Hstep. injection Hstep as <-.
      rewrite (IH (pre ++ [(n, c)])
                 (mkState (tree st) (userLog st ++ [skipped n]) (tsconfigTypes st)) st').
      * by rewrite <- app_assoc.
      * cbn [tree]. by rewrite <- app_assoc.
      * rewrite <- app_assoc. cbn [app]. rewrite fmap_app, fmap_cons. cbn [fst].
        apply NoDup_app. split; [done|]. split; [done|]. by apply NoDup_cons.
      * done.
      * done.
Qed.

(** The registry a completed batch leaves. *)
Lemma batch_final_registry (h : Host) (st st' : State) :
  NoDup (projects (tree st)).*1 →
  runBatchMigration h st = (Ok tt, st') →
  projects (tree st')
  = map (λ e, if convergedOn st e then (e.1, taggedConfig e.2) else e)
        (projects (tree st))
  ∧ (∀ e, e ∈ projects (tree st') →
          convergedOn st' e = true → isProjectMigrated e.2 = true).
Proof.
  intros Hnd Hrun.
  unfold runBatchMigration, getProjects in Hrun. unfold bind at 1 in Hrun.
  pose proof (batch_registry h st (projects (tree st)) [] st st' eq_refl Hnd
                (VersPres_refl _) Hrun) as Hp.
  cbn [app] in Hp. split; [done|].
  assert (Hvp : VersPres (files (tree st)) (files (tree st'))).
  { eapply (verspres_forEach (migrateIfConverged h)); [|exact Hrun].
    apply migrateIfConverged_verspres. }
  intros e' Hin Hconv. rewrite Hp in Hin.
  apply list_elem_of_fmap in Hin as (e & -> & Hin).
  set (e' := if convergedOn st e then (e.1, taggedConfig e.2) else e) in *.
  assert (Hroot : root e.2 = root e'.2).
  { unfold e'. by destruct (convergedOn st e). }
  assert (Hst : convergedOn st e = true).
  { unfold convergedOn in Hconv |- *.
    pose proof (isPackageConverged_state e'.2 st') as Hs.
    destruct (isPackageConverged e'.2 st') as [[b|x] s1] eqn:E; [|done].
    simpl in Hconv, Hs. subst b s1.
    apply (isPackageConverged_earlier st st' _ _ _ Hvp) in E.
    rewrite (isPackageConverged_root e.2 e'.2 Hroot). by rewrite E. }
  unfold e'. rewrite Hst. apply isProjectMigrated_taggedConfig.
Qed.

(** X11: a batch that completes, on a registry without repeated
    names, leaves a registry in which every project that was converged
    at the start has its tagged configuration (source root set, vNext
    and platform:web among the tags) and every other entry is
    untouched, in the same order.  So every project that is converged
    on the final tree passes [isProjectMigrated]. *)
Theorem batch_tags_converged_projects (h : Host) (st st' : State) :
  NoDup (projects (tree st)).*1 →
  runBatchMigration h st = (Ok tt, st') →
  projects (tree st')
  = map (λ e, if convergedOn st e then (e.1, taggedConfig e.2) else e)
        (projects (tree st))
  ∧ (∀ e, e ∈ projects (tree st') →
          convergedOn st' e = true → isProjectMigrated e.2 = true).
Proof. apply batch_final_registry. Qed.

Lemma filter_none {A} (f : A → bool) (l : list A) :
  (∀ x, x ∈ l → f x = false) → List.filter f l = [].
Proof.
  induction l as [|x l IH]; intros H; [done|]. cbn [List.filter].
  rewrite (H x) by by left. apply IH. intros y Hy. apply H. by right.
Qed.

Lemma printStats_run st :
  Forall (checkable st) (projects (tree st)) →
  printStats st
  = (Ok (statsReport
           (mkStats
              (List.filter (λ e, convergedOn st e && isProjectMigrated e.2)
                 (projects (tree st)))
              (List.filter (λ e, convergedOn st e && negb (isProjectMigrated e.2))
                 (projects (tree st))))), st).
Proof.
  intros Hall. unfold printStats, getProjects. unfold bind at 1. cbn [fst snd].
  pose proof (collectStats_partition (projects (tree st)) (mkStats [] []) st Hall) as Hparts.
  pose proof (collectStats_state (projects (tree st)) (mkStats [] []) st) as Hst.
  unfold bind. destruct (collectStats _ _ st) as [r st1]. simpl in *. subst. reflexivity.
Qed.

(** X26: after a batch that completes, on a registry without repeated
    names, the stats (when every manifest can still be checked) list
    every converged project as migrated and none as not migrated. *)
Theorem stats_after_batch (h : Host) (st st' : State) :
  NoDup (projects (tree st)).*1 →
  runBatchMigration h st = (Ok tt, st') →
  Forall (checkable st') (projects (tree st')) →
  printStats st'
  = (Ok (statsReport
           (mkStats (List.filter (convergedOn st') (projects (tree st'))) [])), st').
Proof.
  intros Hnd Hrun Hall. rewrite printStats_run by done.
  destruct (batch_final_registry h st st' Hnd Hrun) as [_ Hmig].
  do 4 f_equal.
  - apply filter_ext_in. intros e He%list_elem_of_In.
    destruct (convergedOn st' e) eqn:Hc; [|done]. by rewrite (Hmig e He Hc).
  - apply filter_none. intros e He.
    destruct (convergedOn st' e) eqn:Hc; [|done]. by rewrite (Hmig e He Hc).
Qed.

(** ** Validation and the prompt *)

Lemma validateSchema_unfold h s st :
  truthyCount s ≤ 1 →
  validateSchema h s st
  = if shouldValidateNameInput (promptedSchema h s)
    then (Throw (Error "--name cannot be empty. Please provide name of the package."), st)
    else match Schema.name (promptedSchema h s) with
         | Some name =>
             if hasName (promptedSchema h s) then
               (let! projectConfig := readProjectConfiguration name in
                let! converged := isPackageConverged projectConfig in
                if converged then ret (promptedSchema h s)
                else throw (Error (name +:+ " is not converged package. Make sure to run the migration on packages with version 9.x.x"))) st
             else (Ok (promptedSchema h s), st)
         | None => (Ok (promptedSchema h s), st)
         end.
Proof.
  intros Hc. unfold validateSchema.
  assert (hasName s && hasStats s = false ∧ hasName s && hasAll s = false
          ∧ hasStats s && hasAll s = false) as (-> & -> & ->).
  { unfold truthyCount in Hc.
    destruct (hasName s), (hasAll s), (hasStats s); simpl in *; try lia; done. }
  fold (promptedSchema h s).
  destruct (shouldValidateNameInput (promptedSchema h s)); [done|].
  destruct (Schema.name (promptedSchema h s)); [|done].
  by destruct (hasName (promptedSchema h s)).
Qed.

Lemma promptedSchema_flags h s :
  hasAll (promptedSchema h s) = hasAll s ∧ hasStats (promptedSchema h s) = hasStats s
  ∧ Schema.all (promptedSchema h s) = Schema.all s
  ∧ Schema.stats (promptedSchema h s) = Schema.stats s.
Proof. unfold promptedSchema. by case_match. Qed.

Lemma promptedSchema_with_flag h s : 1 ≤ truthyCount s → promptedSchema h s = s.
Proof.
  unfold truthyCount, promptedSchema, shouldValidateNameInput. intros Hc.
  destruct (hasName s), (hasAll s), (hasStats s); simpl in *; try lia;
    by rewrite andb_false_r.
Qed.

(** X12: a schema that passes validation has exactly one of name,
    all, stats truthy, and validation has not changed the state.  It is
    the schema given, unless no flag was given and the prompt supplied
    the name.  If its name is truthy, the named project is registered
    and its version check answers yes. *)
Theorem validateSchema_accepts_one_mode (h : Host) (s s' : Schema.t) (st st' : State) :
  validateSchema h s st = (Ok s', st') →
  st' = st
  ∧ truthyCount s' = 1
  ∧ s' = promptedSchema h s
  ∧ (1 ≤ truthyCount s → s' = s)
  ∧ (hasName s' = true →
     ∃ name cfg,
       Schema.name s' = Some name
       ∧ lookupProject (projects (tree st)) name = Some cfg
       ∧ isPackageConverged cfg st = (Ok true, st)).
Proof.
  intros Hrun.
  pose proof (validateSchema_state h s st) as Hst. rewrite Hrun in Hst. simpl in Hst.
  subst st'. split; [done|].
  assert (Hc : truthyCount s ≤ 1).
  { destruct (le_lt_dec (truthyCount s) 1) as [|Hgt]; [done|].
    unfold validateSchema, throw in Hrun. unfold truthyCount in Hgt.
    destruct (hasName s), (hasAll s), (hasStats s); simpl in *; try lia; discriminate. }
  rewrite (validateSchema_unfold h s st Hc) in Hrun.
  destruct (promptedSchema_flags h s) as (Ha & Hs & _).
  destruct (shouldValidateNameInput (promptedSchema h s)) eqn:Hv; [discriminate|].
  assert (Hs' : s' = promptedSchema h s
          ∧ (hasName s' = true →
             ∃ name cfg,
               Schema.name s' = Some name
               ∧ lookupProject (projects (tree st)) name = Some cfg
               ∧ isPackageConverged cfg st = (Ok true, st))).
  { destruct (Schema.name (promptedSchema h s)) as [name|] eqn:Hname.
    - destruct (hasName (promptedSchema h s)) eqn:Hn.
      + apply bind_ok_inv in Hrun as (cfg & s1 & Hcfg & Hrun).
        apply readProjectConfiguration_inv in Hcfg as [-> Hcfg].
        apply bind_ok_inv in Hrun as (b & s2 & Hb & Hrun).
        pose proof Hb as Hb'. apply isPackageConverged_inv in Hb' as [-> _].
        destruct b; [|discriminate]. injection Hrun as <-.
        split; [done|]. intros _. by exists name, cfg.
      + injection Hrun as <-. split; [done|]. congruence.
    - injection Hrun as <-. split; [done|]. unfold hasName. by rewrite Hname. }
  destruct Hs' as [-> Hnamed]. split.
  - unfold shouldValidateNameInput in Hv. rewrite Ha, Hs in Hv.
    unfold truthyCount at 1. rewrite Ha, Hs.
    destruct (le_lt_dec 1 (truthyCount s)) as [H1|H0].
    + rewrite promptedSchema_with_flag by done. unfold truthyCount in Hc, H1. lia.
    + unfold truthyCount in H0.
      destruct (hasName s), (hasAll s), (hasStats s); simpl in H0; try lia.
      destruct (hasName (promptedSchema h s)); [done|discriminate].
  - split; [done|]. split; [|done]. intros H1. by apply promptedSchema_with_flag.
Qed.

(** X13: with at least one of name, all, stats truthy, validation
    does not depend on the prompt: hosts that differ in whether prompts
    are enabled and in the answer give the same result. *)
Theorem prompt_never_overrides_flags (h h' : Host) (s : Schema.t) (st : State) :
  1 ≤ truthyCount s →
  validateSchema h s st = validateSchema h' s st.
Proof.
  intros H1. destruct (le_lt_dec (truthyCount s) 1) as [Hc|Hgt].
  - rewrite !validateSchema_unfold by done. by rewrite !promptedSchema_with_flag.
  - unfold validateSchema, throw. unfold truthyCount in Hgt.
    destruct (hasName s), (hasAll s), (hasStats s); simpl in *; try lia; done.
Qed.

(** X14: with none of name, all, stats truthy, validation with
    prompts enabled is validation of the schema with the prompt's
    answer as its name; with prompts disabled it throws the
    empty-name error and leaves the state as it was. *)
Theorem prompt_answer_stands_for_name (h : Host) (s : Schema.t) (st : State) :
  truthyCount s = 0 →
  validateSchema h s st
  = if arePromptsEnabled h
    then validateSchema h
           (Schema.mk (Some (promptedName h)) (Schema.all s) (Schema.stats s)) st
    else (Throw (Error "--name cannot be empty. Please provide name of the package."), st).
Proof.
  intros H0. unfold truthyCount in H0.
  destruct (hasName s) eqn:Hn, (hasAll s) eqn:Ha, (hasStats s) eqn:Hs;
    simpl in H0; try lia.
  assert (Hv : shouldValidateNameInput s = true).
  { unfold shouldValidateNameInput. by rewrite Hn, Ha, Hs. }
  rewrite validateSchema_unfold by (unfold truthyCount; rewrite Hn, Ha, Hs; simpl; lia).
  unfold promptedSchema at 1 2 3 4 5. rewrite Hv.
  destruct (arePromptsEnabled h) eqn:Hp; cbn [andb].
  - set (s2 := Schema.mk (Some (promptedName h)) (Schema.all s) (Schema.stats s)).
    assert (Ha2 : hasAll s2 = false) by exact Ha.
    assert (Hs2 : hasStats s2 = false) by exact Hs.
    rewrite validateSchema_unfold.
    2:{ unfold truthyCount. rewrite Ha2, Hs2. destruct (hasName s2); simpl; lia. }
    assert (promptedSchema h s2 = s2) as ->; [|done].
    unfold promptedSchema. by destruct (_ && _).
  - by rewrite Hv.
Qed.

(** ** The local TypeScript config and the shared template *)

(** X15: [updatedLocalTsConfig], run on a local config with compiler
    options, replaces the file by the template, whatever else the old
    config held, with a types list without duplicates that holds
    exactly the template's current types and the old config's types;
    the template's types come first when they are duplicate-free.  The
    same list becomes the template's types. *)
Theorem updatedLocalTsConfig_merges_types (options : Options.t) (st : State)
    (old : TsConfig) (co : CompilerOptions) :
  files (tree st) !! tsconfig (Options.paths options) = Some (FTsConfig old) →
  ts_compilerOptions old = Some co →
  ∃ types,
    updatedLocalTsConfig options st
    = (Ok tt,
       mkState
         (mkTree
            (<[tsconfig (Options.paths options) := FTsConfig (templates.tsconfig types)]>
               (files (tree st)))
            (npmScope (tree st)) (projects (tree st)))
         (userLog st) types)
    ∧ NoDup types
    ∧ (∀ x, x ∈ types ↔ x ∈ tsconfigTypes st ∨ x ∈ default [] (co_types co))
    ∧ (NoDup (tsconfigTypes st) → ∃ added, types = tsconfigTypes st ++ added).
Proof.
  intros Hf Hco.
  exists (uniqueArray (tsconfigTypes st ++ default [] (co_types co))). split.
  { unfold updatedLocalTsConfig, readTsConfig, read, write, getTemplateTypes,
      setTemplateTypes, getTree, putFiles, bind, ret, throw. simpl.
    rewrite Hf. simpl. by rewrite Hco. }
  unfold uniqueArray. split; [apply uniqueFrom_NoDup|]. split.
  - intros x. rewrite elem_of_uniqueFrom, elem_of_app. split; [tauto|].
    intros H. split; [done|apply not_elem_of_nil].
  - intros Hnd. rewrite uniqueFrom_app. eexists. f_equal.
    apply uniqueFrom_fixed; [done|]. intros x _. apply not_elem_of_nil.
Qed.

(** A migration that goes through, step by step. *)
Lemma runMigrationOnProject_inv h name st st' :
  runMigrationOnProject h name st = (Ok tt, st') →
  ∃ o s1 s2 s3 s4 s5 s6 s7 s8 s9 s10,
    normalizeOptions name st = (Ok o, st)
    ∧ updatedLocalTsConfig o st = (Ok tt, s1)
    ∧ updatedBaseTsConfig o s1 = (Ok tt, s2)
    ∧ updateLocalJestConfig o s2 = (Ok tt, s3)
    ∧ updateRootJestConfig h o s3 = (Ok tt, s4)
    ∧ setupStorybook o s4 = (Ok tt, s5)
    ∧ moveStorybookFromReactExamples h o s5 = (Ok tt, s6)
    ∧ removeMigratedPackageFromReactExamples o s6 = (Ok tt, s7)
    ∧ updateNpmScripts o s7 = (Ok tt, s8)
    ∧ updateApiExtractorForLocalBuilds o s8 = (Ok tt, s9)
    ∧ setupNpmConfig o s9 = (Ok tt, s10)
    ∧ updateNxWorkspace o s10 = (Ok tt, st').
Proof.
  unfold runMigrationOnProject. intros H.
  apply bind_ok_inv in H as (o & s0 & Ho & H).
  pose proof Ho as Ho'. apply normalizeOptions_inv in Ho' as (-> & _).
  apply bind_ok_inv in H as ([] & s1 & H1 & H).
  apply bind_ok_inv in H as ([] & s2 & H2 & H).
  apply bind_ok_inv in H as ([] & s3 & H3 & H).
  apply bind_ok_inv in H as ([] & s4 & H4 & H).
  apply bind_ok_inv in H as ([] & s5 & H5 & H).
  apply bind_ok_inv in H as ([] & s6 & H6 & H).
  apply bind_ok_inv in H as ([] & s7 & H7 & H).
  apply bind_ok_inv in H as ([] & s8 & H8 & H).
  apply bind_ok_inv in H as ([] & s9 & H9 & H).
  apply bind_ok_inv in H as ([] & s10 & H10 & H).
  by exists o, s1, s2, s3, s4, s5, s6, s7, s8, s9, s10.
Qed.

(** The template's types after a migration. *)
Lemma runMigrationOnProject_types h name st st' :
  runMigrationOnProject h name st = (Ok tt, st') →
  ∃ c old co,
    lookupProject (projects (tree st)) name = Some c
    ∧ files (tree st) !! rel (root c) "tsconfig.json" = Some (FTsConfig old)
    ∧ ts_compilerOptions old = Some co
    ∧ tsconfigTypes st' = uniqueArray (tsconfigTypes st ++ default [] (co_types co)).
Proof.
  intros (o & s1 & s2 & s3 & s4 & s5 & s6 & s7 & s8 & s9 & s10 & Ho & H1 & H2 & H3
          & H4 & H5 & H6 & H7 & H8 & H9 & H10 & H11)%runMigrationOnProject_inv.
  apply normalizeOptions_inv in Ho as (_ & Hc & Eo).
  apply updatedLocalTsConfig_inv in H1 as (old & co & Hf & Hco & E1).
  apply updatedBaseTsConfig_inv in H2 as (pj2 & base & base' & _ & _ & _ & E2).
  apply updateLocalJestConfig_inv in H3 as (pj3 & fs3 & _ & E3 & _).
  apply (updateRootJestConfig_inv h) in H4 as (cfg4 & f4 & _ & _ & E4).
  rewrite setupStorybook_run in H5. injection H5 as E5.
  apply (moveStorybookFromReactExamples_inv h) in H6 as (fs6 & l6 & E6 & _).
  apply removeMigratedPackageFromReactExamples_inv in H7 as (ex7 & fs7 & l7 & _ & E7 & _).
  apply updateNpmScripts_inv in H8 as (pj8 & pj8' & _ & _ & E8).
  rewrite updateApiExtractorForLocalBuilds_run in H9. injection H9 as E9.
  rewrite setupNpmConfig_run in H10. injection H10 as E10.
  apply updateNxWorkspace_inv in H11 as [_ E11].
  assert (Hty : tsconfigTypes st' = tsconfigTypes s1).
  { rewrite E11. cbn [tsconfigTypes]. rewrite <- E10. cbn [withFiles tsconfigTypes].
    rewrite <- E9. cbn [withFiles tsconfigTypes]. rewrite E8. cbn [withFiles tsconfigTypes].
    rewrite E7. cbn [withState tsconfigTypes]. rewrite E6. cbn [withState tsconfigTypes].
    rewrite <- E5. cbn [withFiles tsconfigTypes]. rewrite E4. cbn [withFiles tsconfigTypes].
    rewrite E3. cbn [withFiles tsconfigTypes]. rewrite E2. reflexivity. }
  rewrite Hty, E1. cbn [tsconfigTypes].
  exists (Options.projectConfig o), old, co. split; [done|]. split; [|done].
  rewrite <- Hf. rewrite Eo at 2. reflexivity.
Qed.

(** What the first step wrote to the local config is still there at the
    end, when the project lies apart from its stories. *)
Lemma runMigrationOnProject_local_config h name st st' c :
  lookupProject (projects (tree st)) name = Some c →
  layoutApart (tree st) name = true →
  runMigrationOnProject h name st = (Ok tt, st') →
  ∃ old co,
    files (tree st) !! rel (root c) "tsconfig.json" = Some (FTsConfig old)
    ∧ ts_compilerOptions old = Some co
    ∧ files (tree st') !! rel (root c) "tsconfig.json"
      = Some (FTsConfig (templates.tsconfig
                           (uniqueArray (tsconfigTypes st ++ default [] (co_types co))))).
Proof.
  intros Hc Hap Hrun.
  apply runMigrationOnProject_inv in Hrun
    as (o & s1 & s2 & s3 & s4 & s5 & s6 & s7 & s8 & s9 & s10 & Ho & H1 & H2 & H3
        & H4 & H5 & H6 & H7 & H8 & H9 & H10 & H11).
  rewrite (normalizeOptions_run _ _ _ Hc) in Ho. injection Ho as <-.
  apply updatedLocalTsConfig_inv in H1 as (old & co & Hf & Hco & ->).
  proj. rewrite !join2, ?rel_rel in *.
  exists old, co. split; [done|]. split; [done|].
  set (T := rel (root c) "tsconfig.json") in *.
  set (P := λ q : string, negb (String.eqb q T)).
  assert (HP : ∀ q, q ≠ T → P q = true).
  { intros q Hq. unfold P. by apply negb_true_iff, String.eqb_neq. }
  assert (HT : P T = false).
  { unfold P. by rewrite String.eqb_refl. }
  unfold layoutApart in Hap. rewrite Hc in Hap.
  destruct (lookupProject (projects (tree st)) ("@" +:+ npmScope (tree st) +:+ "/react-examples"))
    as [ex|] eqn:Hex; [|discriminate].
  pose proof (apart_inv _ _ Hap) as (HR & _ & _).
  match type of H2 with
  | updatedBaseTsConfig ?o' ?s = _ => set (o := o') in *; set (s0 := s) in *
  end.
  assert (Hrel : ∀ x, x ≠ "tsconfig.json" → P (rel (root c) x) = true).
  { intros x Hx. apply HP. unfold T. intros E. by apply rel_inj in E. }
  assert (Hbase : P "/tsconfig.base.json" = true).
  { apply HP. unfold T. path_ne. }
  assert (Hjest : P "/jest.config.js" = true).
  { apply HP. unfold T. path_ne. }
  assert (Hsrc : ∀ fileName,
            P (joinPathFragments [root (Options.projectConfig o); "src"; fileName]) = true).
  { intros fileName. unfold o. proj. rewrite join3. by apply Hrel. }
  assert (Hexs : ∀ ex', lookupProject (projects (tree st))
                          (examplesName (Options.workspaceNpmScope o)) = Some ex' →
            P (root ex' +:+ "/package.json") = true
            ∧ ∀ q, within (root ex' +:+ "/src/" +:+ Options.normalizedPkgName o) q = true →
                   P q = true).
  { intros ex' Hex'. unfold o, examplesName in Hex'. proj.
    rewrite Hex in Hex'. injection Hex' as <-. unfold o. proj. split.
    - apply HP. unfold T, rel. apply not_eq_sym, suffix_ne. reflexivity.
    - intros q Hq. apply HP. intros ->. unfold T in Hq.
      by rewrite rel_not_within in Hq. }
  assert (Hcfg : ∀ x, P (joinPathFragments [configRoot (Options.paths o); x]) = true).
  { intros x. unfold o. proj. rewrite ?join2, ?rel_rel. apply Hrel. discriminate. }
  pose (ps := projects (tree st)). pose (sc := npmScope (tree st)).
  destruct (updatedBaseTsConfig_confined o ps sc P Hbase s0 _ _ eq_refl eq_refl H2)
    as (Hp2 & Hs2 & Hf2).
  destruct (updateLocalJestConfig_confined o ps sc P
              (Hrel "jest.config.js" ltac:(discriminate)) (Hcfg _)
              _ _ _ Hp2 Hs2 H3) as (Hp3 & Hs3 & Hf3).
  destruct (updateRootJestConfig_confined h o ps sc P Hjest _ _ _ Hp3 Hs3 H4)
    as (Hp4 & Hs4 & Hf4).
  destruct (setupStorybook_confined o ps sc P
              (Hrel ".storybook/tsconfig.json" ltac:(discriminate))
              (Hrel ".storybook/main.js" ltac:(discriminate))
              (Hrel ".storybook/preview.js" ltac:(discriminate))
              _ _ _ Hp4 Hs4 H5) as (Hp5 & Hs5 & Hf5).
  destruct (moveStorybookFromReactExamples_confined h o ps sc P Hsrc _ _ _ Hp5 Hs5 H6)
    as (Hp6 & Hs6 & Hf6).
  destruct (removeMigratedPackageFromReactExamples_confined o ps sc P Hexs _ _ _ Hp6 Hs6 H7)
    as (Hp7 & Hs7 & Hf7).
  destruct (updateNpmScripts_confined o ps sc P
              (Hrel "package.json" ltac:(discriminate))
              _ _ _ Hp7 Hs7 H8) as (Hp8 & Hs8 & Hf8).
  destruct (updateApiExtractorForLocalBuilds_confined o ps sc P (Hcfg _) (Hcfg _)
              _ _ _ Hp8 Hs8 H9) as (Hp9 & Hs9 & Hf9).
  destruct (setupNpmConfig_confined o ps sc P
              (Hrel ".npmignore" ltac:(discriminate))
              _ _ _ Hp9 Hs9 H10) as (Hp10 & Hs10 & Hf10).
  apply updateNxWorkspace_inv in H11 as [_ ->]. cbn [tree files].
  rewrite Hf10, Hf9, Hf8, Hf7, Hf6, Hf5, Hf4, Hf3, Hf2 by exact HT.
  unfold s0. cbn [tree files]. apply lookup_insert_eq.
Qed.

(** X16: the template is shared between migrations.  A type asked for
    by the local config of a project migrated first is among the
    template's types afterwards, and is written to the local config of
    a project migrated next (whose root lies apart from its stories),
    although that project never asked for it. *)
Theorem tsconfig_types_carry_over (h : Host) (first next : string)
    (st st1 st2 : State) (c1 c2 : ProjectConfiguration)
    (old : TsConfig) (co : CompilerOptions) (x : string) :
  lookupProject (projects (tree st)) first = Some c1 →
  files (tree st) !! joinPathFragments [root c1; "tsconfig.json"] = Some (FTsConfig old) →
  ts_compilerOptions old = Some co →
  x ∈ default [] (co_types co) →
  runMigrationOnProject h first st = (Ok tt, st1) →
  lookupProject (projects (tree st1)) next = Some c2 →
  layoutApart (tree st1) next = true →
  runMigrationOnProject h next st1 = (Ok tt, st2) →
  x ∈ tsconfigTypes st1
  ∧ ∃ types,
      files (tree st2) !! joinPathFragments [root c2; "tsconfig.json"]
      = Some (FTsConfig (templates.tsconfig types))
      ∧ x ∈ types.
Proof.
  intros Hc1 Hf Hco Hx Hrun1 Hc2 Hap Hrun2.
  apply runMigrationOnProject_types in Hrun1 as (c1' & old' & co' & Hc1' & Hf' & Hco' & Hty).
  rewrite Hc1 in Hc1'. injection Hc1' as <-.
  rewrite join2 in Hf.
  rewrite Hf in Hf'. injection Hf' as <-. rewrite Hco in Hco'. injection Hco' as <-.
  assert (Hx1 : x ∈ tsconfigTypes st1).
  { rewrite Hty. unfold uniqueArray. apply elem_of_uniqueFrom.
    split; [|apply not_elem_of_nil]. apply elem_of_app. by right. }
  split; [done|].
  destruct (runMigrationOnProject_local_config h next st1 st2 c2 Hc2 Hap Hrun2)
    as (old2 & co2 & _ & _ & Hfile).
  eexists. rewrite join2. split; [exact Hfile|].
  unfold uniqueArray. apply elem_of_uniqueFrom.
  split; [|apply not_elem_of_nil]. apply elem_of_app. by left.
Qed.

(** ** The local jest config *)

Lemma split_app a : ∀ b,
  Js.split slash (a +:+ String "/" b) = Js.split slash a ++ Js.split slash b.
Proof.
  induction a as [|c a IH]; intros b; [done|].
  rewrite append_cons. cbn [Js.split]. rewrite IH.
  destruct (Ascii.eqb c slash); [done|].
  destruct (Js.split slash a) as [|y l] eqn:E; [by destruct (split_nonempty slash a)|].
  done.
Qed.

Lemma last_app_nonempty {A} (l1 l2 : list A) d :
  l2 ≠ [] → List.last (l1 ++ l2) d = List.last l2 d.
Proof.
  intros H. induction l1 as [|x l1 IH]; [done|].
  cbn [app List.last]. destruct (l1 ++ l2) eqn:E; [|done].
  apply app_eq_nil in E as [_ ->]. done.
Qed.

Lemma basename_rel R s : Js.includes "/" s = false → basename (rel R s) = s.
Proof.
  intros H. unfold basename, rel. rewrite split_app.
  rewrite last_app_nonempty by apply split_nonempty.
  by rewrite split_no_slash.
Qed.

Lemma existsb_key (m : gmap string string) x :
  existsb (λ k, existsb (String.eqb k) [x]) (map fst (map_to_list m))
  = bool_decide (is_Some (m !! x)).
Proof.
  apply eq_true_iff_eq. rewrite existsb_exists, bool_decide_eq_true. split.
  - intros (k & Hin & Hk). cbn [existsb] in Hk. rewrite orb_false_r in Hk.
    apply String.eqb_eq in Hk as ->.
    apply in_map_iff in Hin as ([k v] & <- & Hin).
    apply list_elem_of_In, elem_of_map_to_list in Hin. by eexists.
  - intros [v Hv]. exists x. split.
    + apply in_map_iff. exists (x, v). split; [done|].
      by apply list_elem_of_In, elem_of_map_to_list.
    + cbn [existsb]. by rewrite String.eqb_refl.
Qed.

Lemma startsWith_app_head p a b :
  Js.startsWith (p +:+ a) (p +:+ b) = Js.startsWith a b.
Proof.
  induction p as [|c p IH]; [done|]. rewrite !append_cons. cbn [Js.startsWith].
  by rewrite Ascii.eqb_refl.
Qed.

Lemma existsIn_insert_outside (fs : gmap string File) p k f :
  within p k = false → existsIn (<[k := f]> fs) p = existsIn fs p.
Proof.
  intros Hk. apply eq_true_iff_eq. rewrite !existsIn_true. unfold occupied.
  split; intros (q & Hq & Hs); exists q; (split; [done|]).
  - rewrite lookup_insert_ne in Hs; [done|]. intros <-. congruence.
  - rewrite lookup_insert_ne; [done|]. intros <-. congruence.
Qed.

(** X17: [updateLocalJestConfig], for a registered project with a
    manifest, always rewrites the local jest config from the template,
    with the setup file path ./config/tests.js and with the snapshot
    serializer line exactly when the manifest depends on
    ["@<npmScope>/react-make-styles"].  The setup file is created from
    the template only if nothing exists at its path: an existing one
    keeps its content.  No other file, the registry and the log do not
    change. *)
Theorem updateLocalJestConfig_keeps_setup_file (name : string) (st : State)
    (c : ProjectConfiguration) (pj : PackageJson) :
  lookupProject (projects (tree st)) name = Some c →
  files (tree st) !! joinPathFragments [root c; "package.json"] = Some (FPackageJson pj) →
  ∃ options st',
    normalizeOptions name st = (Ok options, st)
    ∧ updateLocalJestConfig options st = (Ok tt, st')
    ∧ files (tree st') !! jestConfig (Options.paths options)
      = Some (FText
                (templates.jest (Options.normalizedPkgName options)
                   (bool_decide
                      (is_Some (default ∅ (pj_dependencies pj)
                                  !! ("@" +:+ npmScope (tree st) +:+ "/react-make-styles"))))
                   "./config/tests.js"))
    ∧ files (tree st') !! jestSetupFilePath options
      = (if existsIn (files (tree st)) (jestSetupFilePath options)
         then files (tree st) !! jestSetupFilePath options
         else Some (FText templates.jestSetup))
    ∧ (∀ k, k ≠ jestConfig (Options.paths options) → k ≠ jestSetupFilePath options →
            files (tree st') !! k = files (tree st) !! k)
    ∧ projects (tree st') = projects (tree st)
    ∧ userLog st' = userLog st.
Proof.
  intros Hc Hpj.
  pose proof (normalizeOptions_run name st c Hc) as Ho.
  match type of Ho with _ = (Ok ?o', _) => set (o := o') in * end.
  exists o.
  set (J := rel (root c) "jest.config.js").
  set (S := rel (root c) ("config" +:+ String "/" "tests.js")).
  assert (EJ : jestConfig (Options.paths o) = J) by reflexivity.
  assert (ES : jestSetupFilePath o = S).
  { unfold jestSetupFilePath, o. proj. by rewrite !join2, rel_rel. }
  rewrite EJ, ES.
  set (text := templates.jest (Options.normalizedPkgName o)
                 (bool_decide
                    (is_Some (default ∅ (pj_dependencies pj)
                                !! ("@" +:+ npmScope (tree st) +:+ "/react-make-styles"))))
                 "./config/tests.js").
  exists (withFiles st
            (if existsIn (files (tree st)) S
             then <[J := FText text]> (files (tree st))
             else <[S := FText templates.jestSetup]> (<[J := FText text]> (files (tree st))))).
  split; [done|].
  assert (HJS : J ≠ S).
  { unfold J, S. intros E%rel_inj. discriminate. }
  assert (HW : within S J = false).
  { unfold within. apply orb_false_iff. split; [by apply String.eqb_neq|].
    unfold J, S, rel. rewrite string_app_assoc, startsWith_app_head. reflexivity. }
  split.
  { unfold updateLocalJestConfig. cbv zeta.
    change (packageJson (Options.paths o)) with (joinPathFragments [root c; "package.json"]).
    rewrite (bind_run _ _ _ _ _ (readPackageJson_run _ _ _ Hpj)).
    rewrite existsb_key. fold (jestSetupFilePath o). rewrite EJ, ES.
    change (configRoot (Options.paths o)) with (rel (root c) "config").
    rewrite (basename_rel (root c) "config") by reflexivity.
    change ("./" +:+ "config" +:+ "/tests.js") with "./config/tests.js".
    change (Options.workspaceNpmScope o) with (npmScope (tree st)).
    fold text.
    rewrite (bind_run _ _ _ _ _ (write_run _ _ _)).
    unfold exists_. unfold bind at 1. cbn [withFiles tree files].
    rewrite existsIn_insert_outside by done.
    destruct (existsIn (files (tree st)) S); cbn [negb]; [reflexivity|].
    by rewrite write_run. }
  cbn [withFiles tree files projects userLog].
  destruct (existsIn (files (tree st)) S) eqn:Hex.
  - split; [apply lookup_insert_eq|]. split; [by rewrite lookup_insert_ne|].
    split; [|done]. intros k Hk _. by rewrite lookup_insert_ne.
  - split; [rewrite lookup_insert_ne by done; apply lookup_insert_eq|].
    split; [apply lookup_insert_eq|].
    split; [|done]. intros k Hk1 Hk2. by rewrite !lookup_insert_ne.
Qed.

(** ** Removing the package from the examples project *)

Lemma existsIn_deleteIn (fs : gmap string File) p : existsIn (deleteIn fs p) p = false.
Proof.
  apply existsIn_false. intros k Hk. by rewrite lookup_deleteIn, Hk.
Qed.

Lemma removal_drops_dependency_run (options : Options.t) (st : State)
    (ex : ProjectConfiguration) (pj : PackageJson) :
  lookupProject (projects (tree st))
    ("@" +:+ Options.workspaceNpmScope options +:+ "/react-examples") = Some ex →
  existsIn (files (tree st))
    (root ex +:+ "/src/" +:+ Options.normalizedPkgName options) = true →
  files (tree st) !! (root ex +:+ "/package.json") = Some (FPackageJson pj) →
  ∃ st',
    removeMigratedPackageFromReactExamples options st = (Ok tt, st')
    ∧ existsIn (files (tree st'))
        (root ex +:+ "/src/" +:+ Options.normalizedPkgName options) = false
    ∧ files (tree st') !! (root ex +:+ "/package.json")
      = Some (FPackageJson
                (mkPackageJson (pj_version pj) (pj_scripts pj)
                   (delete (Options.name options) <$> pj_dependencies pj)
                   (pj_rest pj)))
    ∧ (∀ k, within (root ex +:+ "/src/" +:+ Options.normalizedPkgName options) k = false →
            k ≠ root ex +:+ "/package.json" →
            files (tree st') !! k = files (tree st) !! k)
    ∧ userLog st'
      = userLog st
        ++ [mkLog warn ("NOTE: Deleting " +:+ root ex +:+ "/src/"
                        +:+ Options.normalizedPkgName options);
            mkLog warn ("      - Please update your moved stories to follow standard storybook format"
                        +:+ Js.newline)].
Proof.
  intros Hex Hdir Hpj. eexists. split.
  { unfold removeMigratedPackageFromReactExamples, getReactExamplesProjectConfig.
    cbv zeta. rewrite (bind_run _ _ _ _ _ (readProjectConfiguration_run _ _ _ Hex)).
    unfold exists_. unfold bind at 1. rewrite Hdir. cbn [negb].
    unfold delete_, getTree. unfold bind at 1. unfold bind at 1. unfold putFiles at 1.
    unfold pushLog. unfold bind at 1. cbn [tree files npmScope projects userLog tsconfigTypes].
    unfold updatePackageJson.
    erewrite (bind_run (readPackageJson _)).
    2:{ apply readPackageJson_run. cbn [tree files].
        rewrite lookup_deleteIn, expkg_not_within. exact Hpj. }
    rewrite write_run. reflexivity. }
  cbn [withFiles tree files userLog]. split; [|split; [|split]].
  - apply existsIn_false. intros k Hk. rewrite lookup_insert_ne.
    + by rewrite lookup_deleteIn, Hk.
    + intros <-. by rewrite expkg_not_within in Hk.
  - apply lookup_insert_eq.
  - intros k Hk Hne. rewrite lookup_insert_ne by done. by rewrite lookup_deleteIn, Hk.
  - done.
Qed.


(** X18: when the package's directory exists in the examples project
    and that project has a manifest, the removal succeeds: nothing is
    left at or below the directory, the manifest loses the dependency
    on the migrated package and nothing else, every other file is as
    before, and two warnings are appended to the log. *)
Theorem removal_drops_examples_dependency (options : Options.t) (st : State)
    (ex : ProjectConfiguration) (pj : PackageJson) :
  lookupProject (projects (tree st))
    ("@" +:+ Options.workspaceNpmScope options +:+ "/react-examples") = Some ex →
  existsIn (files (tree st))
    (root ex +:+ "/src/" +:+ Options.normalizedPkgName options) = true →
  files (tree st) !! (root ex +:+ "/package.json") = Some (FPackageJson pj) →
  ∃ st',
    removeMigratedPackageFromReactExamples options st = (Ok tt, st')
    ∧ existsIn (files (tree st'))
        (root ex +:+ "/src/" +:+ Options.normalizedPkgName options) = false
    ∧ files (tree st') !! (root ex +:+ "/package.json")
      = Some (FPackageJson
                (mkPackageJson (pj_version pj) (pj_scripts pj)
                   (delete (Options.name options) <$> pj_dependencies pj)
                   (pj_rest pj)))
    ∧ (∀ k, within (root ex +:+ "/src/" +:+ Options.normalizedPkgName options) k = false →
            k ≠ root ex +:+ "/package.json" →
            files (tree st') !! k = files (tree st) !! k)
    ∧ userLog st'
      = userLog st
        ++ [mkLog warn ("NOTE: Deleting " +:+ root ex +:+ "/src/"
                        +:+ Options.normalizedPkgName options);
            mkLog warn ("      - Please update your moved stories to follow standard storybook format"
                        +:+ Js.newline)].
Proof. apply removal_drops_dependency_run. Qed.

(** X19: the removal deletes before it can fail: when the examples
    project has no readable manifest, the step throws, but the
    package's directory is already gone and the two warnings are
    already in the log. *)
Theorem removal_deletes_before_failing (options : Options.t) (st : State)
    (ex : ProjectConfiguration) :
  lookupProject (projects (tree st))
    ("@" +:+ Options.workspaceNpmScope options +:+ "/react-examples") = Some ex →
  existsIn (files (tree st))
    (root ex +:+ "/src/" +:+ Options.normalizedPkgName options) = true →
  (∀ pj, files (tree st) !! (root ex +:+ "/package.json") ≠ Some (FPackageJson pj)) →
  ∃ msg st',
    removeMigratedPackageFromReactExamples options st = (Throw (DevkitError msg), st')
    ∧ files (tree st')
      = deleteIn (files (tree st))
          (root ex +:+ "/src/" +:+ Options.normalizedPkgName options)
    ∧ existsIn (files (tree st'))
        (root ex +:+ "/src/" +:+ Options.normalizedPkgName options) = false
    ∧ userLog st'
      = userLog st
        ++ [mkLog warn ("NOTE: Deleting " +:+ root ex +:+ "/src/"
                        +:+ Options.normalizedPkgName options);
            mkLog warn ("      - Please update your moved stories to follow standard storybook format"
                        +:+ Js.newline)].
Proof.
  intros Hex Hdir Hpj.
  set (dir := root ex +:+ "/src/" +:+ Options.normalizedPkgName options) in *.
  set (st1 := mkState (mkTree (deleteIn (files (tree st)) dir) (npmScope (tree st))
                         (projects (tree st)))
                (userLog st
                 ++ [mkLog warn ("NOTE: Deleting " +:+ root ex +:+ "/src/"
                                 +:+ Options.normalizedPkgName options);
                     mkLog warn ("      - Please update your moved stories to follow standard storybook format"
                                 +:+ Js.newline)])
                (tsconfigTypes st)).
  assert (Hrun : ∃ msg, removeMigratedPackageFromReactExamples options st
                        = (Throw (DevkitError msg), st1)).
  { unfold removeMigratedPackageFromReactExamples, getReactExamplesProjectConfig.
    cbv zeta. rewrite (bind_run _ _ _ _ _ (readProjectConfiguration_run _ _ _ Hex)).
    unfold exists_. unfold bind at 1. fold dir. rewrite Hdir. cbn [negb].
    unfold delete_, getTree. unfold bind at 1. unfold bind at 1. unfold putFiles at 1.
    unfold pushLog. unfold bind at 1. cbn [tree files npmScope projects userLog tsconfigTypes].
    fold st1. unfold updatePackageJson, readPackageJson, read.
    unfold bind. cbn [tree files st1]. rewrite lookup_deleteIn.
    unfold dir. rewrite expkg_not_within.
    destruct (files (tree st) !! (root ex +:+ "/package.json")) as [[| pj | |]|] eqn:E;
      try (eexists; reflexivity).
    by destruct (Hpj pj). }
  destruct Hrun as [msg Hrun]. exists msg, st1. split; [done|].
  cbn [st1 tree files userLog]. split; [done|]. split; [apply existsIn_deleteIn|done].
Qed.

(** ** A story without content *)

Lemma forEach_moveStory_throws h o (orig : gmap string File) p f : ∀ l st,
  (∀ q, q ∈ l → files (tree st) !! q = orig !! q) →
  p ∈ l → orig !! p = Some f → fileText h f = "" →
  (∀ q1 q2, q1 ∈ l → q2 ∈ l → storyDestination o q1 ≠ q2) →
  ∃ q st',
    q ∈ l
    ∧ forEach (moveStory h o) l st
      = (Throw (Error ("Error moving " +:+ storyFileName q +:+ " from react-examples")), st').
Proof.
  induction l as [|q l IH]; intros st Hsame Hin Hp Hempty Hdest.
  { by apply elem_of_nil in Hin. }
  cbn [forEach].
  destruct (moveStory h o q st) as [[[]|e] st1] eqn:Estep.
  - rewrite (bind_run _ _ _ _ _ Estep).
    unfold moveStory in Estep. cbv zeta in Estep.
    apply bind_ok_inv in Estep as (c & s0 & Hr & Estep).
    unfold read in Hr. injection Hr as <- <-.
    rewrite (Hsame q) in Estep by by left.
    destruct (orig !! q) as [g|] eqn:Hq; [|discriminate]. cbn [fmap option_fmap option_map] in Estep.
    destruct (String.eqb_spec (fileText h g) "") as [Hg|Hg]; [discriminate|].
    cbn [negb] in Estep. rewrite write_run in Estep. injection Estep as <-.
    apply elem_of_cons in Hin as [->|Hin].
    { rewrite Hp in Hq. injection Hq as <-. done. }
    destruct (IH (withFiles st
                    (<[joinPathFragments [root (Options.projectConfig o); "src";
                                          List.last (splitPathFragments q) ""] :=
                         FText (movedStory (Options.name o)
                                  (List.last (splitPathFragments q) "") (fileText h g))]>
                       (files (tree st)))))
      as (q' & st' & Hq' & Hrun); try done.
    + intros k Hk. cbn [withFiles tree files]. rewrite lookup_insert_ne.
      * apply Hsame. by right.
      * apply (Hdest q k); [by left|by right].
    + intros q1 q2 H1 H2. apply Hdest; by right.
    + exists q', st'. split; [by right|done].
  - exists q, st1. split; [by left|]. apply bind_throw.
    unfold moveStory in Estep |- *. cbv zeta in Estep |- *.
    unfold read, bind in Estep |- *.
    destruct (fileText h <$> files (tree st) !! q) as [text|]; [|by injection Estep as <- <-].
    destruct (negb (String.eqb text "")); [discriminate|]. by injection Estep as <- <-.
Qed.

(** X20: one story without content stops the relocation: if a story
    file of the package is empty (and no story's destination is itself
    one of the stories), the step throws
    "Error moving <file name> from react-examples" for one of the
    stories. *)
Theorem empty_story_stops_relocation (h : Host) (options : Options.t) (st : State)
    (ex : ProjectConfiguration) (p : string) (f : File) :
  lookupProject (projects (tree st))
    ("@" +:+ Options.workspaceNpmScope options +:+ "/react-examples") = Some ex →
  p ∈ storyPathsIn h (files (tree st))
        (root ex +:+ "/src/" +:+ Options.normalizedPkgName options) →
  files (tree st) !! p = Some f →
  fileText h f = "" →
  (∀ q1 q2,
     q1 ∈ storyPathsIn h (files (tree st))
            (root ex +:+ "/src/" +:+ Options.normalizedPkgName options) →
     q2 ∈ storyPathsIn h (files (tree st))
            (root ex +:+ "/src/" +:+ Options.normalizedPkgName options) →
     storyDestination options q1 ≠ q2) →
  ∃ q st',
    q ∈ storyPathsIn h (files (tree st))
          (root ex +:+ "/src/" +:+ Options.normalizedPkgName options)
    ∧ moveStorybookFromReactExamples h options st
      = (Throw (Error ("Error moving " +:+ storyFileName q +:+ " from react-examples")), st').
Proof.
  intros Hex Hin Hp Hempty Hdest.
  unfold moveStorybookFromReactExamples, getReactExamplesProjectConfig. cbv zeta.
  rewrite (bind_run _ _ _ _ _ (readProjectConfiguration_run _ _ _ Hex)).
  unfold getTree. unfold bind at 1.
  set (l := storyPathsIn h (files (tree st)) _) in *.
  destruct l as [|q0 l0] eqn:El; [by apply elem_of_nil in Hin|].
  cbn [length Nat.eqb]. rewrite <- El in *.
  by apply (forEach_moveStory_throws h options (files (tree st)) p f).
Qed.

(** ** Steps that fail *)

(** X21: eight steps are all or nothing: when [updatedLocalTsConfig],
    [updatedBaseTsConfig], [updateLocalJestConfig], [setupStorybook],
    [updateNpmScripts], [updateApiExtractorForLocalBuilds],
    [setupNpmConfig] or [updateNxWorkspace] throws, the state is
    exactly as it was before the step. *)
Theorem failing_step_changes_nothing (options : Options.t)
    (step : M unit) (st st' : State) (e : exn) :
  step ∈ [updatedLocalTsConfig options; updatedBaseTsConfig options;
          updateLocalJestConfig options;
          setupStorybook options; updateNpmScripts options;
          updateApiExtractorForLocalBuilds options; setupNpmConfig options;
          updateNxWorkspace options] →
  step st = (Throw e, st') →
  st' = st.
Proof.
  intros Hstep Hrun.
  repeat (apply elem_of_cons in Hstep as [->|Hstep]); [..|by apply elem_of_nil in Hstep].
  - revert Hrun. unfold updatedLocalTsConfig, readTsConfig, read, write, getTemplateTypes,
      setTemplateTypes, getTree, putFiles, bind, ret, throw.
    repeat case_match; intros; by simplify_eq.
  - revert Hrun. unfold updatedBaseTsConfig, updateTsConfig, readTsConfig, readPackageJson,
      read, write, readNpmScope, getProjects, getTree, putFiles, bind, ret, throw.
    repeat case_match; intros; by simplify_eq.
  - revert Hrun. unfold updateLocalJestConfig, readPackageJson, read, write, exists_,
      getTree, putFiles, bind, ret, throw.
    repeat case_match; intros; by simplify_eq.
  - by rewrite setupStorybook_run in Hrun.
  - revert Hrun. unfold updateNpmScripts, updatePackageJson, readPackageJson, read, write,
      getTree, putFiles, bind, ret, throw.
    repeat case_match; intros; by simplify_eq.
  - by rewrite updateApiExtractorForLocalBuilds_run in Hrun.
  - by rewrite setupNpmConfig_run in Hrun.
  - revert Hrun. unfold updateNxWorkspace, updateProjectConfiguration, getProjects,
      putProjects, bind, ret, throw.
    repeat case_match; intros; by simplify_eq.
Qed.

(** X22: on a manifest without a scripts map [updateNpmScripts]
    throws a type error and leaves the state as it was. *)
Theorem updateNpmScripts_needs_scripts (options : Options.t) (st : State)
    (json : PackageJson) :
  files (tree st) !! packageJson (Options.paths options) = Some (FPackageJson json) →
  pj_scripts json = None →
  ∃ msg, updateNpmScripts options st = (Throw (TypeError msg), st).
Proof.
  intros Hf Hs. eexists. unfold updateNpmScripts, updatePackageJson.
  rewrite (bind_run _ _ _ _ _ (readPackageJson_run _ _ _ Hf)).
  unfold npmScriptsUpdater. rewrite Hs. reflexivity.
Qed.

(** ** Files of the package's directory that are no stories *)

Lemma storyPathsIn_nil h (fs : gmap string File) dir :
  storyPathsIn h fs dir = []
  ↔ ∀ p, is_Some (fs !! p) → Js.startsWith (dir +:+ "/") p = true →
         Js.includes ".stories." p = true → ignored h p = true.
Proof.
  split.
  - intros Hnil p Hf Hp Hs. apply not_false_iff_true. intros Hi.
    assert (Hin : p ∈ storyPathsIn h fs dir) by by apply elem_of_storyPathsIn.
    rewrite Hnil in Hin. by apply elem_of_nil in Hin.
  - intros H. destruct (storyPathsIn h fs dir) as [|p l] eqn:E; [done|].
    assert (Hin : p ∈ storyPathsIn h fs dir) by (rewrite E; by left).
    apply elem_of_storyPathsIn in Hin as (Hf & Hp & Hi & Hs).
    rewrite (H p Hf Hp Hs) in Hi. done.
Qed.

(** X23: files of the package's directory that are no stories are
    deleted without being moved.  If every file below the directory
    lacks ".stories." in its path or is ignored, then relocation
    followed by removal succeeds, nothing is left at or below the
    directory, and apart from the examples project's manifest no other
    path has changed: nothing was copied.  Three warnings are logged. *)
Theorem files_that_are_no_stories_are_dropped (h : Host) (options : Options.t)
    (st : State) (ex : ProjectConfiguration) (pj : PackageJson) :
  lookupProject (projects (tree st))
    ("@" +:+ Options.workspaceNpmScope options +:+ "/react-examples") = Some ex →
  (∀ p, is_Some (files (tree st) !! p) →
        Js.startsWith ((root ex +:+ "/src/" +:+ Options.normalizedPkgName options) +:+ "/") p
        = true →
        Js.includes ".stories." p = true → ignored h p = true) →
  existsIn (files (tree st))
    (root ex +:+ "/src/" +:+ Options.normalizedPkgName options) = true →
  files (tree st) !! (root ex +:+ "/package.json") = Some (FPackageJson pj) →
  ∃ st',
    (moveStorybookFromReactExamples h options
     >>> removeMigratedPackageFromReactExamples options) st = (Ok tt, st')
    ∧ (∀ k, within (root ex +:+ "/src/" +:+ Options.normalizedPkgName options) k = true →
            files (tree st') !! k = None)
    ∧ (∀ k, within (root ex +:+ "/src/" +:+ Options.normalizedPkgName options) k = false →
            k ≠ root ex +:+ "/package.json" →
            files (tree st') !! k = files (tree st) !! k)
    ∧ userLog st'
      = userLog st
        ++ [mkLog warn "No package stories found within react-examples. Skipping storybook stories migration...";
            mkLog warn ("NOTE: Deleting " +:+ root ex +:+ "/src/"
                        +:+ Options.normalizedPkgName options);
            mkLog warn ("      - Please update your moved stories to follow standard storybook format"
                        +:+ Js.newline)].
Proof.
  intros Hex Hnone Hdir Hpj.
  apply storyPathsIn_nil in Hnone.
  set (st1 := mkState (tree st)
                (userLog st ++ [mkLog warn "No package stories found within react-examples. Skipping storybook stories migration..."])
                (tsconfigTypes st)).
  assert (Hmove : moveStorybookFromReactExamples h options st = (Ok tt, st1)).
  { unfold moveStorybookFromReactExamples, getReactExamplesProjectConfig. cbv zeta.
    rewrite (bind_run _ _ _ _ _ (readProjectConfiguration_run _ _ _ Hex)).
    unfold getTree. unfold bind at 1. by rewrite Hnone. }
  destruct (removal_drops_dependency_run options st1 ex pj Hex Hdir Hpj)
    as (st' & Hrun & Hgone & _ & Hframe & Hlog).
  exists st'. split; [by rewrite (bind_run _ _ _ _ _ Hmove)|].
  split; [by apply existsIn_false|]. split; [exact Hframe|].
  rewrite Hlog. unfold st1. cbn [userLog]. by rewrite <- app_assoc.
Qed.

(** ** The generator's modes *)

Lemma validateSchema_all h s st :
  hasAll s = true → hasName s = false → hasStats s = false →
  validateSchema h s st = (Ok s, st).
Proof.
  intros Ha Hn Hs. rewrite validateSchema_unfold.
  2:{ unfold truthyCount. by rewrite Ha, Hn, Hs. }
  rewrite promptedSchema_with_flag.
  2:{ unfold truthyCount. rewrite Ha, Hn, Hs. simpl. lia. }
  unfold shouldValidateNameInput. rewrite Hn, Ha, Hs. cbn [negb orb andb].
  by destruct (Schema.name s).
Qed.

(** X24: with all alone truthy, the generator checks no project up
    front: it runs the batch on an empty log; if the batch completes,
    the files are formatted and the log is what the returned callback
    prints, between two separator lines; if the batch throws, the
    generator throws the same error, with the tree as the batch left it
    and unformatted. *)
Theorem generator_batch_mode (h : Host) (s : Schema.t) (st : State) :
  hasAll s = true → hasName s = false → hasStats s = false →
  generator h s st
  = match runBatchMigration h (mkState (tree st) [] (tsconfigTypes st)) with
    | (Ok _, st1) =>
        (Ok (printUserLogs (userLog st1)),
         withFiles st1 (formatFiles h (files (tree st1))))
    | (Throw e, st1) => (Throw e, st1)
    end.
Proof.
  intros Ha Hn Hs.
  set (st0 := mkState (tree st) [] (tsconfigTypes st)).
  unfold generator. unfold bind at 1. fold st0.
  rewrite (bind_run _ _ _ _ _ (validateSchema_all h s st0 Ha Hn Hs)).
  rewrite Hs, Ha. unfold bind at 1.
  destruct (runBatchMigration h st0) as [[[]|e] st1]; [|done].
  assert ((match Schema.name s with
           | Some name => if hasName s then runMigrationOnProject h name else ret tt
           | None => ret tt
           end) = ret tt) as ->.
  { rewrite Hn. by destruct (Schema.name s). }
  reflexivity.
Qed.

(** X25: with the name of a registered, converged project alone, the
    generator runs that one migration on an empty log; if it goes
    through, the files are formatted and the log is what the returned
    callback prints, between two separator lines; if it throws, the
    generator throws the same error, with the tree as the migration
    left it and unformatted. *)
Theorem generator_name_mode (h : Host) (s : Schema.t) (name : string) (st : State)
    (cfg : ProjectConfiguration) :
  Schema.name s = Some name → hasName s = true →
  hasAll s = false → hasStats s = false →
  lookupProject (projects (tree st)) name = Some cfg →
  convergedOn st (name, cfg) = true →
  generator h s st
  = match runMigrationOnProject h name (mkState (tree st) [] (tsconfigTypes st)) with
    | (Ok _, st1) =>
        (Ok (printUserLogs (userLog st1)),
         withFiles st1 (formatFiles h (files (tree st1))))
    | (Throw e, st1) => (Throw e, st1)
    end.
Proof.
  intros Hname Hn Ha Hs Hcfg Hconv.
  set (st0 := mkState (tree st) [] (tsconfigTypes st)).
  assert (Hv : validateSchema h s st0 = (Ok s, st0)).
  { rewrite (validateSchema_named h s name) by done.
    rewrite (bind_run _ _ st0 cfg st0) by (by apply readProjectConfiguration_run).
    rewrite (convergedOn_tree st st0) in Hconv by done.
    unfold convergedOn in Hconv. cbn [snd] in Hconv.
    pose proof (isPackageConverged_state cfg st0) as Hst.
    destruct (isPackageConverged cfg st0) as [[b|e] s1] eqn:E; simpl in *; [|done].
    subst. by rewrite (bind_run _ _ _ _ _ E). }
  unfold generator. unfold bind at 1. fold st0.
  rewrite (bind_run _ _ _ _ _ Hv). rewrite Hs, Ha, Hname, Hn.
  rewrite (bind_run (ret tt) _ st0 tt st0) by done.
  unfold bind at 1.
  by destruct (runMigrationOnProject h name st0) as [[[]|e] st1].
Qed.

(** ** The further properties at work on the example workspaces *)

Lemma normalizeOptions_strips_scope_witness :
  ∃ options,
    normalizeOptions "@scope/y" StoryExample.start = (Ok options, StoryExample.start)
    ∧ Options.normalizedPkgName options = "y"
    ∧ packageJson (Options.paths options) = "packages/y/package.json".
Proof.
  destruct (normalizeOptions_strips_scope "@scope/y" StoryExample.start
              (mkProject "packages/y" None None []) eq_refl)
    as (options & Hrun & _ & _ & Hstrip & _).
  exists options. split; [exact Hrun|]. split.
  - apply (Hstrip "y"). reflexivity.
  - injection Hrun as <-. reflexivity.
Defined.


Lemma migration_marks_project_migrated_witness :
  ∃ c',
    lookupProject
      (projects (tree (runMigrationOnProject StoryExample.host "@scope/y"
                         StoryExample.start).2)) "@scope/y" = Some c'
    ∧ isProjectMigrated c' = true.
Proof.
  destruct (migration_marks_project_migrated StoryExample.host "@scope/y"
              StoryExample.start
              (runMigrationOnProject StoryExample.host "@scope/y" StoryExample.start).2)
    as (c & c' & _ & Hc' & Hm & _).
  - vm_compute. reflexivity.
  - exists c'. split; [exact Hc'|exact Hm].
Defined.


Lemma migration_of_unregistered_project_witness :
  ∃ msg,
    runMigrationOnProject StoryExample.host "@scope/z" StoryExample.start
    = (Throw (DevkitError msg), StoryExample.start).
Proof.
  apply (migration_of_unregistered_project StoryExample.host "@scope/z" StoryExample.start).
  reflexivity.
Defined.


Lemma unreadable_manifest_stops_batch_and_stats_witness :
  (∃ e st', runBatchMigration StatsExample.host EdgeExample.unreadable = (Throw e, st'))
  ∧ (∃ e, printStats EdgeExample.unreadable = (Throw e, EdgeExample.unreadable)).
Proof.
  apply (unreadable_manifest_stops_batch_and_stats StatsExample.host EdgeExample.unreadable
           ("@scope/e", mkProject "packages/e" None None [])
           (DevkitError "Cannot find packages/e/package.json")).
  - unfold EdgeExample.unreadable. cbn [tree projects].
    apply elem_of_app. right. apply list_elem_of_singleton. reflexivity.
  - vm_compute. reflexivity.
Defined.

Lemma batch_tags_converged_projects_witness :
  projects (tree (runBatchMigration BatchExample.host BatchExample.start).2)
  = [("@scope/a", taggedConfig (mkProject "packages/a" None None []));
     ("@scope/b", mkProject "packages/b" None None []);
     ("@scope/react-examples", mkProject "packages/react-examples" None None [])].
Proof.
  destruct (batch_tags_converged_projects BatchExample.host BatchExample.start
              (runBatchMigration BatchExample.host BatchExample.start).2)
    as [Hp _].
  - vm_compute. repeat constructor; intros H; repeat (apply elem_of_cons in H as [H|H]; [discriminate H|]); apply elem_of_nil in H; destruct H.
  - vm_compute. reflexivity.
  - rewrite Hp. vm_compute. reflexivity.
Defined.

Lemma validateSchema_accepts_one_mode_witness :
  truthyCount (Schema.mk (Some "@scope/a") None None) = 1
  ∧ ∃ name cfg,
      name = "@scope/a"
      ∧ lookupProject (projects (tree StatsExample.start)) name = Some cfg
      ∧ isPackageConverged cfg StatsExample.start = (Ok true, StatsExample.start).
Proof.
  destruct (validateSchema_accepts_one_mode StatsExample.host
              (Schema.mk (Some "@scope/a") None None)
              (Schema.mk (Some "@scope/a") None None)
              StatsExample.start StatsExample.start)
    as (_ & Hcount & _ & _ & Hnamed).
  - vm_compute. reflexivity.
  - split; [exact Hcount|].
    destruct (Hnamed eq_refl) as (name & cfg & Hname & Hcfg & Hconv).
    exists name, cfg. split; [by injection Hname as <-|]. split; [exact Hcfg|exact Hconv].
Defined.

Lemma prompt_never_overrides_flags_witness :
  validateSchema StatsExample.host StatsExample.statsOnly StatsExample.start
  = validateSchema (mkHost (λ _, "{}") (λ _, false) String.leb true "@scope/a" (λ _ text, text) (λ fs, fs))
      StatsExample.statsOnly StatsExample.start.
Proof.
  apply (prompt_never_overrides_flags StatsExample.host
           (mkHost (λ _, "{}") (λ _, false) String.leb true "@scope/a" (λ _ text, text) (λ fs, fs))
           StatsExample.statsOnly StatsExample.start).
  vm_compute. lia.
Defined.

Lemma prompt_answer_stands_for_name_witness :
  validateSchema (mkHost (λ _, "{}") (λ _, false) String.leb true "@scope/a" (λ _ text, text) (λ fs, fs))
    (Schema.mk None None None) StatsExample.start
  = validateSchema (mkHost (λ _, "{}") (λ _, false) String.leb true "@scope/a" (λ _ text, text) (λ fs, fs))
      (Schema.mk (Some "@scope/a") None None) StatsExample.start.
Proof.
  apply (prompt_answer_stands_for_name
           (mkHost (λ _, "{}") (λ _, false) String.leb true "@scope/a" (λ _ text, text) (λ fs, fs))
           (Schema.mk None None None) StatsExample.start).
  reflexivity.
Defined.

Lemma updatedLocalTsConfig_merges_types_witness :
  ∃ types,
    (updatedLocalTsConfig StoryExample.options StoryExample.start).1 = Ok tt
    ∧ tsconfigTypes (updatedLocalTsConfig StoryExample.options StoryExample.start).2 = types
    ∧ NoDup types
    ∧ "node" ∈ types.
Proof.
  destruct (updatedLocalTsConfig_merges_types StoryExample.options StoryExample.start
              (mkTsConfig None None (Some (mkCompilerOptions (Some ["node"]) None [])) [])
              (mkCompilerOptions (Some ["node"]) None []))
    as (types & Hrun & Hnd & Hin & _).
  - vm_compute. reflexivity.
  - reflexivity.
  - exists types. rewrite Hrun. split; [reflexivity|]. split; [reflexivity|].
    split; [exact Hnd|]. apply Hin. right. cbn [co_types default].
    apply list_elem_of_singleton. reflexivity.
Defined.

Lemma tsconfig_types_carry_over_witness :
  ∃ st1 st2 types,
    runMigrationOnProject StoryExample.host "@scope/x" EdgeExample.twoConfigs = (Ok tt, st1)
    ∧ runMigrationOnProject StoryExample.host "@scope/y" st1 = (Ok tt, st2)
    ∧ files (tree st2) !! "packages/y/tsconfig.json"
      = Some (FTsConfig (templates.tsconfig types))
    ∧ "webpack-env" ∈ types.
Proof.
  pose (st1 := (runMigrationOnProject StoryExample.host "@scope/x" EdgeExample.twoConfigs).2).
  pose (st2 := (runMigrationOnProject StoryExample.host "@scope/y" st1).2).
  assert (H1 : runMigrationOnProject StoryExample.host "@scope/x" EdgeExample.twoConfigs
               = (Ok tt, st1)).
  { vm_compute. reflexivity. }
  assert (H2 : runMigrationOnProject StoryExample.host "@scope/y" st1 = (Ok tt, st2)).
  { vm_compute. reflexivity. }
  destruct (tsconfig_types_carry_over StoryExample.host "@scope/x" "@scope/y"
              EdgeExample.twoConfigs st1 st2
              (mkProject "packages/x" None None [])
              (mkProject "packages/y" None None [])
              (mkTsConfig None None
                 (Some (mkCompilerOptions (Some ["webpack-env"]) None [])) [])
              (mkCompilerOptions (Some ["webpack-env"]) None [])
              "webpack-env")
    as (_ & types & Hfile & Hin).
  - reflexivity.
  - vm_compute. reflexivity.
  - reflexivity.
  - cbn [co_types default]. apply list_elem_of_singleton. reflexivity.
  - exact H1.
  - vm_compute. reflexivity.
  - vm_compute. reflexivity.
  - exact H2.
  - exists st1, st2, types. split; [exact H1|]. split; [exact H2|].
    split; [exact Hfile|exact Hin].
Defined.

Lemma updateLocalJestConfig_keeps_setup_file_witness :
  ∃ options st',
    normalizeOptions "@scope/y" StoryExample.start = (Ok options, StoryExample.start)
    ∧ updateLocalJestConfig options StoryExample.start = (Ok tt, st')
    ∧ files (tree st') !! jestSetupFilePath options = Some (FText templates.jestSetup)
    ∧ jestSetupFilePath options = "packages/y/config/tests.js".
Proof.
  destruct (updateLocalJestConfig_keeps_setup_file "@scope/y" StoryExample.start
              (mkProject "packages/y" None None [])
              (mkPackageJson (Some "9.0.0")
                 (Some {["update-snapshots" := "just-scripts jest -u";
                         "start-test" := "just-scripts jest-watch";
                         "test:watch" := "just-scripts jest-watch";
                         "other" := "just-scripts other"]})
                 (Some {["@scope/x" := "^9.0.0"; "react" := "16.8.6"]}) []))
    as (options & st' & Hopt & Hrun & _ & Hsetup & _).
  - reflexivity.
  - vm_compute. reflexivity.
  - exists options, st'. split; [exact Hopt|]. split; [exact Hrun|].
    injection Hopt as <-. split; [exact Hsetup|reflexivity].
Defined.

Lemma removal_drops_examples_dependency_witness :
  ∃ st',
    removeMigratedPackageFromReactExamples StoryExample.options StoryExample.start
    = (Ok tt, st')
    ∧ existsIn (files (tree st')) "packages/react-examples/src/y" = false
    ∧ length (userLog st') = 2.
Proof.
  destruct (removal_drops_examples_dependency StoryExample.options StoryExample.start
              (mkProject "packages/react-examples" None None [])
              (mkPackageJson (Some "8.0.0")
                 (Some {["update-snapshots" := "just-scripts jest -u";
                         "start-test" := "just-scripts jest-watch";
                         "test:watch" := "just-scripts jest-watch";
                         "other" := "just-scripts other"]})
                 (Some {["@scope/y" := "^9.0.0"]}) []))
    as (st' & Hrun & Hgone & _ & _ & Hlog).
  - reflexivity.
  - vm_compute. reflexivity.
  - vm_compute. reflexivity.
  - exists st'. split; [exact Hrun|]. split; [exact Hgone|]. rewrite Hlog. reflexivity.
Defined.

Lemma removal_deletes_before_failing_witness :
  ∃ msg st',
    removeMigratedPackageFromReactExamples StoryExample.options EdgeExample.noExamplesManifest
    = (Throw (DevkitError msg), st')
    ∧ existsIn (files (tree st')) "packages/react-examples/src/y" = false.
Proof.
  destruct (removal_deletes_before_failing StoryExample.options
              EdgeExample.noExamplesManifest
              (mkProject "packages/react-examples" None None []))
    as (msg & st' & Hrun & _ & Hgone & _).
  - reflexivity.
  - vm_compute. reflexivity.
  - intros pj H. vm_compute in H. discriminate H.
  - exists msg, st'. split; [exact Hrun|exact Hgone].
Defined.

Lemma empty_story_stops_relocation_witness :
  ∃ q st',
    moveStorybookFromReactExamples StoryExample.host StoryExample.options
      EdgeExample.emptyStory
    = (Throw (Error ("Error moving " +:+ storyFileName q +:+ " from react-examples")), st').
Proof.
  destruct (empty_story_stops_relocation StoryExample.host StoryExample.options
              EdgeExample.emptyStory
              (mkProject "packages/react-examples" None None [])
              "packages/react-examples/src/y/Empty.stories.tsx" (FText ""))
    as (q & st' & _ & Hrun).
  - reflexivity.
  - vm_compute. repeat constructor.
  - vm_compute. reflexivity.
  - reflexivity.
  - intros q1 q2 H1 H2. vm_compute in H1, H2.
    repeat (apply elem_of_cons in H1 as [->|H1]);
      [..|apply elem_of_nil in H1; destruct H1];
      (repeat (apply elem_of_cons in H2 as [->|H2]);
       [..|apply elem_of_nil in H2; destruct H2]);
      vm_compute; discriminate.
  - exists q, st'. exact Hrun.
Defined.

Lemma failing_step_changes_nothing_witness :
  (updatedLocalTsConfig StoryExample.options StatsExample.start).2 = StatsExample.start.
Proof.
  apply (failing_step_changes_nothing StoryExample.options
           (updatedLocalTsConfig StoryExample.options) StatsExample.start
           (updatedLocalTsConfig StoryExample.options StatsExample.start).2
           (DevkitError "Cannot find packages/y/tsconfig.json")).
  - apply list_elem_of_here.
  - vm_compute. reflexivity.
Defined.

Lemma updateNpmScripts_needs_scripts_witness :
  ∃ msg,
    updateNpmScripts StoryExample.options EdgeExample.noScripts
    = (Throw (TypeError msg), EdgeExample.noScripts).
Proof.
  apply (updateNpmScripts_needs_scripts StoryExample.options EdgeExample.noScripts
           (mkPackageJson (Some "9.0.0") None None [])).
  - vm_compute. reflexivity.
  - reflexivity.
Defined.

Lemma files_that_are_no_stories_are_dropped_witness :
  ∃ st',
    (moveStorybookFromReactExamples StoryExample.host EdgeExample.optionsX
     >>> removeMigratedPackageFromReactExamples EdgeExample.optionsX)
      EdgeExample.notesOnly = (Ok tt, st')
    ∧ files (tree st') !! "packages/react-examples/src/x/README.md" = None
    ∧ files (tree st') !! "packages/x/src/README.md" = None.
Proof.
  destruct (files_that_are_no_stories_are_dropped StoryExample.host EdgeExample.optionsX
              EdgeExample.notesOnly
              (mkProject "packages/react-examples" None None [])
              (mkPackageJson (Some "8.0.0")
                 (Some {["update-snapshots" := "just-scripts jest -u";
                         "start-test" := "just-scripts jest-watch";
                         "test:watch" := "just-scripts jest-watch";
                         "other" := "just-scripts other"]})
                 (Some {["@scope/y" := "^9.0.0"]}) []))
    as (st' & Hrun & Hgone & Hframe & _).
  - reflexivity.
  - apply (storyPathsIn_nil StoryExample.host). vm_compute. reflexivity.
  - vm_compute. reflexivity.
  - vm_compute. reflexivity.
  - exists st'. split; [exact Hrun|]. split.
    + apply Hgone. vm_compute. reflexivity.
    + rewrite Hframe; [vm_compute; reflexivity|vm_compute; reflexivity|discriminate].
Defined.

Lemma generator_batch_mode_witness :
  generator BatchExample.host (Schema.mk None (Some true) None) BatchExample.start
  = match runBatchMigration BatchExample.host
            (mkState (tree BatchExample.start) [] (tsconfigTypes BatchExample.start)) with
    | (Ok _, st1) =>
        (Ok (printUserLogs (userLog st1)),
         withFiles st1 (formatFiles BatchExample.host (files (tree st1))))
    | (Throw e, st1) => (Throw e, st1)
    end.
Proof.
  apply (generator_batch_mode BatchExample.host (Schema.mk None (Some true) None)
           BatchExample.start); reflexivity.
Defined.

Lemma generator_name_mode_witness :
  generator StoryExample.host (Schema.mk (Some "@scope/y") None None) StoryExample.start
  = match runMigrationOnProject StoryExample.host "@scope/y"
            (mkState (tree StoryExample.start) [] (tsconfigTypes StoryExample.start)) with
    | (Ok _, st1) =>
        (Ok (printUserLogs (userLog st1)),
         withFiles st1 (formatFiles StoryExample.host (files (tree st1))))
    | (Throw e, st1) => (Throw e, st1)
    end.
Proof.
  apply (generator_name_mode StoryExample.host (Schema.mk (Some "@scope/y") None None)
           "@scope/y" StoryExample.start (mkProject "packages/y" None None []));
    reflexivity.
Defined.

Lemma stats_after_batch_witness :
  (printStats (runBatchMigration BatchExample.host BatchExample.start).2).1
  = Ok (statsReport
          (mkStats [("@scope/a", taggedConfig (mkProject "packages/a" None None []))] [])).
Proof.
  rewrite (stats_after_batch BatchExample.host BatchExample.start
             (runBatchMigration BatchExample.host BatchExample.start).2).
  - vm_compute. reflexivity.
  - vm_compute. repeat constructor; intros H;
      repeat (apply elem_of_cons in H as [H|H]; [discriminate H|]);
      apply elem_of_nil in H; destruct H.
  - vm_compute. reflexivity.
  - repeat constructor; eexists; vm_compute; reflexivity.
Defined.
